(** * select_on_hover: the hover-driven circle selection tool

    A shallow embedding of [map_tool_select_circle.py] (the map tool
    [MapToolSelectCircle]) and of the activation glue of
    [select_on_hover.py] (the plugin shell), together with the properties
    the specification states about them.

    Conventions.
    - Python [int] is [Z]; a finite Python [float] is the rational it
      stands for, in [Q]; the quotient of two floats is rounded to
      binary64 ([float_div]) and the infinities are the failure of the
      rounding; [str] is [string], [set] of feature ids is [gset Z], the
      dict [layer_indexes] is a [gmap string _].  A Python [int] handed
      to Qt must fit a C [int] ([_cursor_for_radius]).
    - A call that may raise returns a [result]; statements run in the monad
      [M], which threads the mutable state, propagates exceptions and
      collects what is sent to the host's sinks (message log, status bar,
      Qt signals).  [try_except] is Python's [try: ... except Exception:].
      An exception that leaves a slot or a virtual method called by Qt
      goes to [sys.excepthook] ([Unhandled]) and the caller goes on.
    - The QGIS and Qt services the tool calls are modelled by the records
      [Layer], [Host] and the class [Geo]; every host call the source wraps
      in a [try] has a failure oracle there. *)

From stdpp Require Import base gmap sets list strings pretty.
From Stdlib Require Import ZArith QArith Qround Lia.

#[local] Open Scope string_scope.
#[local] Open Scope list_scope.
#[local] Open Scope Z_scope.

(** ** Exceptions, state and emitted effects *)

Inductive result (A : Type) : Type :=
| Ok (a : A)
| Raise (e : string).
Arguments Ok {A} a.
Arguments Raise {A} e.

Inductive Severity := Info | Warning.

(** What the tool sends to the host's sinks. *)
Inductive Effect :=
| LogMessage (msg : string) (tag : string) (level : Severity)
| StatusBarMessage (msg : string) (timeout : Z)
| MessageBarMessage (title msg : string) (duration : Z)
| IndexesRebuilt
| SelectionComplete (n : Z)
| Unhandled (e : string).   (* sys.excepthook *)

Definition M (S A : Type) : Type := S -> result A * S * list Effect.

Definition ret {S A} (a : A) : M S A := fun s => (Ok a, s, []).

Definition bind {S A B} (m : M S A) (k : A -> M S B) : M S B :=
  fun s =>
    match m s with
    | (Ok a, s1, t1) => let '(r, s2, t2) := k a s1 in (r, s2, t1 ++ t2)
    | (Raise e, s1, t1) => (Raise e, s1, t1)
    end.

Definition call {S A} (r : result A) : M S A := fun s => (r, s, []).

Definition gets {S A} (f : S -> A) : M S A := fun s => (Ok (f s), s, []).

Definition modify {S} (f : S -> S) : M S unit := fun s => (Ok tt, f s, []).

Definition emit {S} (e : Effect) : M S unit := fun s => (Ok tt, s, [e]).

(** [try: m  except Exception as e: h e].  The state reached when the
    exception was raised is kept, as in Python. *)
Definition try_except {S A} (m : M S A) (h : string -> M S A) : M S A :=
  fun s =>
    match m s with
    | (Ok a, s1, t1) => (Ok a, s1, t1)
    | (Raise e, s1, t1) => let '(r, s2, t2) := h e s1 in (r, s2, t1 ++ t2)
    end.

Notation "x <- m ;; k" := (bind m (fun x => k))
  (at level 100, m at next level, right associativity).
Notation "m ;;; k" := (bind m (fun _ => k))
  (at level 100, right associativity).

(** [for x in xs: acc = body acc x], a loop that carries its local
    variables in [acc]; [continue] is the body returning [acc]. *)
Fixpoint for_fold {S A X} (body : A -> X -> M S A) (acc : A) (xs : list X) : M S A :=
  match xs with
  | [] => ret acc
  | x :: xs' => acc' <- body acc x ;; for_fold body acc' xs'
  end.

Definition for_each {S X} (xs : list X) (body : X -> M S unit) : M S unit :=
  for_fold (fun _ x => body x) tt xs.

(** Python's [set.symmetric_difference]. *)
Definition symmetric_difference (a b : gset Z) : gset Z := (a ∖ b) ∪ (b ∖ a).

(** Python's [round] on a float, to an [int]: nearest, ties to even. *)
Definition py_round (q : Q) : Z :=
  let n := Qnum q in
  let d := Zpos (Qden q) in
  let fl := n / d in
  match (2 * (n mod d)) ?= d with
  | Lt => fl
  | Gt => fl + 1
  | Eq => if Z.even fl then fl else fl + 1
  end.

(** ** Floats and C integers *)

(** [2 ^ e] for any integer [e]. *)
Definition Qpow2 (e : Z) : Q :=
  if decide (0 <= e) then inject_Z (2 ^ e) else 1 # Z.to_pos (2 ^ (- e)).

(** [floor (log2 q)] of a positive [q]. *)
Definition Qlog2 (q : Q) : Z :=
  let e := Z.log2 (Qnum q) - Z.log2 (Zpos (Qden q)) in
  if Qle_bool (Qpow2 e) q then e else e - 1.

(** The binary64 number nearest to a positive [q], ties to the even
    significand: 53 bits, exponents from -1022 (subnormal below); [None]
    is the infinity. *)
Definition b64_abs (q : Q) : option Q :=
  let e := Z.max (-1022) (Qlog2 q) in
  let ulp := Qpow2 (e - 52) in
  let r := Qred (inject_Z (py_round (q / ulp)) * ulp) in
  if Qle_bool (Qpow2 1024) r then None else Some r.

Definition b64 (q : Q) : option Q :=
  match Qnum q with
  | 0 => Some 0%Q
  | Zpos _ => b64_abs q
  | Zneg _ => Qopp <$> b64_abs (- q)
  end.

(** [a / b] on floats, for [b] other than zero. *)
Definition float_div (a b : Q) : option Q := b64 (a / b).

(** The float a decimal literal of the source denotes. *)
Definition float_lit (q : Q) : Q := default q (b64 q).

(** The nearest integer, ties away from zero. *)
Definition round_half_away (q : Q) : Z :=
  let n := Qnum q in
  let d := Zpos (Qden q) in
  Z.sgn n * ((2 * Z.abs n + d) / (2 * d)).

(** The range of a C [int]: PyQt raises [OverflowError] for a Python
    [int] outside it. *)
Definition INT_MIN : Z := - 2 ^ 31.
Definition INT_MAX : Z := 2 ^ 31 - 1.

Definition fits_int (n : Z) : Prop := INT_MIN <= n <= INT_MAX.

(** ** Qt: a single-shot timer *)

(** [QPoint]: a screen position. *)
Definition QPoint : Type := Z * Z.

(** A [QTimer] after [setSingleShot(True)]: inactive, or armed with the
    milliseconds left until its one timeout. *)
Definition QTimer : Type := option Z.

Definition QTimer_start (ms : Z) (_ : QTimer) : QTimer := Some ms.
Definition QTimer_stop (_ : QTimer) : QTimer := None.

(** ** The geometry and CRS services of the host *)

(** The types of the service: geometries, rectangles, coordinate
    reference systems, map points. *)
Class GeoTypes := {
  geometry : Type;
  rectangle : Type;
  crs : Type;
  map_point : Type
}.

Class Geo (T : GeoTypes) := {
  crs_eq_dec :: EqDecision crs;
  (** [QgsGeometry.fromPointXY(p).buffer(radius, segments)] *)
  point_buffer : map_point -> Q -> Z -> geometry;
  (** [QgsCoordinateTransform(src, dst, project)] applied to a clone *)
  geom_transform : crs -> crs -> geometry -> result geometry;
  boundingBox : geometry -> rectangle;
  rect_intersects : rectangle -> rectangle -> bool;
  (** [g.intersects(other)], the exact test *)
  geom_intersects : geometry -> geometry -> bool
}.

(** ** Plain data of the host and of the tool *)

Inductive LayerType := VectorLayer | RasterLayer | PluginLayer.

#[global] Instance LayerType_eq_dec : EqDecision LayerType.
Proof. solve_decision. Defined.

(** The canvas's current map tool: none, this tool, or another one. *)
Inductive MapToolRef := NoTool | ThisTool | OtherTool (n : nat).

#[global] Instance MapToolRef_eq_dec : EqDecision MapToolRef.
Proof. solve_decision. Defined.

(** The cursor pixmap built by [_cursor_for_radius]. *)
Record Cursor := { cur_size : Z; cur_radius : Z; cur_hot : Z }.

(** The values the control panel exposes through its properties. *)
Record Panel := {
  pixel_radius : Z;
  mapunit_radius : Q;
  p_unit_mode : string;
  p_restrict_mode : string;
  p_selection_mode : string;
  p_show_rubber_band : bool
}.

(** The fields of [SelectOnHoverPlugin] that activation reads or writes. *)
Record Shell := {
  panel : Panel;
  previous_map_tool : MapToolRef;
  checked : bool  (* toolbutton.isChecked() *)
}.

Definition set_panel (v : Panel) (x : Shell) : Shell :=
  {| panel := v; previous_map_tool := previous_map_tool x; checked := checked x |}.
Definition set_previous_map_tool (v : MapToolRef) (x : Shell) : Shell :=
  {| panel := panel x; previous_map_tool := v; checked := checked x |}.
Definition set_checked (v : bool) (x : Shell) : Shell :=
  {| panel := panel x; previous_map_tool := previous_map_tool x; checked := v |}.

Definition DEFAULT_CIRCLE_SEGMENTS : Z := 32.
Definition DEFAULT_HOVER_DELAY_MS : Z := 15.

Section Model.
Context {T : GeoTypes} {G : Geo T}.

(** A feature: its id and its geometry, if it has one. *)
Record Feature := { f_id : Z; f_geometry : option geometry }.

(** A map layer as the tool sees it.  [l_selectable] and the last five
    fields are the outcomes of the host calls that the source guards with
    [try]: [None] means that the call succeeds, [Some e] (or [Raise e])
    that it raises an exception whose [str] is [e]. *)
Record Layer := {
  l_id : string;
  l_name : string;
  l_type : LayerType;
  l_selectable : result bool;
  l_crs : crs;
  l_features : list Feature;
  l_index_build : option string;
  l_index_query : option string;
  l_fetch : Z -> option string;
  l_read_selection : option string;
  l_commit : option string
}.

(** A [QgsSpatialIndex]: the bounding box of every feature that had a
    geometry when the index was built. *)
Record SpatialIndex := {
  idx_entries : list (Z * rectangle);
  idx_query : option string
}.

(** The [QgsRubberBand] overlay. *)
Record RubberBand := { rb_visible : bool; rb_geometry : option geometry }.

Record Tool := Build_Tool {
  radius_pixels : Z;
  radius_map_units : Q;
  unit_mode : string;
  circle_segments : Z;
  restrict_mode : string;
  selection_mode : string;
  show_rubber_band : bool;
  cursor : Cursor;
  layer_indexes : gmap string SpatialIndex;
  indexed_layer_ids : gset string;
  rubber_band : RubberBand;
  _hover_timer : QTimer;
  _hover_delay_ms : Z;
  _pending_pos : option QPoint
}.

Definition set_radius_pixels (v : Z) (x : Tool) : Tool :=
  Build_Tool v (radius_map_units x) (unit_mode x) (circle_segments x)
    (restrict_mode x) (selection_mode x) (show_rubber_band x) (cursor x)
    (layer_indexes x) (indexed_layer_ids x) (rubber_band x) (_hover_timer x)
    (_hover_delay_ms x) (_pending_pos x).
Definition set_radius_map_units (v : Q) (x : Tool) : Tool :=
  Build_Tool (radius_pixels x) v (unit_mode x) (circle_segments x)
    (restrict_mode x) (selection_mode x) (show_rubber_band x) (cursor x)
    (layer_indexes x) (indexed_layer_ids x) (rubber_band x) (_hover_timer x)
    (_hover_delay_ms x) (_pending_pos x).
Definition set_unit_mode (v : string) (x : Tool) : Tool :=
  Build_Tool (radius_pixels x) (radius_map_units x) v (circle_segments x)
    (restrict_mode x) (selection_mode x) (show_rubber_band x) (cursor x)
    (layer_indexes x) (indexed_layer_ids x) (rubber_band x) (_hover_timer x)
    (_hover_delay_ms x) (_pending_pos x).
Definition set_restrict_mode (v : string) (x : Tool) : Tool :=
  Build_Tool (radius_pixels x) (radius_map_units x) (unit_mode x)
    (circle_segments x) v (selection_mode x) (show_rubber_band x) (cursor x)
    (layer_indexes x) (indexed_layer_ids x) (rubber_band x) (_hover_timer x)
    (_hover_delay_ms x) (_pending_pos x).
Definition set_selection_mode (v : string) (x : Tool) : Tool :=
  Build_Tool (radius_pixels x) (radius_map_units x) (unit_mode x)
    (circle_segments x) (restrict_mode x) v (show_rubber_band x) (cursor x)
    (layer_indexes x) (indexed_layer_ids x) (rubber_band x) (_hover_timer x)
    (_hover_delay_ms x) (_pending_pos x).
Definition set_show_rubber_band (v : bool) (x : Tool) : Tool :=
  Build_Tool (radius_pixels x) (radius_map_units x) (unit_mode x)
    (circle_segments x) (restrict_mode x) (selection_mode x) v (cursor x)
    (layer_indexes x) (indexed_layer_ids x) (rubber_band x) (_hover_timer x)
    (_hover_delay_ms x) (_pending_pos x).
Definition set_cursor (v : Cursor) (x : Tool) : Tool :=
  Build_Tool (radius_pixels x) (radius_map_units x) (unit_mode x)
    (circle_segments x) (restrict_mode x) (selection_mode x)
    (show_rubber_band x) v (layer_indexes x) (indexed_layer_ids x)
    (rubber_band x) (_hover_timer x) (_hover_delay_ms x) (_pending_pos x).
Definition set_layer_indexes (v : gmap string SpatialIndex) (x : Tool) : Tool :=
  Build_Tool (radius_pixels x) (radius_map_units x) (unit_mode x)
    (circle_segments x) (restrict_mode x) (selection_mode x)
    (show_rubber_band x) (cursor x) v (indexed_layer_ids x) (rubber_band x)
    (_hover_timer x) (_hover_delay_ms x) (_pending_pos x).
Definition set_indexed_layer_ids (v : gset string) (x : Tool) : Tool :=
  Build_Tool (radius_pixels x) (radius_map_units x) (unit_mode x)
    (circle_segments x) (restrict_mode x) (selection_mode x)
    (show_rubber_band x) (cursor x) (layer_indexes x) v (rubber_band x)
    (_hover_timer x) (_hover_delay_ms x) (_pending_pos x).
Definition set_rubber_band (v : RubberBand) (x : Tool) : Tool :=
  Build_Tool (radius_pixels x) (radius_map_units x) (unit_mode x)
    (circle_segments x) (restrict_mode x) (selection_mode x)
    (show_rubber_band x) (cursor x) (layer_indexes x) (indexed_layer_ids x)
    v (_hover_timer x) (_hover_delay_ms x) (_pending_pos x).
Definition set_hover_timer (v : QTimer) (x : Tool) : Tool :=
  Build_Tool (radius_pixels x) (radius_map_units x) (unit_mode x)
    (circle_segments x) (restrict_mode x) (selection_mode x)
    (show_rubber_band x) (cursor x) (layer_indexes x) (indexed_layer_ids x)
    (rubber_band x) v (_hover_delay_ms x) (_pending_pos x).
Definition set_pending_pos (v : option QPoint) (x : Tool) : Tool :=
  Build_Tool (radius_pixels x) (radius_map_units x) (unit_mode x)
    (circle_segments x) (restrict_mode x) (selection_mode x)
    (show_rubber_band x) (cursor x) (layer_indexes x) (indexed_layer_ids x)
    (rubber_band x) (_hover_timer x) (_hover_delay_ms x) v.

(** The project, the layer tree, the canvas and the layers' selections. *)
Record Host := Build_Host {
  mapLayers : list Layer;
  project_crs : crs;
  layerTree : string -> option bool;
  currentLayer : option string;
  mapUnitsPerPixel : Q;
  toMapCoordinates : QPoint -> map_point;
  mapTool : MapToolRef;
  canvas_cursor : option Cursor;
  selectedFeatureIds : gmap string (gset Z)
}.

Definition set_mapLayers (v : list Layer) (x : Host) : Host :=
  Build_Host v (project_crs x) (layerTree x) (currentLayer x)
    (mapUnitsPerPixel x) (toMapCoordinates x) (mapTool x) (canvas_cursor x)
    (selectedFeatureIds x).
Definition set_mapUnitsPerPixel (v : Q) (x : Host) : Host :=
  Build_Host (mapLayers x) (project_crs x) (layerTree x) (currentLayer x)
    v (toMapCoordinates x) (mapTool x) (canvas_cursor x)
    (selectedFeatureIds x).
Definition set_currentLayer (v : option string) (x : Host) : Host :=
  Build_Host (mapLayers x) (project_crs x) (layerTree x) v
    (mapUnitsPerPixel x) (toMapCoordinates x) (mapTool x) (canvas_cursor x)
    (selectedFeatureIds x).
Definition set_mapTool (v : MapToolRef) (x : Host) : Host :=
  Build_Host (mapLayers x) (project_crs x) (layerTree x) (currentLayer x)
    (mapUnitsPerPixel x) (toMapCoordinates x) v (canvas_cursor x)
    (selectedFeatureIds x).
Definition set_canvas_cursor (v : option Cursor) (x : Host) : Host :=
  Build_Host (mapLayers x) (project_crs x) (layerTree x) (currentLayer x)
    (mapUnitsPerPixel x) (toMapCoordinates x) (mapTool x) v
    (selectedFeatureIds x).
Definition set_selectedFeatureIds (v : gmap string (gset Z)) (x : Host) : Host :=
  Build_Host (mapLayers x) (project_crs x) (layerTree x) (currentLayer x)
    (mapUnitsPerPixel x) (toMapCoordinates x) (mapTool x) (canvas_cursor x)
    v.

Record Sys := Build_Sys { tool : Tool; host : Host; shell : Shell }.

Definition on_tool (f : Tool -> Tool) (s : Sys) : Sys :=
  Build_Sys (f (tool s)) (host s) (shell s).
Definition on_host (f : Host -> Host) (s : Sys) : Sys :=
  Build_Sys (tool s) (f (host s)) (shell s).
Definition on_shell (f : Shell -> Shell) (s : Sys) : Sys :=
  Build_Sys (tool s) (host s) (f (shell s)).

(** ** Host calls *)

Definition raise {A} (e : string) : M Sys A := call (Raise e).

(** [QgsMessageLog.logMessage(msg, "SelectOnHover", level)] *)
Definition logMessage (msg : string) (level : Severity) : M Sys unit :=
  emit (LogMessage msg "SelectOnHover" level).

Definition index_entry (f : Feature) : option (Z * rectangle) :=
  match f_geometry f with
  | Some g => Some (f_id f, boundingBox g)
  | None => None
  end.

(** [QgsSpatialIndex(layer.getFeatures())] *)
Definition QgsSpatialIndex (layer : Layer) : M Sys SpatialIndex :=
  match l_index_build layer with
  | Some e => raise e
  | None => ret {| idx_entries := omap index_entry (l_features layer);
                   idx_query := l_index_query layer |}
  end.

(** [index.intersects(bbox)]: the ids whose bounding box meets [bbox]. *)
Definition index_intersects (index : SpatialIndex) (bbox : rectangle) : M Sys (list Z) :=
  match idx_query index with
  | Some e => raise e
  | None =>
      ret (fst <$> List.filter (fun e => rect_intersects (snd e) bbox) (idx_entries index))
  end.

Definition FID_NULL : Z := - 2 ^ 63.

(** What [getFeature] returns for an id the layer does not have. *)
Definition invalid_feature : Feature := {| f_id := FID_NULL; f_geometry := None |}.

(** [layer.getFeature(fid)] *)
Definition layer_getFeature (layer : Layer) (fid : Z) : M Sys Feature :=
  match l_fetch layer fid with
  | Some e => raise e
  | None =>
      ret (default invalid_feature
             (List.find (fun f => bool_decide (f_id f = fid)) (l_features layer)))
  end.

(** [QgsFeatureRequest().setFilterRect(bbox)]: the features the request
    lets through. *)
Definition filter_rect (bbox : rectangle) (f : Feature) : bool :=
  match f_geometry f with
  | Some g => rect_intersects (boundingBox g) bbox
  | None => false
  end.

Definition layer_getFeatures (layer : Layer) (bbox : rectangle) : list Feature :=
  List.filter (filter_rect bbox) (l_features layer).

(** One step of the feature iterator: fetching the next feature may raise. *)
Definition iter_next (layer : Layer) (f : Feature) : M Sys Feature :=
  match l_fetch layer (f_id f) with
  | Some e => raise e
  | None => ret f
  end.

(** [layer.selectedFeatureIds()] *)
Definition layer_selectedFeatureIds (layer : Layer) : M Sys (gset Z) :=
  match l_read_selection layer with
  | Some e => raise e
  | None => gets (fun s => selectedFeatureIds (host s) !!! l_id layer)
  end.

(** [layer.selectByIds(ids)]: replaces the layer's selection, or raises
    and leaves it as it was. *)
Definition layer_selectByIds (layer : Layer) (ids : gset Z) : M Sys unit :=
  match l_commit layer with
  | Some e => raise e
  | None =>
      modify (on_host (fun h =>
        set_selectedFeatureIds (<[l_id layer := ids]> (selectedFeatureIds h)) h))
  end.

(** ** MapToolSelectCircle *)

(** [_cursor_for_radius]: the pixmap is [max(16, 2*radius+8)] wide and the
    hot spot is its centre.  [QPixmap(size, size)] and
    [drawEllipse(center, radius, radius)] take C [int]s. *)
Definition _cursor_for_radius (radius : Z) : result Cursor :=
  let size := Z.max 16 (radius * 2 + 8) in
  if decide (fits_int size /\ fits_int radius)
  then Ok {| cur_size := size; cur_radius := radius; cur_hot := size / 2 |}
  else Raise "OverflowError".

(** [__init__].  [int] and [float] are the identity on arguments of the
    documented types.  The timer is created single-shot and not started.
    When the cursor cannot be built the constructor raises and there is
    no tool. *)
Definition __init__ (rp : Z) (rmu : Q) (um : string) (segments : Z)
    (rm sm : string) (show : bool) : result Tool :=
  let radius := Z.max 1 rp in
  match _cursor_for_radius radius with
  | Raise e => Raise e
  | Ok c =>
      Ok {| radius_pixels := radius;
            radius_map_units := rmu;
            unit_mode := um;
            circle_segments := segments;
            restrict_mode := rm;
            selection_mode := sm;
            show_rubber_band := show;
            cursor := c;
            layer_indexes := ∅;
            indexed_layer_ids := ∅;
            rubber_band := {| rb_visible := show; rb_geometry := None |};
            _hover_timer := None;
            _hover_delay_ms := DEFAULT_HOVER_DELAY_MS;
            _pending_pos := None |}
  end.

(** [_compute_pixel_radius_for_cursor].  The quotient is a float; when
    it is an infinity [round] raises. *)
Definition _compute_pixel_radius_for_cursor : M Sys Z :=
  um <- gets (fun s => unit_mode (tool s)) ;;
  if decide (um = "pixels") then
    rp <- gets (fun s => radius_pixels (tool s)) ;;
    ret (Z.max 1 rp)
  else
    mup <- gets (fun s => mapUnitsPerPixel (host s)) ;;
    if Qlt_le_dec 0 mup then
      rmu <- gets (fun s => radius_map_units (tool s)) ;;
      match float_div rmu mup with
      | Some quotient => ret (Z.max 1 (py_round quotient))
      | None => raise "OverflowError"
      end
    else
      rp <- gets (fun s => radius_pixels (tool s)) ;;
      ret (Z.max 1 rp).

(** [QgsMapTool.setCursor]: the tool keeps the cursor, and the canvas
    takes it if the tool is the canvas's tool. *)
Definition setCursor (c : Cursor) : M Sys unit :=
  modify (on_tool (set_cursor c)) ;;;
  current <- gets (fun s => mapTool (host s)) ;;
  if decide (current = ThisTool)
  then modify (on_host (set_canvas_cursor (Some c))) else ret tt.

(** [setRadius]: an argument that is [None] leaves its field alone. *)
Definition setRadius (pixel_radius : option Z) (mapunit_radius : option Q)
    (unit_mode : option string) : M Sys unit :=
  match pixel_radius with
  | Some v => modify (on_tool (set_radius_pixels (Z.max 1 v)))
  | None => ret tt
  end ;;;
  match mapunit_radius with
  | Some v => modify (on_tool (set_radius_map_units v))
  | None => ret tt
  end ;;;
  match unit_mode with
  | Some v =>
      if decide (v = "pixels" \/ v = "map_units")
      then modify (on_tool (set_unit_mode v)) else ret tt
  | None => ret tt
  end ;;;
  pix_radius <- _compute_pixel_radius_for_cursor ;;
  c <- call (_cursor_for_radius pix_radius) ;;
  setCursor c.

Definition setRestrictMode (restrict_mode : string) : M Sys unit :=
  if decide (restrict_mode = "all" \/ restrict_mode = "visible" \/ restrict_mode = "active")
  then modify (on_tool (set_restrict_mode restrict_mode)) else ret tt.

Definition setSelectionMode (selection_mode : string) : M Sys unit :=
  if decide (selection_mode = "add" \/ selection_mode = "replace" \/ selection_mode = "toggle")
  then modify (on_tool (set_selection_mode selection_mode)) else ret tt.

Definition rubber_band_show (rb : RubberBand) : RubberBand :=
  {| rb_visible := true; rb_geometry := rb_geometry rb |}.
Definition rubber_band_hide (rb : RubberBand) : RubberBand :=
  {| rb_visible := false; rb_geometry := rb_geometry rb |}.
Definition rubber_band_reset (rb : RubberBand) : RubberBand :=
  {| rb_visible := rb_visible rb; rb_geometry := None |}.
Definition rubber_band_setToGeometry (g : geometry) (rb : RubberBand) : RubberBand :=
  {| rb_visible := rb_visible rb; rb_geometry := Some g |}.

Definition on_rubber_band (f : RubberBand -> RubberBand) : M Sys unit :=
  modify (on_tool (fun t => set_rubber_band (f (rubber_band t)) t)).

Definition setShowRubberBand (show : bool) : M Sys unit :=
  modify (on_tool (set_show_rubber_band show)) ;;;
  if show then on_rubber_band rubber_band_show else on_rubber_band rubber_band_hide.

(** The test both layer loops start with: [true] when the loop body hits a
    [continue] before reaching the work on the layer.  An exception of
    [layer.selectable()] is swallowed ([pass]) and the layer goes on. *)
Definition skip_layer (layer : Layer) : M Sys bool :=
  if decide (l_type layer <> VectorLayer) then ret true else
  unselectable <- try_except
      (selectable <- call (l_selectable layer) ;; ret (negb selectable))
      (fun _ => ret false) ;;
  if unselectable then ret true else
  rm <- gets (fun s => restrict_mode (tool s)) ;;
  if decide (rm = "visible") then
    node <- gets (fun s => layerTree (host s) (l_id layer)) ;;
    match node with
    | None => ret true
    | Some visible => ret (negb visible)
    end
  else if decide (rm = "active") then
    active <- gets (fun s => currentLayer (host s)) ;;
    match active with
    | None => ret true
    | Some active_id => ret (bool_decide (active_id <> l_id layer))
    end
  else ret false.

(** The body of the layer loop of [rebuildIndexes]. *)
Definition index_layer (layer : Layer) : M Sys unit :=
  skip <- skip_layer layer ;;
  if skip then ret tt else
  try_except
    (index <- QgsSpatialIndex layer ;;
     modify (on_tool (fun t =>
       set_layer_indexes (<[l_id layer := index]> (layer_indexes t)) t)) ;;;
     modify (on_tool (fun t =>
       set_indexed_layer_ids ({[l_id layer]} ∪ indexed_layer_ids t) t)) ;;;
     logMessage ("Built spatial index for layer: " +:+ l_name layer) Info)
    (fun e =>
     logMessage ("Failed to build index for layer " +:+ l_name layer +:+ ": " +:+ e)
                Warning).

(** [rebuildIndexes] *)
Definition rebuildIndexes : M Sys unit :=
  modify (on_tool (set_layer_indexes ∅)) ;;;
  modify (on_tool (set_indexed_layer_ids ∅)) ;;;
  layers <- gets (fun s => mapLayers (host s)) ;;
  for_each layers index_layer ;;;
  try_except (emit IndexesRebuilt) (fun _ => ret tt).

(** [_on_layers_changed] *)
Definition _on_layers_changed : M Sys unit :=
  current <- gets (fun s => mapTool (host s)) ;;
  if decide (current = ThisTool) then
    logMessage "Layers changed, rebuilding indexes..." Info ;;;
    rebuildIndexes
  else ret tt.

(** [canvasMoveEvent] *)
Definition canvasMoveEvent (pos : QPoint) : M Sys unit :=
  modify (on_tool (set_pending_pos (Some pos))) ;;;
  modify (on_tool (fun t => set_hover_timer (QTimer_start (_hover_delay_ms t) (_hover_timer t)) t)).

(** The selection-mode branch of [_do_selection]: the value of [new_sel]. *)
Definition new_sel (selection_mode : string) (current_sel ids_to_process : gset Z) : gset Z :=
  if decide (selection_mode = "add") then current_sel ∪ ids_to_process
  else if decide (selection_mode = "replace") then ids_to_process
  else if decide (selection_mode = "toggle") then
    symmetric_difference current_sel ids_to_process
  else current_sel ∪ ids_to_process.

(** "Transform to layer CRS if needed": [None] is the [continue] of the
    [except] branch. *)
Definition transform_to_layer (circle_geom : geometry) (proj_crs : crs)
    (layer : Layer) : M Sys (option geometry) :=
  let layer_crs := l_crs layer in
  if decide (layer_crs <> proj_crs) then
    try_except
      (geom_for_layer <- call (geom_transform proj_crs layer_crs circle_geom) ;;
       ret (Some geom_for_layer))
      (fun e =>
       logMessage ("CRS transform failed for layer " +:+ l_name layer +:+ ": " +:+ e)
                  Warning ;;;
       ret None)
  else ret (Some circle_geom).

(** The exact test both candidate loops apply to a fetched feature. *)
Definition verify (geom_for_layer : geometry) (ids_to_process : gset Z)
    (feat : Feature) : gset Z :=
  match f_geometry feat with
  | None => ids_to_process
  | Some g =>
      if geom_intersects g geom_for_layer
      then {[f_id feat]} ∪ ids_to_process
      else ids_to_process
  end.

(** "Use spatial index if available", else "Fallback: bbox filter +
    precise test".  An index that is in the cache is a true value for
    [if index:].  [None] is the [continue] of the fallback's [except]. *)
Definition collect_ids (layer : Layer) (geom_for_layer : geometry) : M Sys (option (gset Z)) :=
  let bbox := boundingBox geom_for_layer in
  index <- gets (fun s => layer_indexes (tool s) !! l_id layer) ;;
  match index with
  | Some index =>
      candidate_ids <- try_except (index_intersects index bbox) (fun _ => ret []) ;;
      ids_to_process <- for_fold (fun ids_to_process fid =>
          try_except
            (feat <- layer_getFeature layer fid ;;
             ret (verify geom_for_layer ids_to_process feat))
            (fun _ => ret ids_to_process))
        ∅ candidate_ids ;;
      ret (Some ids_to_process)
  | None =>
      try_except
        (ids_to_process <- for_fold (fun ids_to_process f =>
            feat <- iter_next layer f ;;
            ret (verify geom_for_layer ids_to_process feat))
          ∅ (layer_getFeatures layer bbox) ;;
         ret (Some ids_to_process))
        (fun _ => ret None)
  end.

(** "if ids_to_process: try: ... except": returns the new running total. *)
Definition commit_selection (layer : Layer) (ids_to_process : gset Z)
    (total_selected : Z) : M Sys Z :=
  if decide (ids_to_process <> ∅) then
    try_except
      (current_sel <- layer_selectedFeatureIds layer ;;
       sm <- gets (fun s => selection_mode (tool s)) ;;
       layer_selectByIds layer (new_sel sm current_sel ids_to_process) ;;;
       ret (total_selected + Z.of_nat (size ids_to_process)))
      (fun e =>
       logMessage ("Selection failed for layer " +:+ l_name layer +:+ ": " +:+ e)
                  Warning ;;;
       ret total_selected)
  else ret total_selected.

(** The body of the layer loop of [_do_selection]. *)
Definition select_in_layer (circle_geom : geometry) (proj_crs : crs)
    (total_selected : Z) (layer : Layer) : M Sys Z :=
  skip <- skip_layer layer ;;
  if skip then ret total_selected else
  geom <- transform_to_layer circle_geom proj_crs layer ;;
  match geom with
  | None => ret total_selected
  | Some geom_for_layer =>
      ids <- collect_ids layer geom_for_layer ;;
      match ids with
      | None => ret total_selected
      | Some ids_to_process => commit_selection layer ids_to_process total_selected
      end
  end.

(** The circle of a run: centre, radius in map units, polygon. *)
Definition circle_for (pos : QPoint) : M Sys geometry :=
  center_map_pt <- gets (fun s => toMapCoordinates (host s) pos) ;;
  um <- gets (fun s => unit_mode (tool s)) ;;
  radius <- (if decide (um = "pixels") then
               mup <- gets (fun s => mapUnitsPerPixel (host s)) ;;
               rp <- gets (fun s => radius_pixels (tool s)) ;;
               ret (inject_Z rp * mup)%Q
             else gets (fun s => radius_map_units (tool s))) ;;
  segments <- gets (fun s => circle_segments (tool s)) ;;
  ret (point_buffer center_map_pt radius segments).

(** [_do_selection], the slot of the hover timer's timeout. *)
Definition _do_selection : M Sys unit :=
  pending <- gets (fun s => _pending_pos (tool s)) ;;
  match pending with
  | None => ret tt
  | Some pos =>
      circle_geom <- circle_for pos ;;
      show <- gets (fun s => show_rubber_band (tool s)) ;;
      (if show then on_rubber_band (rubber_band_setToGeometry circle_geom) else ret tt) ;;;
      proj_crs <- gets (fun s => project_crs (host s)) ;;
      layers <- gets (fun s => mapLayers (host s)) ;;
      total_selected <- for_fold (select_in_layer circle_geom proj_crs) 0 layers ;;
      (if decide (0 < total_selected) then
         try_except
           (emit (StatusBarMessage ("Selected " +:+ pretty total_selected +:+ " feature(s)") 2000))
           (fun _ => ret tt)
       else ret tt) ;;;
      try_except (emit (SelectionComplete total_selected)) (fun _ => ret tt)
  end.

(** [activate]; [super().activate()] gives the canvas the cursor the tool
    keeps. *)
Definition activate : M Sys unit :=
  kept <- gets (fun s => cursor (tool s)) ;;
  modify (on_host (set_canvas_cursor (Some kept))) ;;;
  pix_radius <- _compute_pixel_radius_for_cursor ;;
  c <- call (_cursor_for_radius pix_radius) ;;
  modify (on_host (set_canvas_cursor (Some c))) ;;;
  show <- gets (fun s => show_rubber_band (tool s)) ;;
  if show then on_rubber_band rubber_band_show else ret tt.

(** [deactivate] *)
Definition deactivate : M Sys unit :=
  on_rubber_band rubber_band_reset ;;;
  on_rubber_band rubber_band_hide ;;;
  modify (on_tool (fun t => set_hover_timer (QTimer_stop (_hover_timer t)) t)).

(** ** The event loop around the tool *)

(** [ms] milliseconds pass with no other event: the armed single-shot
    timer times out once its interval has elapsed, and calls its slot. *)
Definition elapse (ms : Z) : M Sys unit :=
  timer <- gets (fun s => _hover_timer (tool s)) ;;
  match timer with
  | None => ret tt
  | Some remaining =>
      if decide (remaining <= ms) then
        modify (on_tool (set_hover_timer None)) ;;;
        _do_selection
      else modify (on_tool (set_hover_timer (Some (remaining - ms))))
  end.

(** A burst of mouse moves: each comes [gap] ms after the one before. *)
Definition burst (moves : list (Z * QPoint)) : M Sys unit :=
  for_each moves (fun m => elapse (fst m) ;;; canvasMoveEvent (snd m)).

(** ** The plugin shell: activation *)

(** A slot or a virtual method of the plugin that Qt calls: an exception
    that leaves it is handed to [sys.excepthook], and Qt goes on. *)
Definition called_by_qt (m : M Sys unit) : M Sys unit :=
  try_except m (fun e => emit (Unhandled e)).

(** [QgsMapCanvas.setMapTool]: setting the current tool again only
    reactivates it; otherwise the old tool is deactivated and the new one
    activated. *)
Definition setMapTool (new_tool : MapToolRef) : M Sys unit :=
  if decide (new_tool = NoTool) then ret tt else
  old <- gets (fun s => mapTool (host s)) ;;
  if decide (old = new_tool) then ret tt else
  (if decide (old = ThisTool) then called_by_qt deactivate else ret tt) ;;;
  modify (on_host (set_mapTool new_tool)) ;;;
  if decide (new_tool = ThisTool) then called_by_qt activate else ret tt.

(** [QgsMapCanvas.unsetMapTool] *)
Definition unsetMapTool (t : MapToolRef) : M Sys unit :=
  old <- gets (fun s => mapTool (host s)) ;;
  if decide (old <> NoTool /\ old = t) then
    (if decide (old = ThisTool) then called_by_qt deactivate else ret tt) ;;;
    modify (on_host (set_mapTool NoTool))
  else ret tt.

(** [SelectOnHoverPlugin.toggle_activation] *)
Definition toggle_activation (active : bool) : M Sys unit :=
  if active then
    current <- gets (fun s => mapTool (host s)) ;;
    modify (on_shell (set_previous_map_tool current)) ;;;
    p <- gets (fun s => panel (shell s)) ;;
    setRadius (Some (pixel_radius p)) (Some (mapunit_radius p)) (Some (p_unit_mode p)) ;;;
    setRestrictMode (p_restrict_mode p) ;;;
    setSelectionMode (p_selection_mode p) ;;;
    setShowRubberBand (p_show_rubber_band p) ;;;
    rebuildIndexes ;;;
    setMapTool ThisTool ;;;
    logMessage "Select on hover tool activated" Info
  else
    previous <- gets (fun s => previous_map_tool (shell s)) ;;
    (if decide (previous <> NoTool) then setMapTool previous
     else unsetMapTool ThisTool) ;;;
    logMessage "Select on hover tool deactivated" Info.


(** ** The plugin shell: the other slots *)

(** [_on_canvas_extents_changed] *)
Definition _on_canvas_extents_changed : M Sys unit :=
  pix_radius <- _compute_pixel_radius_for_cursor ;;
  c <- call (_cursor_for_radius pix_radius) ;;
  setCursor c.

(** [onRadiusChanged]; the settings store is not modelled. *)
Definition onRadiusChanged (pixel_radius : Z) (mapunit_radius : Q)
    (unit_mode : string) : M Sys unit :=
  setRadius (Some pixel_radius) (Some mapunit_radius) (Some unit_mode).

(** [onOptionsChanged] *)
Definition onOptionsChanged (restrict_mode selection_mode : string) : M Sys unit :=
  setRestrictMode restrict_mode ;;;
  setSelectionMode selection_mode ;;;
  rebuildIndexes.

(** [onVisualFeedbackChanged] *)
Definition onVisualFeedbackChanged (show_rubber_band : bool) : M Sys unit :=
  setShowRubberBand show_rubber_band.

(** [onRebuildIndexesRequested] *)
Definition onRebuildIndexesRequested : M Sys unit :=
  logMessage "Manually rebuilding spatial indexes..." Info ;;;
  rebuildIndexes ;;;
  try_except
    (emit (MessageBarMessage "SelectOnHover" "Spatial indexes rebuilt successfully" 3))
    (fun _ => ret tt).

(** [layer.selectedFeatureCount()] *)
Definition layer_selectedFeatureCount (layer : Layer) : M Sys Z :=
  match l_read_selection layer with
  | Some e => raise e
  | None =>
      gets (fun s => Z.of_nat (size (selectedFeatureIds (host s) !!! l_id layer : gset Z)))
  end.

(** [layer.removeSelection()] *)
Definition layer_removeSelection (layer : Layer) : M Sys unit :=
  layer_selectByIds layer ∅.

(** [onClearSelectionRequested]; only vector layers have
    [removeSelection].  The count is increased before [removeSelection]
    is called, so it stays increased when that call raises. *)
Definition onClearSelectionRequested : M Sys unit :=
  layers <- gets (fun s => mapLayers (host s)) ;;
  count <- for_fold (fun count layer =>
      try_except
        (if decide (l_type layer = VectorLayer) then
           selected_count <- layer_selectedFeatureCount layer ;;
           if decide (0 < selected_count) then
             try_except
               (layer_removeSelection layer ;;; ret (count + selected_count))
               (fun _ => ret (count + selected_count))
           else ret count
         else ret count)
        (fun _ => ret count))
    0 layers ;;
  if decide (0 < count) then
    try_except
      (emit (MessageBarMessage "SelectOnHover"
               ("Cleared selection (" +:+ pretty count +:+ " features)") 2))
      (fun _ => ret tt) ;;;
    logMessage ("Cleared selection: " +:+ pretty count +:+ " features") Info
  else ret tt.

(** ** The events the plugin and the tool are connected to *)

Inductive Event :=
| ToolButtonToggled                       (* toolbutton.toggled, menu action *)
| RadiusChanged (p : Panel)               (* panel.radiusChanged *)
| OptionsChanged (p : Panel)              (* panel.optionsChanged *)
| VisualFeedbackChanged (p : Panel)       (* panel.visualFeedbackChanged *)
| RebuildIndexesRequested                 (* panel.rebuildIndexesRequested *)
| ClearSelectionRequested                 (* panel.clearSelectionRequested *)
| LayersChanged (layers : list Layer)     (* project.layersAdded, layersRemoved *)
| ExtentsChanged (mup : Q)                (* canvas.extentsChanged *)
| MouseMoved (pos : QPoint)               (* a mouse move on the canvas *)
| TimePassed (ms : Z)                     (* the hover timer runs *)
| OtherToolSelected (n : nat)             (* the user picks another map tool *)
| ThisToolSelected.                       (* canvas.setMapTool(map_tool), by the host *)

(** What each event makes the plugin do.  A click toggles the checkable
    tool button, whose [toggled] signal carries the new state; a panel
    event finds the panel holding the edited values; the canvas delivers
    mouse moves to its current tool only.  The host, or another tool that
    hands the canvas back, can set this tool on the canvas without the
    plugin's button. *)
Definition handle (e : Event) : M Sys unit :=
  match e with
  | ToolButtonToggled =>
      modify (on_shell (fun sh => set_checked (negb (checked sh)) sh)) ;;;
      active <- gets (fun s => checked (shell s)) ;;
      toggle_activation active
  | RadiusChanged p =>
      modify (on_shell (set_panel p)) ;;;
      onRadiusChanged (pixel_radius p) (mapunit_radius p) (p_unit_mode p)
  | OptionsChanged p =>
      modify (on_shell (set_panel p)) ;;;
      onOptionsChanged (p_restrict_mode p) (p_selection_mode p)
  | VisualFeedbackChanged p =>
      modify (on_shell (set_panel p)) ;;;
      onVisualFeedbackChanged (p_show_rubber_band p)
  | RebuildIndexesRequested => onRebuildIndexesRequested
  | ClearSelectionRequested => onClearSelectionRequested
  | LayersChanged layers =>
      modify (on_host (set_mapLayers layers)) ;;;
      _on_layers_changed
  | ExtentsChanged mup =>
      modify (on_host (set_mapUnitsPerPixel mup)) ;;;
      _on_canvas_extents_changed
  | MouseMoved pos =>
      current <- gets (fun s => mapTool (host s)) ;;
      if decide (current = ThisTool) then canvasMoveEvent pos else ret tt
  | TimePassed ms => elapse ms
  | OtherToolSelected n => setMapTool (OtherTool n)
  | ThisToolSelected => setMapTool ThisTool
  end.

(** The event loop delivers an event to its slot. *)
Definition deliver (e : Event) : M Sys unit := called_by_qt (handle e).

End Model.

(** ** Qt widgets of the control panel

    The widgets do what Qt 5 does: a spin box keeps its value within its
    range, a double spin box rounds its value and its range to its
    decimals, a combo box that gets its first item makes it the current
    one.  The signals of the widgets are the events of
    [Event]; in [setValues] they have no receiver yet. *)

(** [QSpinBox] *)
Record QSpinBox := {
  sb_minimum : Z;
  sb_maximum : Z;
  sb_value : Z;
  sb_enabled : bool
}.

Definition QSpinBox_new : QSpinBox :=
  {| sb_minimum := 0; sb_maximum := 99; sb_value := 0; sb_enabled := true |}.

Definition QSpinBox_bound (b : QSpinBox) (v : Z) : Z :=
  Z.max (sb_minimum b) (Z.min (sb_maximum b) v).

Definition QSpinBox_setValue (v : Z) (b : QSpinBox) : QSpinBox :=
  {| sb_minimum := sb_minimum b; sb_maximum := sb_maximum b;
     sb_value := QSpinBox_bound b v; sb_enabled := sb_enabled b |}.

Definition QSpinBox_setRange (lo hi : Z) (b : QSpinBox) : QSpinBox :=
  QSpinBox_setValue (sb_value b)
    {| sb_minimum := lo; sb_maximum := Z.max lo hi;
       sb_value := sb_value b; sb_enabled := sb_enabled b |}.

Definition QSpinBox_setEnabled (e : bool) (b : QSpinBox) : QSpinBox :=
  {| sb_minimum := sb_minimum b; sb_maximum := sb_maximum b;
     sb_value := sb_value b; sb_enabled := e |}.

(** [QDoubleSpinBox]; the range as given is kept beside the rounded one. *)
Record QDoubleSpinBox := {
  dsb_decimals : Z;
  dsb_actualMin : Q;
  dsb_actualMax : Q;
  dsb_minimum : Q;
  dsb_maximum : Q;
  dsb_value : Q;
  dsb_enabled : bool
}.

(** [QDoubleSpinBoxPrivate::round]: the value is written with [decimals]
    decimals, the last one rounded half away from zero, and read back as
    a float. *)
Definition round_decimals (decimals : Z) (q : Q) : Q :=
  float_lit (round_half_away (q * inject_Z (10 ^ decimals)) # Z.to_pos (10 ^ decimals)).

(** [QAbstractSpinBoxPrivate::bound], without wrapping. *)
Definition Qbound (lo hi v : Q) : Q :=
  let v := if Qlt_le_dec v lo then lo else v in
  if Qlt_le_dec hi v then hi else v.

Definition QDoubleSpinBox_new : QDoubleSpinBox :=
  {| dsb_decimals := 2; dsb_actualMin := 0; dsb_actualMax := float_lit (9999 # 100);
     dsb_minimum := 0; dsb_maximum := float_lit (9999 # 100); dsb_value := 0;
     dsb_enabled := true |}.

Definition QDoubleSpinBox_setValue (v : Q) (b : QDoubleSpinBox) : QDoubleSpinBox :=
  {| dsb_decimals := dsb_decimals b;
     dsb_actualMin := dsb_actualMin b; dsb_actualMax := dsb_actualMax b;
     dsb_minimum := dsb_minimum b; dsb_maximum := dsb_maximum b;
     dsb_value := Qbound (dsb_minimum b) (dsb_maximum b)
                    (round_decimals (dsb_decimals b) v);
     dsb_enabled := dsb_enabled b |}.

Definition QDoubleSpinBox_setRange (lo hi : Q) (b : QDoubleSpinBox) : QDoubleSpinBox :=
  let lo' := round_decimals (dsb_decimals b) lo in
  let hi' := round_decimals (dsb_decimals b) hi in
  let hi'' := if Qlt_le_dec lo' hi' then hi' else lo' in
  {| dsb_decimals := dsb_decimals b;
     dsb_actualMin := lo; dsb_actualMax := hi;
     dsb_minimum := lo'; dsb_maximum := hi'';
     dsb_value := Qbound lo' hi'' (dsb_value b);
     dsb_enabled := dsb_enabled b |}.

Definition QDoubleSpinBox_setDecimals (decimals : Z) (b : QDoubleSpinBox) : QDoubleSpinBox :=
  let b1 := {| dsb_decimals := Z.max 0 (Z.min 323 decimals);
               dsb_actualMin := dsb_actualMin b; dsb_actualMax := dsb_actualMax b;
               dsb_minimum := dsb_minimum b; dsb_maximum := dsb_maximum b;
               dsb_value := dsb_value b; dsb_enabled := dsb_enabled b |} in
  let b2 := QDoubleSpinBox_setRange (dsb_actualMin b1) (dsb_actualMax b1) b1 in
  QDoubleSpinBox_setValue (dsb_value b2) b2.

Definition QDoubleSpinBox_setEnabled (e : bool) (b : QDoubleSpinBox) : QDoubleSpinBox :=
  {| dsb_decimals := dsb_decimals b;
     dsb_actualMin := dsb_actualMin b; dsb_actualMax := dsb_actualMax b;
     dsb_minimum := dsb_minimum b; dsb_maximum := dsb_maximum b;
     dsb_value := dsb_value b; dsb_enabled := e |}.

(** [QComboBox]: the items with their text and user data, and the current
    index ([None] is Qt's -1). *)
Record QComboBox := {
  cb_items : list (string * option string);
  cb_currentIndex : option nat
}.

Definition QComboBox_new : QComboBox := {| cb_items := []; cb_currentIndex := None |}.

Definition QComboBox_addItem (text : string) (data : option string)
    (c : QComboBox) : QComboBox :=
  {| cb_items := cb_items c ++ [(text, data)];
     cb_currentIndex := match cb_items c with
                        | [] => Some 0%nat
                        | _ => cb_currentIndex c
                        end |}.

Definition QComboBox_addItems (texts : list string) (c : QComboBox) : QComboBox :=
  foldl (fun c text => QComboBox_addItem text None c) c texts.

Definition QComboBox_count (c : QComboBox) : nat := length (cb_items c).

Definition QComboBox_itemData (c : QComboBox) (i : nat) : option string :=
  match cb_items c !! i with
  | Some (_, data) => data
  | None => None
  end.

Definition QComboBox_currentText (c : QComboBox) : string :=
  match cb_currentIndex c with
  | Some i => match cb_items c !! i with Some (text, _) => text | None => "" end
  | None => ""
  end.

Definition QComboBox_currentData (c : QComboBox) : option string :=
  match cb_currentIndex c with
  | Some i => QComboBox_itemData c i
  | None => None
  end.

Definition QComboBox_setCurrentIndex (i : nat) (c : QComboBox) : QComboBox :=
  {| cb_items := cb_items c;
     cb_currentIndex := if decide (i < QComboBox_count c)%nat then Some i else None |}.

(** Python's [str] on the user data of an item: a string, or [None]. *)
Definition str_of_data (data : option string) : string := default "None" data.

(** ** dock_widget.py: [SelectOnHoverPanel] *)

Module SelectOnHoverPanel.

Record Widget := {
  units_combo : QComboBox;
  spin_pixels : QSpinBox;
  spin_mapunits : QDoubleSpinBox;
  restrict_combo : QComboBox;
  selection_mode_combo : QComboBox;
  show_rubber_band_cb : bool
}.

Definition set_units_combo (v : QComboBox) (w : Widget) : Widget :=
  {| units_combo := v; spin_pixels := spin_pixels w; spin_mapunits := spin_mapunits w;
     restrict_combo := restrict_combo w; selection_mode_combo := selection_mode_combo w;
     show_rubber_band_cb := show_rubber_band_cb w |}.
Definition set_spin_pixels (v : QSpinBox) (w : Widget) : Widget :=
  {| units_combo := units_combo w; spin_pixels := v; spin_mapunits := spin_mapunits w;
     restrict_combo := restrict_combo w; selection_mode_combo := selection_mode_combo w;
     show_rubber_band_cb := show_rubber_band_cb w |}.
Definition set_spin_mapunits (v : QDoubleSpinBox) (w : Widget) : Widget :=
  {| units_combo := units_combo w; spin_pixels := spin_pixels w; spin_mapunits := v;
     restrict_combo := restrict_combo w; selection_mode_combo := selection_mode_combo w;
     show_rubber_band_cb := show_rubber_band_cb w |}.
Definition set_restrict_combo (v : QComboBox) (w : Widget) : Widget :=
  {| units_combo := units_combo w; spin_pixels := spin_pixels w;
     spin_mapunits := spin_mapunits w; restrict_combo := v;
     selection_mode_combo := selection_mode_combo w;
     show_rubber_band_cb := show_rubber_band_cb w |}.
Definition set_selection_mode_combo (v : QComboBox) (w : Widget) : Widget :=
  {| units_combo := units_combo w; spin_pixels := spin_pixels w;
     spin_mapunits := spin_mapunits w; restrict_combo := restrict_combo w;
     selection_mode_combo := v; show_rubber_band_cb := show_rubber_band_cb w |}.
Definition set_show_rubber_band_cb (v : bool) (w : Widget) : Widget :=
  {| units_combo := units_combo w; spin_pixels := spin_pixels w;
     spin_mapunits := spin_mapunits w; restrict_combo := restrict_combo w;
     selection_mode_combo := selection_mode_combo w; show_rubber_band_cb := v |}.

(** The properties. *)
Definition pixel_radius (w : Widget) : Z := sb_value (spin_pixels w).

Definition mapunit_radius (w : Widget) : Q := dsb_value (spin_mapunits w).

Definition unit_mode (w : Widget) : string :=
  if decide (QComboBox_currentText (units_combo w) = "Map units")
  then "map_units" else "pixels".

Definition restrict_mode (w : Widget) : string :=
  str_of_data (QComboBox_currentData (restrict_combo w)).

Definition selection_mode (w : Widget) : string :=
  str_of_data (QComboBox_currentData (selection_mode_combo w)).

Definition show_rubber_band (w : Widget) : bool := show_rubber_band_cb w.

(** The six properties together, as the plugin reads them. *)
Definition values (w : Widget) : Panel :=
  Build_Panel (pixel_radius w) (mapunit_radius w) (unit_mode w) (restrict_mode w)
    (selection_mode w) (show_rubber_band w).

(** [_apply_units_ui] *)
Definition _apply_units_ui (w : Widget) : Widget :=
  if decide (unit_mode w = "map_units") then
    set_spin_pixels (QSpinBox_setEnabled false (spin_pixels w))
      (set_spin_mapunits (QDoubleSpinBox_setEnabled true (spin_mapunits w)) w)
  else
    set_spin_pixels (QSpinBox_setEnabled true (spin_pixels w))
      (set_spin_mapunits (QDoubleSpinBox_setEnabled false (spin_mapunits w)) w).

(** [_setup_ui], and so [__init__]: the widgets as they are created. *)
Definition _setup_ui : Widget :=
  _apply_units_ui
    {| units_combo := QComboBox_addItems ["Pixels"; "Map units"] QComboBox_new;
       spin_pixels := QSpinBox_setValue 20 (QSpinBox_setRange 1 2000 QSpinBox_new);
       spin_mapunits :=
         QDoubleSpinBox_setValue 10
           (QDoubleSpinBox_setDecimals 6
              (QDoubleSpinBox_setRange (float_lit (1 # 1000000)) (1000000000 # 1)
                 QDoubleSpinBox_new));
       restrict_combo :=
         QComboBox_addItem "Active layer only" (Some "active")
           (QComboBox_addItem "All selectable layers" (Some "all")
              (QComboBox_addItem "Visible & selectable layers" (Some "visible")
                 QComboBox_new));
       selection_mode_combo :=
         QComboBox_addItem "Toggle selection" (Some "toggle")
           (QComboBox_addItem "Replace selection" (Some "replace")
              (QComboBox_addItem "Add to selection" (Some "add") QComboBox_new));
       show_rubber_band_cb := true |}.

(** The loop of [setValues] over the items of a combo box: the index of
    the first item whose data is [x], or 0. *)
Definition index_of_data (c : QComboBox) (x : string) : nat :=
  default 0%nat
    (List.find (fun i => bool_decide (QComboBox_itemData c i = Some x))
       (seq 0 (QComboBox_count c))).

(** [setValues].  The signals the widgets emit on the way call
    [_apply_units_ui] and [_emit_radius_changed]; the first is applied
    again at the end and the second finds no receiver. *)
Definition setValues (pixel_radius : Z) (mapunit_radius : Q) (unit_mode : string)
    (restrict_mode selection_mode : string) (show_rubber_band : bool)
    (w : Widget) : Widget :=
  let w := set_spin_pixels (QSpinBox_setValue pixel_radius (spin_pixels w)) w in
  let w := set_spin_mapunits (QDoubleSpinBox_setValue mapunit_radius (spin_mapunits w)) w in
  let w := if decide (unit_mode = "map_units")
           then set_units_combo (QComboBox_setCurrentIndex 1 (units_combo w)) w
           else set_units_combo (QComboBox_setCurrentIndex 0 (units_combo w)) w in
  let w := set_restrict_combo
             (QComboBox_setCurrentIndex (index_of_data (restrict_combo w) restrict_mode)
                (restrict_combo w)) w in
  let w := set_selection_mode_combo
             (QComboBox_setCurrentIndex
                (index_of_data (selection_mode_combo w) selection_mode)
                (selection_mode_combo w)) w in
  let w := set_show_rubber_band_cb show_rubber_band w in
  _apply_units_ui w.

Section Signals.
Context {T : GeoTypes} {G : Geo T}.

(** The callbacks: the signal each one emits. *)
Definition _emit_radius_changed (w : Widget) : Event := RadiusChanged (values w).

Definition _on_units_changed (w : Widget) : Widget * Event :=
  let w := _apply_units_ui w in (w, _emit_radius_changed w).

Definition _on_pixel_changed (w : Widget) : Event := _emit_radius_changed w.

Definition _on_mapunit_changed (w : Widget) : Event := _emit_radius_changed w.

Definition _on_options_changed (w : Widget) : Event := OptionsChanged (values w).

Definition _on_visual_feedback_changed (w : Widget) : Event :=
  VisualFeedbackChanged (values w).

Definition _on_rebuild_clicked : Event := RebuildIndexesRequested.

Definition _on_clear_clicked : Event := ClearSelectionRequested.

End Signals.

End SelectOnHoverPanel.

(** ** select_on_hover.py: [SelectOnHoverPlugin] *)

(** A value in the settings store. *)
Inductive QVariant :=
| VInt (z : Z)
| VFloat (q : Q)
| VStr (s : string)
| VBool (b : bool).

(** What Python and Qt compute from a string. *)
Class Runtime := {
  int_of_str : string -> result Z;       (* int(s) *)
  float_of_str : string -> result Q;     (* float(s) *)
  str_of_float : Q -> string;            (* str(x) *)
  bool_of_str : string -> bool           (* QVariant(s).toBool() *)
}.

Section Conversions.
Context {R : Runtime}.

Definition py_int (v : QVariant) : result Z :=
  match v with
  | VInt z => Ok z
  | VFloat q => Ok (Z.quot (Qnum q) (Zpos (Qden q)))
  | VStr s => int_of_str s
  | VBool b => Ok (if b then 1 else 0)
  end.

Definition py_float (v : QVariant) : result Q :=
  match v with
  | VInt z =>
      match b64 (inject_Z z) with
      | Some q => Ok q
      | None => Raise "OverflowError"
      end
  | VFloat q => Ok q
  | VStr s => float_of_str s
  | VBool b => Ok (if b then 1 else 0)%Q
  end.

Definition py_str (v : QVariant) : string :=
  match v with
  | VInt z => pretty z
  | VFloat q => str_of_float q
  | VStr s => s
  | VBool b => if b then "True" else "False"
  end.

(** [value(key, default, type=bool)] *)
Definition to_bool (v : QVariant) : bool :=
  match v with
  | VInt z => negb (z =? 0)
  | VFloat q => negb (Qeq_bool q 0)
  | VStr s => bool_of_str s
  | VBool b => b
  end.

End Conversions.

Definition PLUGIN_SETTINGS_PREFIX : string := "SelectOnHover/".

Module SelectOnHoverPlugin.
Section Plugin.
Context {T : GeoTypes} {G : Geo T} {R : Runtime}.

(** The plugin object and the host behind [iface]; [None] is Python's
    [None].  [toolbutton] holds the checked state of the button. *)
Record Plugin := {
  iface : Host;
  settings : gmap string QVariant;
  toolbutton : option bool;
  plugin_panel : option SelectOnHoverPanel.Widget;
  map_tool : option Tool;
  plugin_previous_map_tool : MapToolRef
}.

Definition set_settings (v : gmap string QVariant) (p : Plugin) : Plugin :=
  {| iface := iface p; settings := v; toolbutton := toolbutton p;
     plugin_panel := plugin_panel p; map_tool := map_tool p;
     plugin_previous_map_tool := plugin_previous_map_tool p |}.
Definition set_toolbutton (v : option bool) (p : Plugin) : Plugin :=
  {| iface := iface p; settings := settings p; toolbutton := v;
     plugin_panel := plugin_panel p; map_tool := map_tool p;
     plugin_previous_map_tool := plugin_previous_map_tool p |}.
Definition set_plugin_panel (v : option SelectOnHoverPanel.Widget) (p : Plugin) : Plugin :=
  {| iface := iface p; settings := settings p; toolbutton := toolbutton p;
     plugin_panel := v; map_tool := map_tool p;
     plugin_previous_map_tool := plugin_previous_map_tool p |}.
Definition set_map_tool (v : option Tool) (p : Plugin) : Plugin :=
  {| iface := iface p; settings := settings p; toolbutton := toolbutton p;
     plugin_panel := plugin_panel p; map_tool := v;
     plugin_previous_map_tool := plugin_previous_map_tool p |}.

(** The constructor of the tool (the canvas is the host's). *)
Definition MapToolSelectCircle := __init__.

(** [__init__] *)
Definition __init__ (h : Host) (store : gmap string QVariant) : Plugin :=
  {| iface := h; settings := store; toolbutton := None; plugin_panel := None;
     map_tool := None; plugin_previous_map_tool := NoTool |}.

(** The tool, the host and the shell of a plugin whose GUI exists. *)
Definition as_sys (p : Plugin) : option Sys :=
  match map_tool p, plugin_panel p, toolbutton p with
  | Some t, Some w, Some c =>
      Some {| tool := t; host := iface p;
              shell := {| panel := SelectOnHoverPanel.values w;
                          previous_map_tool := plugin_previous_map_tool p;
                          checked := c |} |}
  | _, _, _ => None
  end.

Definition of_sys (s : Sys) (p : Plugin) : Plugin :=
  {| iface := host s; settings := settings p;
     toolbutton := Some (checked (shell s));
     plugin_panel := plugin_panel p; map_tool := Some (tool s);
     plugin_previous_map_tool := previous_map_tool (shell s) |}.

(** A method of the tool or of the shell, called on the plugin's tool;
    without a tool, a panel or a button the attribute access raises. *)
Definition on_sys {A} (m : M Sys A) : M Plugin A :=
  fun p =>
    match as_sys p with
    | Some s => let '(r, s', t) := m s in (r, of_sys s' p, t)
    | None => (Raise "AttributeError", p, [])
    end.

Definition key (name : string) : string := PLUGIN_SETTINGS_PREFIX +:+ name.

(** [self.settings.value(key, default)] *)
Definition value (name : string) (default_value : QVariant) : M Plugin QVariant :=
  gets (fun p => default default_value (settings p !! key name)).

(** [self.settings.setValue(key, v)] *)
Definition setValue (name : string) (v : QVariant) : M Plugin unit :=
  modify (fun p => set_settings (<[key name := v]> (settings p)) p).

(** [_load_settings_from_panel] *)
Definition _load_settings_from_panel : M Plugin unit :=
  v <- value "pixel_radius" (VInt 20) ;;
  pixel_radius <- call (py_int v) ;;
  v <- value "mapunit_radius" (VFloat 10) ;;
  mapunit_radius <- call (py_float v) ;;
  v <- value "unit_mode" (VStr "pixels") ;;
  let unit_mode := py_str v in
  v <- value "restrict_mode" (VStr "visible") ;;
  let restrict_mode := py_str v in
  v <- value "selection_mode" (VStr "add") ;;
  let selection_mode := py_str v in
  v <- value "show_rubber_band" (VBool true) ;;
  let show_rubber_band := to_bool v in
  panel <- gets plugin_panel ;;
  match panel with
  | Some w =>
      modify (set_plugin_panel
                (Some (SelectOnHoverPanel.setValues pixel_radius mapunit_radius unit_mode
                         restrict_mode selection_mode show_rubber_band w)))
  | None => ret tt
  end.

(** [_save_settings_from_panel] *)
Definition _save_settings_from_panel : M Plugin unit :=
  panel <- gets plugin_panel ;;
  match panel with
  | None => ret tt
  | Some w =>
      setValue "pixel_radius" (VInt (SelectOnHoverPanel.pixel_radius w)) ;;;
      setValue "mapunit_radius" (VFloat (SelectOnHoverPanel.mapunit_radius w)) ;;;
      setValue "unit_mode" (VStr (SelectOnHoverPanel.unit_mode w)) ;;;
      setValue "restrict_mode" (VStr (SelectOnHoverPanel.restrict_mode w)) ;;;
      setValue "selection_mode" (VStr (SelectOnHoverPanel.selection_mode w)) ;;;
      setValue "show_rubber_band" (VBool (SelectOnHoverPanel.show_rubber_band w))
  end.

(** [initGui]; [icon_svg] and [icon_png] say whether the icon files
    exist.  The menu entry and the tool bar button hold no state but the
    button's checked state. *)
Definition initGui (icon_svg icon_png : bool) : M Plugin unit :=
  (if icon_svg then ret tt
   else if icon_png then ret tt
   else emit (LogMessage
                "Icon file not found (tried icon.svg and icon.png), using default icon"
                "SelectOnHover" Warning)) ;;;
  modify (set_toolbutton (Some false)) ;;;
  modify (set_plugin_panel (Some SelectOnHoverPanel._setup_ui)) ;;;
  _load_settings_from_panel ;;;
  panel <- gets plugin_panel ;;
  match panel with
  | None => call (Raise "AttributeError")
  | Some w =>
      t <- call (MapToolSelectCircle (SelectOnHoverPanel.pixel_radius w)
                   (SelectOnHoverPanel.mapunit_radius w)
                   (SelectOnHoverPanel.unit_mode w)
                   DEFAULT_CIRCLE_SEGMENTS
                   (SelectOnHoverPanel.restrict_mode w)
                   (SelectOnHoverPanel.selection_mode w)
                   (SelectOnHoverPanel.show_rubber_band w)) ;;
      modify (set_map_tool (Some t)) ;;;
      on_sys rebuildIndexes ;;;
      emit (LogMessage "SelectOnHover plugin initialized successfully" "SelectOnHover" Info)
  end.

(** [MapToolSelectCircle.cleanup]; which signals are connected is not
    part of the state. *)
Definition cleanup : M Sys unit :=
  on_rubber_band rubber_band_reset ;;;
  modify (on_tool (fun t => set_hover_timer (QTimer_stop (_hover_timer t)) t)).

(** [unload]; removing the menu entry and the button changes no state. *)
Definition unload : M Plugin unit :=
  _save_settings_from_panel ;;;
  button <- gets toolbutton ;;
  (match button with
   | Some true => on_sys (toggle_activation false)
   | _ => ret tt
   end) ;;;
  tool <- gets map_tool ;;
  (match tool with
   | Some _ => on_sys cleanup
   | None => ret tt
   end) ;;;
  modify (set_toolbutton None) ;;;
  modify (set_plugin_panel None) ;;;
  modify (set_map_tool None) ;;;
  emit (LogMessage "SelectOnHover plugin unloaded" "SelectOnHover" Info).

(** [_toggle_toolbutton_from_menu]: [toolbutton.toggle()] flips the
    button, whose [toggled] signal calls [toggle_activation]. *)
Definition _toggle_toolbutton_from_menu : M Plugin unit :=
  button <- gets toolbutton ;;
  match button with
  | Some c =>
      modify (set_toolbutton (Some (negb c))) ;;;
      try_except (on_sys (toggle_activation (negb c))) (fun e => emit (Unhandled e))
  | None => ret tt
  end.

(** The slots of the panel's signals: the tool is updated if it exists,
    and the panel's values are saved. *)
Definition onRadiusChanged (pixel_radius : Z) (mapunit_radius : Q)
    (unit_mode : string) : M Plugin unit :=
  tool <- gets map_tool ;;
  (match tool with
   | Some _ => on_sys (onRadiusChanged pixel_radius mapunit_radius unit_mode)
   | None => ret tt
   end) ;;;
  _save_settings_from_panel.

Definition onOptionsChanged (restrict_mode selection_mode : string) : M Plugin unit :=
  tool <- gets map_tool ;;
  (match tool with
   | Some _ => on_sys (onOptionsChanged restrict_mode selection_mode)
   | None => ret tt
   end) ;;;
  _save_settings_from_panel.

Definition onVisualFeedbackChanged (show_rubber_band : bool) : M Plugin unit :=
  tool <- gets map_tool ;;
  (match tool with
   | Some _ => on_sys (onVisualFeedbackChanged show_rubber_band)
   | None => ret tt
   end) ;;;
  _save_settings_from_panel.

End Plugin.
End SelectOnHoverPlugin.

(** ** Notions the statements use *)

Section Notions.
Context {T : GeoTypes} {G : Geo T}.

(** The layers a loop works on: vector layers whose [selectable()] does
    not answer [False] and which pass the restriction. *)
Definition eligible (s : Sys) (layer : Layer) : bool :=
  bool_decide (l_type layer = VectorLayer)
  && match l_selectable layer with Ok false => false | _ => true end
  && (if decide (restrict_mode (tool s) = "visible") then
        match layerTree (host s) (l_id layer) with
        | Some visible => visible
        | None => false
        end
      else if decide (restrict_mode (tool s) = "active") then
        match currentLayer (host s) with
        | Some active_id => bool_decide (active_id = l_id layer)
        | None => false
        end
      else true).

(** The index [QgsSpatialIndex] builds for a layer when it succeeds. *)
Definition index_of (layer : Layer) : SpatialIndex :=
  {| idx_entries := omap index_entry (l_features layer);
     idx_query := l_index_query layer |}.

Definition indexable (s : Sys) (layer : Layer) : bool :=
  eligible s layer && bool_decide (l_index_build layer = None).

(** The cache and the id set after the loop of [rebuildIndexes] has run
    over [layers], starting from [m] and [ids]. *)
Definition built_indexes (s : Sys) (layers : list Layer)
    (m : gmap string SpatialIndex) : gmap string SpatialIndex :=
  foldl (fun m l => if indexable s l then <[l_id l := index_of l]> m else m) m layers.

Definition built_ids (s : Sys) (layers : list Layer) (ids : gset string) : gset string :=
  foldl (fun ids l => if indexable s l then {[l_id l]} ∪ ids else ids) ids layers.

(** What [rebuildIndexes] logs for one layer. *)
Definition rebuild_log_entry (s : Sys) (l : Layer) : list Effect :=
  if eligible s l then
    match l_index_build l with
    | None =>
        [LogMessage ("Built spatial index for layer: " +:+ l_name l) "SelectOnHover" Info]
    | Some e =>
        [LogMessage ("Failed to build index for layer " +:+ l_name l +:+ ": " +:+ e)
                    "SelectOnHover" Warning]
    end
  else [].

Definition with_indexes (m : gmap string SpatialIndex) (ids : gset string)
    (t : Tool) : Tool :=
  set_indexed_layer_ids ids (set_layer_indexes m t).

(** The state with the layers' selections replaced by [sel]. *)
Definition with_selection (sel : gmap string (gset Z)) (s : Sys) : Sys :=
  on_host (set_selectedFeatureIds sel) s.

Definition is_log (e : Effect) : Prop :=
  match e with LogMessage _ _ _ => True | _ => False end.

Definition is_warning (e : Effect) : Prop :=
  match e with LogMessage _ _ Warning => True | _ => False end.

(** The number of completed pipeline runs a trace records. *)
Definition runs (t : list Effect) : nat :=
  length (List.filter (fun e => match e with SelectionComplete _ => true | _ => false end) t).

(** *** The pipeline as a function

    [layer_outcome] and the definitions before it say, without the monad,
    what one pass of the layer loop of [_do_selection] computes; the
    section on the pipeline proves that the code computes just that. *)

(** The circle in the layer's CRS, or the exception of the transform. *)
Definition transformed (circle_geom : geometry) (proj_crs : crs) (l : Layer)
    : result geometry :=
  if decide (l_crs l <> proj_crs) then geom_transform proj_crs (l_crs l) circle_geom
  else Ok circle_geom.

Definition candidates (index : SpatialIndex) (bbox : rectangle) : list Z :=
  match idx_query index with
  | Some _ => []
  | None => fst <$> List.filter (fun e => rect_intersects (snd e) bbox) (idx_entries index)
  end.

Definition lookup_feature (l : Layer) (fid : Z) : Feature :=
  default invalid_feature (List.find (fun f => bool_decide (f_id f = fid)) (l_features l)).

(** The indexed path: a candidate whose fetch raises is passed over. *)
Definition verified_indexed (l : Layer) (g : geometry) (index : SpatialIndex) : gset Z :=
  foldl (fun ids fid =>
           match l_fetch l fid with
           | Some _ => ids
           | None => verify g ids (lookup_feature l fid)
           end)
        ∅ (candidates index (boundingBox g)).

(** The first exception a list of fallible steps meets. *)
Definition first_error {X} (err : X -> option string) (xs : list X) : option string :=
  head (omap err xs).

(** The fallback path: the first fetch that raises abandons the layer. *)
Definition verified_fallback (l : Layer) (g : geometry) : option (gset Z) :=
  let feats := layer_getFeatures l (boundingBox g) in
  match first_error (fun f => l_fetch l (f_id f)) feats with
  | Some _ => None
  | None => Some (foldl (verify g) ∅ feats)
  end.

Definition collected (index : option SpatialIndex) (l : Layer) (g : geometry)
    : option (gset Z) :=
  match index with
  | Some index => Some (verified_indexed l g index)
  | None => verified_fallback l g
  end.

Definition transform_warning (l : Layer) (e : string) : Effect :=
  LogMessage ("CRS transform failed for layer " +:+ l_name l +:+ ": " +:+ e)
             "SelectOnHover" Warning.

Definition selection_warning (l : Layer) (e : string) : Effect :=
  LogMessage ("Selection failed for layer " +:+ l_name l +:+ ": " +:+ e)
             "SelectOnHover" Warning.

(** The exception of the commit block, if it raises. *)
Definition commit_error (l : Layer) : option string :=
  match l_read_selection l with
  | Some e => Some e
  | None => l_commit l
  end.

(** The commit block: new total, new selections, log. *)
Definition commit_outcome (s : Sys) (l : Layer) (ids : gset Z)
    (total : Z) (sel : gmap string (gset Z))
    : Z * gmap string (gset Z) * list Effect :=
  if decide (ids <> ∅) then
    match commit_error l with
    | Some e => (total, sel, [selection_warning l e])
    | None =>
        (total + Z.of_nat (size ids),
         <[l_id l := new_sel (selection_mode (tool s)) (sel !!! l_id l) ids]> sel,
         [])
    end
  else (total, sel, []).

(** One pass of the layer loop. *)
Definition layer_outcome (s : Sys) (circle_geom : geometry) (proj_crs : crs)
    (l : Layer) (total : Z) (sel : gmap string (gset Z))
    : Z * gmap string (gset Z) * list Effect :=
  if eligible s l then
    match transformed circle_geom proj_crs l with
    | Raise e => (total, sel, [transform_warning l e])
    | Ok g =>
        match collected (layer_indexes (tool s) !! l_id l) l g with
        | None => (total, sel, [])
        | Some ids => commit_outcome s l ids total sel
        end
    end
  else (total, sel, []).

(** The whole layer loop. *)
Fixpoint layers_outcome (s : Sys) (circle_geom : geometry) (proj_crs : crs)
    (layers : list Layer) (total : Z) (sel : gmap string (gset Z))
    : Z * gmap string (gset Z) * list Effect :=
  match layers with
  | [] => (total, sel, [])
  | l :: layers' =>
      let '(total1, sel1, t1) := layer_outcome s circle_geom proj_crs l total sel in
      let '(total2, sel2, t2) := layers_outcome s circle_geom proj_crs layers' total1 sel1 in
      (total2, sel2, t1 ++ t2)
  end.

(** The circle [_do_selection] builds around [pos]. *)
Definition circle_of (s : Sys) (pos : QPoint) : geometry :=
  point_buffer (toMapCoordinates (host s) pos)
    (if decide (unit_mode (tool s) = "pixels")
     then (inject_Z (radius_pixels (tool s)) * mapUnitsPerPixel (host s))%Q
     else radius_map_units (tool s))
    (circle_segments (tool s)).

(** The state in which the layer loop of a run at [pos] starts: the
    overlay shows the circle if it is enabled. *)
Definition overlay_updated (pos : QPoint) (s : Sys) : Sys :=
  if show_rubber_band (tool s)
  then on_tool (fun t => set_rubber_band
                           (rubber_band_setToGeometry (circle_of s pos) (rubber_band t)) t) s
  else s.

(** What a run reports after the loop. *)
Definition run_report (total : Z) : list Effect :=
  (if decide (0 < total)
   then [StatusBarMessage ("Selected " +:+ pretty total +:+ " feature(s)") 2000]
   else [])
  ++ [SelectionComplete total].

(** The pixel radius [_compute_pixel_radius_for_cursor] returns, or its
    exception. *)
Definition pixel_radius_of (s : Sys) : result Z :=
  if decide (unit_mode (tool s) = "pixels") then Ok (Z.max 1 (radius_pixels (tool s)))
  else if Qlt_le_dec 0 (mapUnitsPerPixel (host s))
       then match float_div (radius_map_units (tool s)) (mapUnitsPerPixel (host s)) with
            | Some quotient => Ok (Z.max 1 (py_round quotient))
            | None => Raise "OverflowError"
            end
       else Ok (Z.max 1 (radius_pixels (tool s))).

(** The cursor built for that radius, or the exception of the one or of
    the other. *)
Definition cursor_of (s : Sys) : result Cursor :=
  match pixel_radius_of s with
  | Ok radius => _cursor_for_radius radius
  | Raise e => Raise e
  end.

(** *** Failures confined to a layer *)

Inductive Failure :=
| TransformFailure (e : string)
| FetchFailure (e : string)
| CommitFailure (e : string).

(** What the layer loop logs when a layer fails. *)
Definition failure_log (l : Layer) (f : Failure) : list Effect :=
  match f with
  | TransformFailure e => [transform_warning l e]
  | FetchFailure _ => []
  | CommitFailure e => [selection_warning l e]
  end.

(** [layer_fails s c p l f]: in state [s], for the circle [c] in the CRS
    [p], the eligible layer [l] meets the failure [f]: its transform
    raises; or, the layer having no index, a fetch of the fallback scan
    raises; or ids were found and reading or replacing its selection
    raises. *)
Inductive layer_fails (s : Sys) (c : geometry) (p : crs) (l : Layer) : Failure -> Prop :=
| transform_fails e :
    eligible s l = true ->
    transformed c p l = Raise e ->
    layer_fails s c p l (TransformFailure e)
| fetch_fails g e :
    eligible s l = true ->
    transformed c p l = Ok g ->
    layer_indexes (tool s) !! l_id l = None ->
    first_error (fun f => l_fetch l (f_id f)) (layer_getFeatures l (boundingBox g)) = Some e ->
    layer_fails s c p l (FetchFailure e)
| commit_fails g ids e :
    eligible s l = true ->
    transformed c p l = Ok g ->
    collected (layer_indexes (tool s) !! l_id l) l g = Some ids ->
    ids <> ∅ ->
    commit_error l = Some e ->
    layer_fails s c p l (CommitFailure e).

(** The candidates of the indexed path whose fetch does not raise. *)
Definition fetchable (l : Layer) (fids : list Z) : list Z :=
  List.filter (fun fid => bool_decide (l_fetch l fid = None)) fids.

(** *** Exact results and bounding boxes *)

(** The exact test on a feature: it has a geometry, and it meets [g]. *)
Definition intersects_exactly (g : geometry) (f : Feature) : bool :=
  match f_geometry f with
  | Some fg => geom_intersects fg g
  | None => false
  end.

(** If the geometry of [f] meets [g], their bounding boxes meet. *)
Definition bbox_covers (g : geometry) (f : Feature) : bool :=
  match f_geometry f with
  | Some fg =>
      implb (geom_intersects fg g) (rect_intersects (boundingBox fg) (boundingBox g))
  | None => true
  end.

(** *** The hover timer *)

(** The state after a mouse move to [pos]: the point is pending and the
    timer is armed for the whole delay. *)
Definition moved (pos : QPoint) (s : Sys) : Sys :=
  on_tool (fun t => set_hover_timer (Some (_hover_delay_ms t))
                      (set_pending_pos (Some pos) t)) s.

(** The state in which the timeout of a move to [pos] calls its slot. *)
Definition timed_out (pos : QPoint) (s : Sys) : Sys :=
  on_tool (fun t => set_hover_timer None (set_pending_pos (Some pos) t)) s.

(** The state an operation leaves behind. *)
Definition state_after {A} (m : M Sys A) (s : Sys) : Sys := snd (fst (m s)).

(** *** Configuration *)

Definition valid_unit_mode (m : string) : Prop := m = "pixels" \/ m = "map_units".
Definition valid_restrict_mode (m : string) : Prop :=
  m = "all" \/ m = "visible" \/ m = "active".
Definition valid_selection_mode (m : string) : Prop :=
  m = "add" \/ m = "replace" \/ m = "toggle".

(** The invariant the specification states for the configuration. *)
Definition config_ok (t : Tool) : Prop :=
  1 <= radius_pixels t
  /\ (0 < radius_map_units t)%Q
  /\ valid_unit_mode (unit_mode t)
  /\ valid_restrict_mode (restrict_mode t)
  /\ valid_selection_mode (selection_mode t).

(** A call of one of the tool's setters, with any arguments. *)
Inductive Call :=
| SetRadius (pixel_radius : option Z) (mapunit_radius : option Q) (unit_mode : option string)
| SetRestrictMode (restrict_mode : string)
| SetSelectionMode (selection_mode : string)
| SetShowRubberBand (show : bool).

Definition perform (c : Call) : M Sys unit :=
  match c with
  | SetRadius pr mr um => setRadius pr mr um
  | SetRestrictMode rm => setRestrictMode rm
  | SetSelectionMode sm => setSelectionMode sm
  | SetShowRubberBand show => setShowRubberBand show
  end.

(** The state after the calls, made one after the other: the caller goes
    on after a call that raises. *)
Definition after_calls (calls : list Call) (s : Sys) : Sys :=
  foldl (fun s c => state_after (perform c) s) s calls.

(** The call passes no map-unit radius, or a positive one. *)
Definition passes_positive_radius (c : Call) : Prop :=
  match c with
  | SetRadius _ (Some r) _ => (0 < r)%Q
  | _ => True
  end.

(** The fields [setRadius] stores, before it refreshes the cursor. *)
Definition radius_set (pr : option Z) (mr : option Q) (um : option string)
    (t : Tool) : Tool :=
  let t1 := match pr with Some v => set_radius_pixels (Z.max 1 v) t | None => t end in
  let t2 := match mr with Some v => set_radius_map_units v t1 | None => t1 end in
  match um with
  | Some v => if decide (v = "pixels" \/ v = "map_units") then set_unit_mode v t2 else t2
  | None => t2
  end.

Definition restrict_mode_set (rm : string) (t : Tool) : Tool :=
  if decide (rm = "all" \/ rm = "visible" \/ rm = "active")
  then set_restrict_mode rm t else t.

Definition selection_mode_set (sm : string) (t : Tool) : Tool :=
  if decide (sm = "add" \/ sm = "replace" \/ sm = "toggle")
  then set_selection_mode sm t else t.

Definition rubber_band_shown (show : bool) (t : Tool) : Tool :=
  set_rubber_band
    ((if show then rubber_band_show else rubber_band_hide) (rubber_band t))
    (set_show_rubber_band show t).

(** The state [setCursor c] leaves. *)
Definition cursor_set (c : Cursor) (s : Sys) : Sys :=
  let s1 := on_tool (set_cursor c) s in
  if decide (mapTool (host s) = ThisTool)
  then on_host (set_canvas_cursor (Some c)) s1 else s1.

(** The state [activate] leaves when it has built the cursor [c]: cursor
    on the canvas, overlay shown if it is enabled. *)
Definition activated (c : Cursor) (s : Sys) : Sys :=
  on_tool (fun t => if show_rubber_band t
                    then set_rubber_band (rubber_band_show (rubber_band t)) t
                    else t)
    (on_host (set_canvas_cursor (Some c)) s).

(** The state after the first statements of [toggle_activation(True)],
    up to the fields [setRadius] stores. *)
Definition radius_configured (s : Sys) : Sys :=
  let p := panel (shell s) in
  on_tool (radius_set (Some (pixel_radius p)) (Some (mapunit_radius p))
             (Some (p_unit_mode p)))
    (on_shell (set_previous_map_tool (mapTool (host s))) s).

(** The state after the setter calls of [toggle_activation(True)], when
    [setRadius] has built the cursor [c]. *)
Definition configured (c : Cursor) (s : Sys) : Sys :=
  let p := panel (shell s) in
  on_tool (fun t => rubber_band_shown (p_show_rubber_band p)
                      (selection_mode_set (p_selection_mode p)
                         (restrict_mode_set (p_restrict_mode p) t)))
    (cursor_set c (radius_configured s)).

(** The state [rebuildIndexes] leaves. *)
Definition rebuilt (s : Sys) : Sys :=
  on_tool (with_indexes (built_indexes s (mapLayers (host s)) ∅)
                        (built_ids s (mapLayers (host s)) ∅)) s.

(** *** Activation *)

(** What holds of the tool button and of the remembered tool in every
    state the events lead to: the remembered tool is never this tool, and
    this tool is the canvas's tool only while the button is checked. *)
Definition shell_ok (s : Sys) : Prop :=
  previous_map_tool (shell s) <> ThisTool
  /\ (checked (shell s) = false -> mapTool (host s) <> ThisTool).

(** The state of a tool that has just been activated: it is the canvas's
    tool, the canvas shows the cursor of the current pixel radius, the
    index cache is the one [rebuildIndexes] builds for the current layers
    and settings, the overlay is visible exactly if it is enabled. *)
Definition prepared (s : Sys) : Prop :=
  mapTool (host s) = ThisTool
  /\ (exists c, cursor_of s = Ok c /\ canvas_cursor (host s) = Some c)
  /\ layer_indexes (tool s) = built_indexes s (mapLayers (host s)) ∅
  /\ indexed_layer_ids (tool s) = dom (layer_indexes (tool s))
  /\ rb_visible (rubber_band (tool s)) = show_rubber_band (tool s).

(** The button, the remembered tool and the canvas's tool are the same
    in both states. *)
Definition same_activation (s s' : Sys) : Prop :=
  previous_map_tool (shell s') = previous_map_tool (shell s)
  /\ checked (shell s') = checked (shell s)
  /\ mapTool (host s') = mapTool (host s).

(** [safe m]: [m] never raises and leaves the button, the remembered tool
    and the canvas's tool alone; [framed m]: the same, except that [m]
    may raise. *)
Definition safe {A} (m : M Sys A) : Prop :=
  forall s, exists a s' t, m s = (Ok a, s', t) /\ same_activation s s'.

Definition framed {A} (m : M Sys A) : Prop :=
  forall s, exists r s' t, m s = (r, s', t) /\ same_activation s s'.

End Notions.

(** ** What a run commits *)

Section Outcomes.
Context {T : GeoTypes} {G : Geo T}.

(** The ids a run with the circle [c] commits to the layer [l]: the layer
    is eligible, its transform and its scan do not abandon it, the verified
    set is not empty and the commit block does not raise. *)
Definition committed (s : Sys) (c : geometry) (p : crs) (l : Layer) : option (gset Z) :=
  if eligible s l then
    match transformed c p l with
    | Raise _ => None
    | Ok g =>
        match collected (layer_indexes (tool s) !! l_id l) l g with
        | None => None
        | Some ids =>
            if decide (ids <> ∅) then
              match commit_error l with
              | Some _ => None
              | None => Some ids
              end
            else None
        end
    end
  else None.

(** What the layer adds to [total_selected]. *)
Definition committed_count (s : Sys) (c : geometry) (p : crs) (l : Layer) : Z :=
  match committed s c p l with
  | Some ids => Z.of_nat (size ids)
  | None => 0
  end.

Definition committed_total (s : Sys) (c : geometry) (p : crs) (layers : list Layer) : Z :=
  foldr (fun l n => committed_count s c p l + n) 0 layers.

(** The selections after the pass over one layer. *)
Definition commit_step (s : Sys) (c : geometry) (p : crs)
    (sel : gmap string (gset Z)) (l : Layer) : gmap string (gset Z) :=
  match committed s c p l with
  | Some ids => <[l_id l := new_sel (selection_mode (tool s)) (sel !!! l_id l) ids]> sel
  | None => sel
  end.

(** What the pass over one layer logs. *)
Definition layer_log (s : Sys) (c : geometry) (p : crs) (l : Layer) : list Effect :=
  snd (layer_outcome s c p l 0 ∅).

(** The selection of the layer with id [id]. *)
Definition selection_of (s : Sys) (id : string) : gset Z :=
  selectedFeatureIds (host s) !!! id.

(** The state after a run at [pos] that leaves the selections [sel]. *)
Definition ran (pos : QPoint) (sel : gmap string (gset Z)) (s : Sys) : Sys :=
  with_selection sel (overlay_updated pos s).

(** *** Clearing the selections *)

(** The pass of [onClearSelectionRequested] over one layer: the count and
    the selections after it. *)
Definition clear_step (acc : Z * gmap string (gset Z)) (l : Layer)
    : Z * gmap string (gset Z) :=
  let '(count, sel) := acc in
  if decide (l_type l = VectorLayer) then
    match l_read_selection l with
    | Some _ => (count, sel)
    | None =>
        let n := Z.of_nat (size (sel !!! l_id l : gset Z)) in
        if decide (0 < n) then
          (count + n, match l_commit l with Some _ => sel | None => <[l_id l := ∅]> sel end)
        else (count, sel)
    end
  else (count, sel).

(** What [onClearSelectionRequested] reports for a count. *)
Definition clear_report (count : Z) : list Effect :=
  if decide (0 < count) then
    [MessageBarMessage "SelectOnHover"
       ("Cleared selection (" +:+ pretty count +:+ " features)") 2;
     LogMessage ("Cleared selection: " +:+ pretty count +:+ " features")
                "SelectOnHover" Info]
  else [].

(** What the layer adds to the count of [onClearSelectionRequested] when
    its selection is the one it has in [s]. *)
Definition counted (s : Sys) (l : Layer) : Z :=
  if decide (l_type l = VectorLayer) then
    match l_read_selection l with
    | Some _ => 0
    | None => Z.of_nat (size (selection_of s (l_id l)))
    end
  else 0.

Definition counted_total (s : Sys) (layers : list Layer) : Z :=
  foldr (fun l n => counted s l + n) 0 layers.

(** *** The cache and the current layers *)

(** The index cache is the one [rebuildIndexes] builds for the current
    layers and settings. *)
Definition cache_fresh (s : Sys) : Prop :=
  layer_indexes (tool s) = built_indexes s (mapLayers (host s)) ∅
  /\ indexed_layer_ids (tool s) = dom (layer_indexes (tool s)).

(** What the cache is built from is the same in both states, and so are
    the cache, the button, the remembered tool and the canvas's tool. *)
Definition same_cache (s s' : Sys) : Prop :=
  same_activation s s'
  /\ restrict_mode (tool s') = restrict_mode (tool s)
  /\ layer_indexes (tool s') = layer_indexes (tool s)
  /\ indexed_layer_ids (tool s') = indexed_layer_ids (tool s)
  /\ mapLayers (host s') = mapLayers (host s)
  /\ layerTree (host s') = layerTree (host s)
  /\ currentLayer (host s') = currentLayer (host s).

(** What holds in every state the events lead to: the button and the
    remembered tool are in order; while this tool is the canvas's tool
    its cache is fresh; the hover timer is armed only while this tool is
    the canvas's tool. *)
Definition plugin_ok (s : Sys) : Prop :=
  shell_ok s
  /\ (mapTool (host s) = ThisTool -> cache_fresh s)
  /\ (_hover_timer (tool s) <> None -> mapTool (host s) = ThisTool).

(** *** The panel and the plugin *)

(** The widgets have the ranges, the decimals and the items [_setup_ui]
    gives them. *)
Definition laid_out (w : SelectOnHoverPanel.Widget) : Prop :=
  cb_items (SelectOnHoverPanel.units_combo w) = [("Pixels", None); ("Map units", None)]
  /\ cb_items (SelectOnHoverPanel.restrict_combo w)
     = [("Visible & selectable layers", Some "visible");
        ("All selectable layers", Some "all");
        ("Active layer only", Some "active")]
  /\ cb_items (SelectOnHoverPanel.selection_mode_combo w)
     = [("Add to selection", Some "add");
        ("Replace selection", Some "replace");
        ("Toggle selection", Some "toggle")]
  /\ sb_minimum (SelectOnHoverPanel.spin_pixels w) = 1
  /\ sb_maximum (SelectOnHoverPanel.spin_pixels w) = 2000
  /\ dsb_decimals (SelectOnHoverPanel.spin_mapunits w) = 6
  /\ dsb_minimum (SelectOnHoverPanel.spin_mapunits w) = float_lit (1 # 1000000)
  /\ dsb_maximum (SelectOnHoverPanel.spin_mapunits w) = 1000000000 # 1.

(** Values the panel can hold: radii within the ranges of the spin
    boxes, the map-unit radius a float with six decimals, enumerated
    modes. *)
Definition representable (p : Panel) : Prop :=
  1 <= pixel_radius p <= 2000
  /\ ((float_lit (1 # 1000000) <= mapunit_radius p)%Q
      /\ (mapunit_radius p <= 1000000000 # 1)%Q)
  /\ round_decimals 6 (mapunit_radius p) = mapunit_radius p
  /\ valid_unit_mode (p_unit_mode p)
  /\ valid_restrict_mode (p_restrict_mode p)
  /\ valid_selection_mode (p_selection_mode p).

(** The event carries values the panel can hold. *)
Definition event_ok (e : Event) : Prop :=
  match e with
  | RadiusChanged p | OptionsChanged p | VisualFeedbackChanged p => representable p
  | _ => True
  end.

(** The five fields of the configuration invariant. *)
Definition tool_config (t : Tool) : Z * Q * string * string * string :=
  (radius_pixels t, radius_map_units t, unit_mode t, restrict_mode t, selection_mode t).

(** What [_save_settings_from_panel] stores for the panel values [p]. *)
Definition saved (p : Panel) (store : gmap string QVariant) : gmap string QVariant :=
  <[SelectOnHoverPlugin.key "show_rubber_band" := VBool (p_show_rubber_band p)]>
  (<[SelectOnHoverPlugin.key "selection_mode" := VStr (p_selection_mode p)]>
  (<[SelectOnHoverPlugin.key "restrict_mode" := VStr (p_restrict_mode p)]>
  (<[SelectOnHoverPlugin.key "unit_mode" := VStr (p_unit_mode p)]>
  (<[SelectOnHoverPlugin.key "mapunit_radius" := VFloat (mapunit_radius p)]>
  (<[SelectOnHoverPlugin.key "pixel_radius" := VInt (pixel_radius p)]> store))))).

(** The values [_load_settings_from_panel] passes to [setValues], or the
    exception of a conversion. *)
Definition loaded {R : Runtime} (store : gmap string QVariant) : result Panel :=
  match py_int (default (VInt 20) (store !! SelectOnHoverPlugin.key "pixel_radius")) with
  | Raise e => Raise e
  | Ok pr =>
      match py_float (default (VFloat 10)
                        (store !! SelectOnHoverPlugin.key "mapunit_radius")) with
      | Raise e => Raise e
      | Ok mr =>
          Ok {| pixel_radius := pr;
                mapunit_radius := mr;
                p_unit_mode :=
                  py_str (default (VStr "pixels")
                            (store !! SelectOnHoverPlugin.key "unit_mode"));
                p_restrict_mode :=
                  py_str (default (VStr "visible")
                            (store !! SelectOnHoverPlugin.key "restrict_mode"));
                p_selection_mode :=
                  py_str (default (VStr "add")
                            (store !! SelectOnHoverPlugin.key "selection_mode"));
                p_show_rubber_band :=
                  to_bool (default (VBool true)
                             (store !! SelectOnHoverPlugin.key "show_rubber_band")) |}
      end
  end.

(** [setValues] with the six values of [p]. *)
Definition set_to (p : Panel) (w : SelectOnHoverPanel.Widget) : SelectOnHoverPanel.Widget :=
  SelectOnHoverPanel.setValues (pixel_radius p) (mapunit_radius p) (p_unit_mode p)
    (p_restrict_mode p) (p_selection_mode p) (p_show_rubber_band p) w.

(** The state [deactivate] leaves. *)
Definition deactivated (s : Sys) : Sys :=
  on_tool (fun t => set_hover_timer None
                      (set_rubber_band
                         (rubber_band_hide (rubber_band_reset (rubber_band t))) t)) s.

End Outcomes.

(** ** A concrete host: geometries on the integer lattice

    Geometries are finite sets of lattice points, the circle of radius [r]
    is the set of lattice points within distance [r] of its centre, a CRS
    is the easting of its origin (a negative code has no transform path).
    The examples and the instances of the theorems below run on it. *)

Module Lattice.

Definition points : Type := list (Z * Z).

(** [xmin, ymin, xmax, ymax], or the null rectangle of an empty geometry. *)
Definition box : Type := option (Z * Z * Z * Z).

Definition grow (b : Z * Z * Z * Z) (p : Z * Z) : Z * Z * Z * Z :=
  let '(x0, y0, x1, y1) := b in
  (Z.min x0 (fst p), Z.min y0 (snd p), Z.max x1 (fst p), Z.max y1 (snd p)).

Definition bbox (g : points) : box :=
  match g with
  | [] => None
  | p :: ps => Some (foldl grow (fst p, snd p, fst p, snd p) ps)
  end.

Definition overlap (a b : box) : bool :=
  match a, b with
  | Some (ax0, ay0, ax1, ay1), Some (bx0, by0, bx1, by1) =>
      (ax0 <=? bx1) && (bx0 <=? ax1) && (ay0 <=? by1) && (by0 <=? ay1)
  | _, _ => false
  end.

Definition meets (a b : points) : bool :=
  existsb (fun p => existsb (fun q => bool_decide (p = q)) b) a.

Definition disc (c : Z * Z) (r : Q) (segments : Z) : points :=
  let k := Qceiling r in
  let span := seqZ (- k) (2 * k + 1) in
  dx ← span; dy ← span;
  if Qle_bool (inject_Z (dx * dx + dy * dy)) (r * r)
  then [(fst c + dx, snd c + dy)] else [].

Definition reproject (src dst : Z) (g : points) : result points :=
  if decide (dst < 0) then Raise "no transform path"
  else Ok ((fun p => (fst p - (dst - src), snd p)) <$> g).

#[global] Instance types : GeoTypes :=
  {| geometry := points; rectangle := box; crs := Z; map_point := Z * Z |}.

#[global] Instance geo : Geo types :=
  {| point_buffer := disc;
     geom_transform := reproject;
     boundingBox := bbox;
     rect_intersects := overlap;
     geom_intersects := meets |}.

Definition feature (fid : Z) (g : points) : Feature :=
  {| f_id := fid; f_geometry := Some g |}.

Definition layer (id : string) (c : Z) (fs : list Feature) : Layer :=
  {| l_id := id; l_name := id; l_type := VectorLayer; l_selectable := Ok true;
     l_crs := c; l_features := fs;
     l_index_build := None; l_index_query := None; l_fetch := fun _ => None;
     l_read_selection := None; l_commit := None |}.

(** Around the origin with radius 2: features 2, 3 and 4 meet the circle,
    5 only meets its bounding box, 1 is far away, 6 has no geometry. *)
Definition roads : Layer :=
  layer "roads" 0
    [feature 1 [(5, 5)]; feature 2 [(0, 0)]; feature 3 [(1, 1)];
     feature 4 [(0, 2); (7, 7)]; feature 5 [(2, 2)];
     {| f_id := 6; f_geometry := None |}].

(** A layer in another CRS, three units east. *)
Definition parcels : Layer :=
  layer "parcels" 3 [feature 10 [(-3, 0)]; feature 11 [(0, 0)]].

(** A layer whose CRS has no transform path from the project's. *)
Definition wells : Layer := layer "wells" (-1) [feature 20 [(0, 0)]].

Definition relief : Layer :=
  {| l_id := "relief"; l_name := "relief"; l_type := RasterLayer;
     l_selectable := Ok true; l_crs := 0; l_features := [];
     l_index_build := None; l_index_query := None; l_fetch := fun _ => None;
     l_read_selection := None; l_commit := None |}.

Definition demo_host (layers : list Layer) : Host :=
  {| mapLayers := layers;
     project_crs := 0;
     layerTree := fun _ => Some true;
     currentLayer := Some "roads";
     mapUnitsPerPixel := 1 # 2;
     toMapCoordinates := fun p => (fst p / 2, snd p / 2);
     mapTool := NoTool;
     canvas_cursor := None;
     selectedFeatureIds := {["roads" := {[1; 2; 3]}]} |}.

Definition demo_panel : Panel :=
  {| pixel_radius := 4; mapunit_radius := 2; p_unit_mode := "pixels";
     p_restrict_mode := "visible"; p_selection_mode := "toggle";
     p_show_rubber_band := true |}.

(** The tool [__init__] constructs from the values of [demo_panel]
    ([demo_tool_constructed] below). *)
Definition demo_tool : Tool :=
  {| radius_pixels := 4;
     radius_map_units := 2;
     unit_mode := "pixels";
     circle_segments := DEFAULT_CIRCLE_SEGMENTS;
     restrict_mode := "visible";
     selection_mode := "toggle";
     show_rubber_band := true;
     cursor := {| cur_size := 16; cur_radius := 4; cur_hot := 8 |};
     layer_indexes := ∅;
     indexed_layer_ids := ∅;
     rubber_band := {| rb_visible := true; rb_geometry := None |};
     _hover_timer := None;
     _hover_delay_ms := DEFAULT_HOVER_DELAY_MS;
     _pending_pos := None |}.

(** The plugin once [initGui] has constructed the tool from the panel:
    the button is unchecked and no tool is set on the canvas. *)
Definition demo (layers : list Layer) : Sys :=
  {| tool := demo_tool;
     host := demo_host layers;
     shell := {| panel := demo_panel; previous_map_tool := NoTool; checked := false |} |}.

(** The state an operation leaves behind. *)
Definition after {A} (m : M Sys A) (s : Sys) : Sys := state_after m s.

(** The tool with its indexes built and the mouse resting on the origin. *)
Definition hovering (layers : list Layer) : Sys :=
  after (canvasMoveEvent (0, 0)) (after rebuildIndexes (demo layers)).

(** [l], except that building its spatial index raises. *)
Definition unindexable (l : Layer) : Layer :=
  {| l_id := l_id l; l_name := l_name l; l_type := l_type l;
     l_selectable := l_selectable l; l_crs := l_crs l; l_features := l_features l;
     l_index_build := Some "index error"; l_index_query := l_index_query l;
     l_fetch := l_fetch l;
     l_read_selection := l_read_selection l; l_commit := l_commit l |}.

(** [l], except that fetching the feature [bad] raises. *)
Definition flaky (l : Layer) (bad : Z) : Layer :=
  {| l_id := l_id l; l_name := l_name l; l_type := l_type l;
     l_selectable := l_selectable l; l_crs := l_crs l; l_features := l_features l;
     l_index_build := l_index_build l; l_index_query := l_index_query l;
     l_fetch := fun fid => if decide (fid = bad) then Some "provider error" else None;
     l_read_selection := l_read_selection l; l_commit := l_commit l |}.

(** The Python runtime of the examples: no string is a number, and the
    strings Qt reads as false are "", "0" and "false". *)
#[global] Instance runtime : Runtime :=
  {| int_of_str := fun s => Raise ("ValueError: invalid literal for int(): " +:+ s);
     float_of_str := fun s => Raise ("ValueError: could not convert string to float: " +:+ s);
     str_of_float := fun q => pretty (Qnum q) +:+ "/" +:+ pretty (Zpos (Qden q));
     bool_of_str := fun s => negb (bool_decide (s = "" \/ s = "0" \/ s = "false")) |}.

(** The plugin object before [initGui], on the demo host. *)
Definition plugin (layers : list Layer) (store : gmap string QVariant)
    : SelectOnHoverPlugin.Plugin :=
  SelectOnHoverPlugin.__init__ (demo_host layers) store.

End Lattice.

(** * Properties *)

(** ** Running the monad *)

Section Monad.
Context {S : Type}.

Lemma bind_ok {A B} (m : M S A) (k : A -> M S B) s a s1 t1 :
  m s = (Ok a, s1, t1) ->
  bind m k s = (let '(r, s2, t2) := k a s1 in (r, s2, t1 ++ t2)).
Proof. intros H. unfold bind. now rewrite H. Qed.

Lemma bind_ok_nil {A B} (m : M S A) (k : A -> M S B) s a s1 :
  m s = (Ok a, s1, []) -> bind m k s = k a s1.
Proof.
  intros H. rewrite (bind_ok _ _ _ _ _ _ H).
  destruct (k a s1) as [[r s2] t2]. reflexivity.
Qed.

Lemma bind_raise {A B} (m : M S A) (k : A -> M S B) s e s1 t1 :
  m s = (Raise e, s1, t1) -> bind m k s = (Raise e, s1, t1).
Proof. intros H. unfold bind. now rewrite H. Qed.

Lemma try_except_ok {A} (m : M S A) h s a s1 t1 :
  m s = (Ok a, s1, t1) -> try_except m h s = (Ok a, s1, t1).
Proof. intros H. unfold try_except. now rewrite H. Qed.

Lemma try_except_raise {A} (m : M S A) h s e s1 t1 :
  m s = (Raise e, s1, t1) ->
  try_except m h s = (let '(r, s2, t2) := h e s1 in (r, s2, t1 ++ t2)).
Proof. intros H. unfold try_except. now rewrite H. Qed.

Lemma for_fold_cons {A X} (body : A -> X -> M S A) acc x xs s acc1 s1 t1 :
  body acc x s = (Ok acc1, s1, t1) ->
  for_fold body acc (x :: xs) s
  = (let '(r, s2, t2) := for_fold body acc1 xs s1 in (r, s2, t1 ++ t2)).
Proof. intros H. simpl. unfold bind. now rewrite H. Qed.

(** A loop whose body leaves the state alone and emits nothing is a left
    fold of the accumulator. *)
Lemma for_fold_pure {A X} (body : A -> X -> M S A) (f : A -> X -> A) xs :
  forall acc s,
    (forall acc x, x ∈ xs -> body acc x s = (Ok (f acc x), s, [])) ->
    for_fold body acc xs s = (Ok (foldl f acc xs), s, []).
Proof.
  induction xs as [|x xs IH]; intros acc s Hbody; [reflexivity|].
  simpl. rewrite (bind_ok_nil _ _ _ _ _ (Hbody acc x ltac:(left))).
  apply IH. intros acc' x' Hx'. apply Hbody. now right.
Qed.

(** A loop whose body either steps the accumulator or raises, touching
    nothing else, stops at the first exception. *)
Lemma for_fold_first_error {A X} (body : A -> X -> M S A) (f : A -> X -> A)
    (err : X -> option string) xs :
  forall acc s,
    (forall acc x, x ∈ xs ->
       body acc x s = match err x with
                      | Some e => (Raise e, s, [])
                      | None => (Ok (f acc x), s, [])
                      end) ->
    for_fold body acc xs s
    = match first_error err xs with
      | Some e => (Raise e, s, [])
      | None => (Ok (foldl f acc xs), s, [])
      end.
Proof.
  induction xs as [|x xs IH]; intros acc s Hbody; [reflexivity|].
  pose proof (Hbody acc x ltac:(left)) as Hx.
  unfold first_error in *. simpl. destruct (err x) as [e|] eqn:Hex.
  - simpl. now rewrite (bind_raise _ _ _ _ _ _ Hx).
  - rewrite (bind_ok_nil _ _ _ _ _ Hx).
    apply IH. intros acc' x' Hx'. apply Hbody. now right.
Qed.

End Monad.

(** ** Eligibility and the index cache *)

Section Rebuild.
Context {T : GeoTypes} {G : Geo T}.

Lemma skip_layer_run layer s :
  skip_layer layer s = (Ok (negb (eligible s layer)), s, []).
Proof.
  unfold skip_layer, eligible.
  destruct (decide (l_type layer <> VectorLayer)) as [Hty|Hty].
  { rewrite bool_decide_eq_false_2 by done. reflexivity. }
  rewrite bool_decide_eq_true_2 by (destruct (decide (l_type layer = VectorLayer)); tauto).
  unfold bind, try_except, call, ret, gets. simpl.
  destruct (l_selectable layer) as [[|]|e]; simpl; try reflexivity.
  all: destruct (decide (restrict_mode (tool s) = "visible")); simpl.
  all: try (destruct (layerTree (host s) (l_id layer)) as [[|]|]; reflexivity).
  all: destruct (decide (restrict_mode (tool s) = "active")); simpl; try reflexivity.
  all: destruct (currentLayer (host s)) as [a|]; simpl; try reflexivity.
  all: destruct (decide (a = l_id layer)) as [->|Hne].
  all: try (rewrite bool_decide_eq_false_2 by tauto; rewrite bool_decide_eq_true_2 by done;
            reflexivity).
  all: rewrite bool_decide_eq_true_2 by done; rewrite bool_decide_eq_false_2 by done;
       reflexivity.
Qed.

Lemma QgsSpatialIndex_ok layer s :
  l_index_build layer = None ->
  QgsSpatialIndex layer s = (Ok (index_of layer), s, []).
Proof. intros H. unfold QgsSpatialIndex. now rewrite H. Qed.

Lemma QgsSpatialIndex_raise layer e s :
  l_index_build layer = Some e ->
  QgsSpatialIndex layer s = (Raise e, s, []).
Proof. intros H. unfold QgsSpatialIndex. now rewrite H. Qed.

Lemma index_layer_run layer m ids s :
  index_layer layer (on_tool (with_indexes m ids) s)
  = (Ok tt,
     on_tool (with_indexes
                (if indexable s layer then <[l_id layer := index_of layer]> m else m)
                (if indexable s layer then {[l_id layer]} ∪ ids else ids)) s,
     rebuild_log_entry s layer).
Proof.
  unfold index_layer. rewrite (bind_ok_nil _ _ _ _ _ (skip_layer_run _ _)).
  unfold indexable, rebuild_log_entry.
  change (eligible (on_tool (with_indexes m ids) s) layer) with (eligible s layer).
  destruct (eligible s layer); simpl; [|reflexivity].
  destruct (l_index_build layer) as [e|] eqn:Hb.
  - rewrite bool_decide_eq_false_2 by done.
    unfold try_except, bind. rewrite (QgsSpatialIndex_raise _ e) by done. reflexivity.
  - rewrite bool_decide_eq_true_2 by done.
    unfold try_except, bind. rewrite QgsSpatialIndex_ok by done. reflexivity.
Qed.

Lemma index_layers_run layers : forall m ids s,
  for_each layers index_layer (on_tool (with_indexes m ids) s)
  = (Ok tt,
     on_tool (with_indexes (built_indexes s layers m) (built_ids s layers ids)) s,
     mjoin (rebuild_log_entry s <$> layers)).
Proof.
  induction layers as [|l layers IH]; intros m ids s; [reflexivity|].
  unfold for_each in *. simpl for_fold.
  rewrite (bind_ok _ _ _ _ _ _ (index_layer_run l m ids s)).
  rewrite IH. reflexivity.
Qed.

Lemma rebuildIndexes_run s :
  rebuildIndexes s
  = (Ok tt,
     on_tool (with_indexes (built_indexes s (mapLayers (host s)) ∅)
                           (built_ids s (mapLayers (host s)) ∅)) s,
     mjoin (rebuild_log_entry s <$> mapLayers (host s)) ++ [IndexesRebuilt]).
Proof.
  unfold rebuildIndexes, bind at 1 2 3. simpl.
  change (on_tool (set_indexed_layer_ids ∅) (on_tool (set_layer_indexes ∅) s))
    with (on_tool (with_indexes ∅ ∅) s).
  unfold bind. rewrite index_layers_run. reflexivity.
Qed.

Lemma built_indexes_cons s l layers m :
  built_indexes s (l :: layers) m
  = built_indexes s layers (if indexable s l then <[l_id l := index_of l]> m else m).
Proof. reflexivity. Qed.

Lemma built_indexes_dom s layers : forall m,
  dom (built_indexes s layers m)
  = dom m ∪ list_to_set (l_id <$> List.filter (indexable s) layers).
Proof.
  induction layers as [|l layers IH]; intros m.
  - cbn. now rewrite (right_id_L ∅ (∪)).
  - rewrite built_indexes_cons, IH. cbn [List.filter].
    destruct (indexable s l); [|reflexivity].
    rewrite dom_insert_L, fmap_cons, list_to_set_cons.
    rewrite (comm_L (∪) {[l_id l]} (dom m)). now rewrite (assoc_L (∪)).
Qed.

Lemma built_ids_dom s layers : forall m ids,
  ids = dom m -> built_ids s layers ids = dom (built_indexes s layers m).
Proof.
  induction layers as [|l layers IH]; intros m ids ->; [reflexivity|].
  unfold built_ids, built_indexes in *. simpl. apply IH.
  destruct (indexable s l); [now rewrite dom_insert_L|reflexivity].
Qed.

Lemma built_indexes_other s layers id : forall m,
  id ∉ l_id <$> layers -> built_indexes s layers m !! id = m !! id.
Proof.
  induction layers as [|l layers IH]; intros m Hid; [reflexivity|].
  rewrite built_indexes_cons. rewrite fmap_cons in Hid.
  apply not_elem_of_cons in Hid as [Hne Hid]. rewrite IH by done.
  destruct (indexable s l); [now rewrite lookup_insert_ne|reflexivity].
Qed.

Lemma built_indexes_lookup s layers l : forall m,
  NoDup (l_id <$> layers) -> l ∈ layers ->
  built_indexes s layers m !! l_id l
  = if indexable s l then Some (index_of l) else m !! l_id l.
Proof.
  induction layers as [|l' layers IH]; intros m Hnd Hl.
  - now apply elem_of_nil in Hl.
  - rewrite fmap_cons in Hnd. apply NoDup_cons in Hnd as [Hfresh Hnd].
    rewrite built_indexes_cons.
    apply elem_of_cons in Hl as [->|Hl].
    + rewrite built_indexes_other by done.
      destruct (indexable s l'); [apply lookup_insert_eq|reflexivity].
    + rewrite IH by done.
      destruct (indexable s l); [reflexivity|].
      destruct (indexable s l'); [|reflexivity].
      apply lookup_insert_ne. intros Heq. apply Hfresh. rewrite Heq.
      now apply list_elem_of_fmap_2.
Qed.

Lemma built_indexes_origin s layers : forall m id idx,
  built_indexes s layers m !! id = Some idx ->
  m !! id = Some idx \/
  exists l, l ∈ layers /\ l_id l = id /\ indexable s l = true /\ idx = index_of l.
Proof.
  induction layers as [|l layers IH]; intros m id idx H; [now left|].
  rewrite built_indexes_cons in H.
  apply IH in H as [H|(l' & Hin & Hid & Hix & Heq)].
  - destruct (indexable s l) eqn:Hix; [|now left].
    destruct (decide (l_id l = id)) as [Hid|Hid].
    + subst id. rewrite lookup_insert_eq in H. injection H as <-.
      right. exists l. repeat split; [left|done].
    + rewrite lookup_insert_ne in H by done. now left.
  - right. exists l'. repeat split; try done. now right.
Qed.

Lemma rebuild_log_warning s layers l e :
  l ∈ layers -> eligible s l = true -> l_index_build l = Some e ->
  LogMessage ("Failed to build index for layer " +:+ l_name l +:+ ": " +:+ e)
             "SelectOnHover" Warning
  ∈ mjoin (rebuild_log_entry s <$> layers).
Proof.
  intros Hin Hel Hb. apply list_elem_of_join.
  exists (rebuild_log_entry s l). split; [|now apply list_elem_of_fmap_2].
  unfold rebuild_log_entry. rewrite Hel, Hb. left.
Qed.

(** C6.  [rebuildIndexes] never raises and replaces the whole cache: the
    new mapping has an entry exactly for the ids of the eligible layers
    whose index was built, each entry is the index of such a layer,
    whatever the old cache held; [indexed_layer_ids] is its domain; every
    eligible layer whose index construction raises gets a warning in the
    log and, ids being unique, no entry, while every eligible layer whose
    construction succeeds gets its index. *)
Theorem rebuildIndexes_clears_and_repopulates (s : Sys) :
  exists s',
    rebuildIndexes s
    = (Ok tt, s', mjoin (rebuild_log_entry s <$> mapLayers (host s)) ++ [IndexesRebuilt])
    /\ host s' = host s
    /\ dom (layer_indexes (tool s'))
       = list_to_set (l_id <$> List.filter (indexable s) (mapLayers (host s)))
    /\ indexed_layer_ids (tool s') = dom (layer_indexes (tool s'))
    /\ (forall id idx,
          layer_indexes (tool s') !! id = Some idx ->
          exists l, l ∈ mapLayers (host s) /\ l_id l = id /\
                    indexable s l = true /\ idx = index_of l)
    /\ (forall l e,
          l ∈ mapLayers (host s) -> eligible s l = true -> l_index_build l = Some e ->
          LogMessage ("Failed to build index for layer " +:+ l_name l +:+ ": " +:+ e)
                     "SelectOnHover" Warning
          ∈ mjoin (rebuild_log_entry s <$> mapLayers (host s)))
    /\ (NoDup (l_id <$> mapLayers (host s)) ->
        forall l, l ∈ mapLayers (host s) ->
          layer_indexes (tool s') !! l_id l
          = if indexable s l then Some (index_of l) else None).
Proof.
  eexists. split; [apply rebuildIndexes_run|]. simpl.
  split; [reflexivity|].
  split; [now rewrite built_indexes_dom, dom_empty_L, (left_id_L ∅ (∪))|].
  split; [now apply built_ids_dom|].
  split.
  { intros id idx H. apply built_indexes_origin in H as [H|H]; [|done].
    now rewrite lookup_empty in H. }
  split; [intros l e; apply rebuild_log_warning|].
  intros Hnd l Hl. rewrite built_indexes_lookup by done.
  now destruct (indexable s l).
Qed.

End Rebuild.

(** A rebuild drops the entries of layers that are no longer eligible:
    both layers are indexed while the restriction is "visible"; under
    "active" the rebuild keeps the current layer only.  A layer whose
    index cannot be built gets a warning and no entry, and the next
    layer is still indexed. *)
Example rebuildIndexes_example :
  let s1 := Lattice.after rebuildIndexes (Lattice.demo [Lattice.roads; Lattice.parcels]) in
  let s2 := Lattice.after (setRestrictMode "active" ;;; rebuildIndexes) s1 in
  let s3 := Lattice.demo [Lattice.unindexable Lattice.roads; Lattice.parcels] in
  dom (layer_indexes (tool s1)) = {["roads"; "parcels"]}
  /\ dom (layer_indexes (tool s2)) = {["roads"]}
  /\ rebuildIndexes s3
     = (Ok tt, Lattice.after rebuildIndexes s3,
        [LogMessage "Failed to build index for layer roads: index error"
                    "SelectOnHover" Warning;
         LogMessage "Built spatial index for layer: parcels" "SelectOnHover" Info;
         IndexesRebuilt])
  /\ dom (layer_indexes (tool (Lattice.after rebuildIndexes s3))) = {["parcels"]}.
Proof.
  intros s1 s2 s3. repeat split; vm_compute; reflexivity.
Qed.

(** ** The pipeline computes [layers_outcome] *)

Section Pipeline.
Context {T : GeoTypes} {G : Geo T}.

Lemma with_selection_id s : with_selection (selectedFeatureIds (host s)) s = s.
Proof. destruct s as [t [] sh]. reflexivity. Qed.

Lemma transform_to_layer_run c p l s :
  transform_to_layer c p l s
  = match transformed c p l with
    | Ok g => (Ok (Some g), s, [])
    | Raise e => (Ok None, s, [transform_warning l e])
    end.
Proof.
  unfold transform_to_layer, transformed.
  destruct (decide (l_crs l <> p)); [|reflexivity].
  unfold try_except, bind, call.
  destruct (geom_transform p (l_crs l) c); reflexivity.
Qed.

Lemma index_intersects_run index bbox s :
  try_except (index_intersects index bbox) (fun _ => ret []) s
  = (Ok (candidates index bbox), s, []).
Proof.
  unfold try_except, index_intersects, candidates.
  destruct (idx_query index); reflexivity.
Qed.

Lemma collect_ids_run l g s :
  collect_ids l g s
  = (Ok (collected (layer_indexes (tool s) !! l_id l) l g), s, []).
Proof.
  unfold collect_ids, bind at 1, gets at 1. simpl.
  destruct (layer_indexes (tool s) !! l_id l) as [index|]; simpl.
  - rewrite (bind_ok_nil _ _ _ _ _ (index_intersects_run _ _ _)).
    erewrite bind_ok_nil; [reflexivity|].
    unfold verified_indexed. apply for_fold_pure.
    intros ids fid _. unfold try_except, bind, layer_getFeature, lookup_feature.
    destruct (l_fetch l fid); reflexivity.
  - unfold try_except, bind, verified_fallback.
    rewrite (for_fold_first_error _ (verify g) (fun f => l_fetch l (f_id f))).
    + destruct (first_error _ _); reflexivity.
    + intros ids f _. unfold iter_next. destruct (l_fetch l (f_id f)); reflexivity.
Qed.

Lemma commit_selection_run l ids total s :
  commit_selection l ids total s
  = (let '(total', sel', t) :=
       commit_outcome s l ids total (selectedFeatureIds (host s)) in
     (Ok total', with_selection sel' s, t)).
Proof.
  unfold commit_selection, commit_outcome, commit_error.
  destruct (decide (ids <> ∅)); [|now rewrite with_selection_id].
  unfold try_except, bind, layer_selectedFeatureIds, layer_selectByIds.
  destruct (l_read_selection l) as [e|]; simpl; [now rewrite with_selection_id|].
  destruct (l_commit l) as [e|]; simpl; [now rewrite with_selection_id|].
  reflexivity.
Qed.

Lemma select_in_layer_run c p total l s :
  select_in_layer c p total l s
  = (let '(total', sel', t) :=
       layer_outcome s c p l total (selectedFeatureIds (host s)) in
     (Ok total', with_selection sel' s, t)).
Proof.
  unfold select_in_layer, layer_outcome.
  rewrite (bind_ok_nil _ _ _ _ _ (skip_layer_run _ _)).
  destruct (eligible s l); simpl; [|now rewrite with_selection_id].
  unfold bind at 1. rewrite transform_to_layer_run.
  destruct (transformed c p l) as [g|e]; [|now rewrite with_selection_id].
  rewrite (bind_ok_nil _ _ _ _ _ (collect_ids_run _ _ _)).
  destruct (collected _ l g) as [ids|]; [|now rewrite with_selection_id].
  rewrite commit_selection_run.
  destruct (commit_outcome s l ids total (selectedFeatureIds (host s))) as [[? ?] ?].
  reflexivity.
Qed.

Lemma layers_loop_run c p layers : forall total sel s,
  for_fold (select_in_layer c p) total layers (with_selection sel s)
  = (let '(total', sel', t) := layers_outcome s c p layers total sel in
     (Ok total', with_selection sel' s, t)).
Proof.
  induction layers as [|l layers IH]; intros total sel s; [reflexivity|].
  simpl. unfold bind. rewrite select_in_layer_run.
  change (layer_outcome (with_selection sel s) c p l total
            (selectedFeatureIds (host (with_selection sel s))))
    with (layer_outcome s c p l total sel).
  destruct (layer_outcome s c p l total sel) as [[total1 sel1] t1].
  change (with_selection sel1 (with_selection sel s)) with (with_selection sel1 s).
  rewrite IH.
  destruct (layers_outcome s c p layers total1 sel1) as [[total2 sel2] t2].
  reflexivity.
Qed.

Lemma layers_loop_from c p layers total s :
  for_fold (select_in_layer c p) total layers s
  = (let '(total', sel', t) :=
       layers_outcome s c p layers total (selectedFeatureIds (host s)) in
     (Ok total', with_selection sel' s, t)).
Proof.
  pose proof (layers_loop_run c p layers total (selectedFeatureIds (host s)) s) as H.
  now rewrite with_selection_id in H.
Qed.

Lemma circle_for_run pos s : circle_for pos s = (Ok (circle_of s pos), s, []).
Proof.
  unfold circle_for, circle_of, bind, gets, ret. simpl.
  destruct (decide (unit_mode (tool s) = "pixels")); reflexivity.
Qed.

Lemma layer_outcome_overlay pos s c p l total sel :
  layer_outcome (overlay_updated pos s) c p l total sel
  = layer_outcome s c p l total sel.
Proof. unfold overlay_updated. destruct (show_rubber_band (tool s)); reflexivity. Qed.

Lemma layers_outcome_overlay pos s c p layers : forall total sel,
  layers_outcome (overlay_updated pos s) c p layers total sel
  = layers_outcome s c p layers total sel.
Proof.
  induction layers as [|l layers IH]; intros total sel; [reflexivity|].
  simpl. rewrite layer_outcome_overlay.
  destruct (layer_outcome s c p l total sel) as [[total1 sel1] t1].
  now rewrite IH.
Qed.

Lemma run_report_run total (s : Sys) :
  ((if decide (0 < total) then
      try_except
        (emit (StatusBarMessage ("Selected " +:+ pretty total +:+ " feature(s)") 2000))
        (fun _ => ret tt)
    else ret tt) ;;;
   try_except (emit (SelectionComplete total)) (fun _ => ret tt)) s
  = (Ok tt, s, run_report total).
Proof. unfold run_report, bind. destruct (decide (0 < total)); reflexivity. Qed.

(** A run with a pending point: the overlay is updated, the layer loop
    runs from the current selections, the totals are reported. *)
Lemma _do_selection_run pos s :
  _pending_pos (tool s) = Some pos ->
  _do_selection s
  = (let '(total, sel, t) :=
       layers_outcome s (circle_of s pos) (project_crs (host s))
         (mapLayers (host s)) 0 (selectedFeatureIds (host s)) in
     (Ok tt, with_selection sel (overlay_updated pos s), t ++ run_report total)).
Proof.
  intros Hpos. unfold _do_selection, bind at 1, gets at 1. rewrite Hpos.
  rewrite (bind_ok_nil _ _ _ _ _ (circle_for_run _ _)).
  unfold bind at 1, gets at 1. unfold bind at 1.
  assert ((if show_rubber_band (tool s)
           then on_rubber_band (rubber_band_setToGeometry (circle_of s pos))
           else ret tt) s = (Ok tt, overlay_updated pos s, [])) as ->.
  { unfold overlay_updated. destruct (show_rubber_band (tool s)); reflexivity. }
  unfold bind at 1, gets at 1. unfold bind at 1, gets at 1. unfold bind at 1.
  rewrite layers_loop_from, layers_outcome_overlay.
  replace (project_crs (host (overlay_updated pos s))) with (project_crs (host s))
    by (unfold overlay_updated; destruct (show_rubber_band (tool s)); reflexivity).
  replace (mapLayers (host (overlay_updated pos s))) with (mapLayers (host s))
    by (unfold overlay_updated; destruct (show_rubber_band (tool s)); reflexivity).
  replace (selectedFeatureIds (host (overlay_updated pos s)))
    with (selectedFeatureIds (host s))
    by (unfold overlay_updated; destruct (show_rubber_band (tool s)); reflexivity).
  destruct (layers_outcome s (circle_of s pos) (project_crs (host s))
              (mapLayers (host s)) 0 (selectedFeatureIds (host s))) as [[total sel] t].
  rewrite run_report_run. reflexivity.
Qed.

Lemma _do_selection_idle s :
  _pending_pos (tool s) = None -> _do_selection s = (Ok tt, s, []).
Proof. intros Hpos. unfold _do_selection, bind, gets. now rewrite Hpos. Qed.

End Pipeline.

(** The example of the specification, end to end: features 1, 2 and 3 of
    the layer are selected, the mode is "toggle" and the circle matches
    2, 3 and 4; the run leaves 1 and 4 selected.  The layer in the other
    CRS is searched with the transformed circle. *)
Example hover_toggle_example :
  let s := Lattice.hovering [Lattice.roads; Lattice.parcels] in
  selectedFeatureIds (host (Lattice.after _do_selection s))
  = {["roads" := {[1; 4]}; "parcels" := {[10]}]}
  /\ snd (_do_selection s)
     = [StatusBarMessage "Selected 4 feature(s)" 2000; SelectionComplete 4].
Proof. intros s. split; vm_compute; reflexivity. Qed.

(** ** The selection-mode algebra and the commit *)

Section Algebra.
Context {T : GeoTypes} {G : Geo T}.

Lemma new_sel_add (C F : gset Z) : new_sel "add" C F = C ∪ F.
Proof. reflexivity. Qed.

Lemma new_sel_replace (C F : gset Z) : new_sel "replace" C F = F.
Proof. reflexivity. Qed.

Lemma new_sel_toggle (C F : gset Z) :
  new_sel "toggle" C F = symmetric_difference C F.
Proof. reflexivity. Qed.

Lemma new_sel_other m (C F : gset Z) :
  m <> "add" -> m <> "replace" -> m <> "toggle" -> new_sel m C F = C ∪ F.
Proof.
  intros Ha Hr Ht. unfold new_sel.
  destruct (decide (m = "add")); [done|].
  destruct (decide (m = "replace")); [done|].
  destruct (decide (m = "toggle")); done.
Qed.

Lemma elem_of_symmetric_difference (C F : gset Z) x :
  x ∈ symmetric_difference C F <-> (x ∈ C /\ x ∉ F) \/ (x ∈ F /\ x ∉ C).
Proof.
  unfold symmetric_difference.
  rewrite elem_of_union, !elem_of_difference. reflexivity.
Qed.

Lemma symmetric_difference_comm (C F : gset Z) :
  symmetric_difference C F = symmetric_difference F C.
Proof. unfold symmetric_difference. apply (comm_L (∪)). Qed.

Lemma symmetric_difference_empty (C : gset Z) : symmetric_difference C ∅ = C.
Proof.
  apply set_eq. intros x. rewrite elem_of_symmetric_difference.
  split; [intros [[H _]|[H _]]; [done|now apply not_elem_of_empty in H]|].
  intros H. left. split; [done|apply not_elem_of_empty].
Qed.

Lemma symmetric_difference_diag (C : gset Z) : symmetric_difference C C = ∅.
Proof.
  apply set_eq. intros x. rewrite elem_of_symmetric_difference.
  split; [intros [[H1 H2]|[H1 H2]]; done|].
  intros H. now apply not_elem_of_empty in H.
Qed.

(** The commit block when nothing raises: the layer's selection becomes
    [new_sel] of its old value and the found ids, no other layer's
    selection changes, the total grows by the number of found ids. *)
Lemma commit_selection_ok l (F : gset Z) total s :
  F <> ∅ -> commit_error l = None ->
  commit_selection l F total s
  = (Ok (total + Z.of_nat (size F)),
     with_selection
       (<[l_id l := new_sel (selection_mode (tool s))
                      (selectedFeatureIds (host s) !!! l_id l) F]>
          (selectedFeatureIds (host s))) s,
     []).
Proof.
  intros HF Herr. rewrite commit_selection_run. unfold commit_outcome.
  destruct (decide (F <> ∅)); [|done]. now rewrite Herr.
Qed.

(** C1.  When the found set [F] is not empty and the commit does not
    raise, the layer's selection [C] is replaced by [new_sel mode C F] and
    no other layer's selection changes; [new_sel] is the union for "add",
    [F] for "replace" and the symmetric difference (the ids in exactly one
    of the sets) for "toggle"; so "add" contains both sets, "toggle" is
    symmetric, toggling with the empty set changes nothing and toggling a
    set with itself empties it. *)
Theorem selection_mode_algebra (s : Sys) (l : Layer) (F : gset Z) (total : Z) :
  F <> ∅ -> commit_error l = None ->
  exists s',
    commit_selection l F total s = (Ok (total + Z.of_nat (size F)), s', [])
    /\ selectedFeatureIds (host s') !! l_id l
       = Some (new_sel (selection_mode (tool s))
                 (selectedFeatureIds (host s) !!! l_id l) F)
    /\ (forall id, id <> l_id l ->
          selectedFeatureIds (host s') !! id = selectedFeatureIds (host s) !! id)
    /\ (forall C F' : gset Z,
          new_sel "add" C F' = C ∪ F'
          /\ new_sel "replace" C F' = F'
          /\ new_sel "toggle" C F' = symmetric_difference C F'
          /\ (forall x, x ∈ new_sel "toggle" C F'
                        <-> (x ∈ C /\ x ∉ F') \/ (x ∈ F' /\ x ∉ C))
          /\ C ⊆ new_sel "add" C F'
          /\ F' ⊆ new_sel "add" C F'
          /\ new_sel "toggle" C F' = new_sel "toggle" F' C
          /\ new_sel "toggle" C ∅ = C
          /\ new_sel "toggle" C C = ∅).
Proof.
  intros HF Herr. eexists. split; [now apply commit_selection_ok|]. simpl.
  split; [apply lookup_insert_eq|].
  split; [intros id Hid; now apply lookup_insert_ne|].
  intros C F'. rewrite new_sel_add, new_sel_replace, !new_sel_toggle.
  repeat split; try reflexivity.
  - now apply elem_of_symmetric_difference.
  - now apply elem_of_symmetric_difference.
  - apply union_subseteq_l.
  - apply union_subseteq_r.
  - apply symmetric_difference_comm.
  - apply symmetric_difference_empty.
  - apply symmetric_difference_diag.
Qed.

(** C10.  With a selection mode outside "add", "replace" and "toggle" the
    commit is not skipped and does not raise: the layer's selection becomes
    the union of its old value and the found ids. *)
Theorem unknown_selection_mode_is_union (s : Sys) (l : Layer) (F : gset Z)
    (total : Z) :
  selection_mode (tool s) <> "add" ->
  selection_mode (tool s) <> "replace" ->
  selection_mode (tool s) <> "toggle" ->
  F <> ∅ -> commit_error l = None ->
  exists s',
    commit_selection l F total s = (Ok (total + Z.of_nat (size F)), s', [])
    /\ selectedFeatureIds (host s') !! l_id l
       = Some ((selectedFeatureIds (host s) !!! l_id l) ∪ F).
Proof.
  intros Ha Hr Ht HF Herr. eexists. split; [now apply commit_selection_ok|].
  simpl. rewrite lookup_insert_eq. now rewrite new_sel_other.
Qed.

End Algebra.

(** The example of the specification: {1,2,3} selected, mode "toggle",
    the circle matches {2,3,4}; the selection becomes {1,4}. *)
Lemma selection_mode_algebra_witness :
  let s := Lattice.demo [Lattice.roads] in
  exists s',
    commit_selection Lattice.roads {[2; 3; 4]} 0 s = (Ok 3, s', [])
    /\ selectedFeatureIds (host s') !! "roads" = Some {[1; 4]}.
Proof.
  intros s.
  destruct (selection_mode_algebra s Lattice.roads {[2; 3; 4]} 0)
    as (s' & Hrun & Hsel & _).
  - apply (bool_decide_unpack _). vm_compute. exact I.
  - reflexivity.
  - exists s'. split; [exact Hrun|]. refine (eq_trans Hsel _). vm_compute. reflexivity.
Defined.

Lemma unknown_selection_mode_is_union_witness :
  let s := on_tool (set_selection_mode "xor") (Lattice.demo [Lattice.roads]) in
  exists s',
    commit_selection Lattice.roads {[2; 3; 4]} 0 s = (Ok 3, s', [])
    /\ selectedFeatureIds (host s') !! "roads" = Some {[1; 2; 3; 4]}.
Proof.
  intros s.
  destruct (unknown_selection_mode_is_union s Lattice.roads {[2; 3; 4]} 0)
    as (s' & Hrun & Hsel); [discriminate|discriminate|discriminate|..].
  - apply (bool_decide_unpack _). vm_compute. exact I.
  - reflexivity.
  - exists s'. split; [exact Hrun|]. refine (eq_trans Hsel _). vm_compute. reflexivity.
Defined.

(** ** A run with no eligible layer *)

Section NoEligibleLayer.
Context {T : GeoTypes} {G : Geo T}.

Lemma eligible_active_none s l :
  restrict_mode (tool s) = "active" -> currentLayer (host s) = None ->
  eligible s l = false.
Proof.
  intros Hrm Hcur. unfold eligible. rewrite Hrm, Hcur.
  destruct (decide ("active" = "visible")); [discriminate|].
  destruct (decide ("active" = "active")); [|done].
  apply andb_false_r.
Qed.

Lemma built_indexes_none s layers m :
  (forall l, eligible s l = false) -> built_indexes s layers m = m.
Proof.
  intros Hno. induction layers as [|l layers IH]; [reflexivity|].
  rewrite built_indexes_cons. unfold indexable. now rewrite Hno.
Qed.

Lemma built_ids_none s layers ids :
  (forall l, eligible s l = false) -> built_ids s layers ids = ids.
Proof.
  intros Hno. induction layers as [|l layers IH]; [reflexivity|].
  unfold built_ids in *. simpl. unfold indexable at 2. now rewrite Hno.
Qed.

Lemma rebuild_log_none s layers :
  (forall l, eligible s l = false) -> mjoin (rebuild_log_entry s <$> layers) = [].
Proof.
  intros Hno. induction layers as [|l layers IH]; [reflexivity|].
  rewrite fmap_cons. simpl. unfold rebuild_log_entry at 1. now rewrite Hno.
Qed.

Lemma layers_outcome_none s c p layers total sel :
  (forall l, eligible s l = false) ->
  layers_outcome s c p layers total sel = (total, sel, []).
Proof.
  intros Hno. induction layers as [|l layers IH]; [reflexivity|].
  simpl. unfold layer_outcome. now rewrite Hno, IH.
Qed.

(** C7.  With restrict mode "active" and no current layer, whatever the
    layers of the project: [rebuildIndexes] does not raise and leaves an
    empty cache, no layer is eligible, and the next run (at any pending
    point) does not raise, logs nothing, reports a total of 0 and leaves
    the host, the selections included, as it was. *)
Theorem active_without_current_layer_is_a_noop (s : Sys) (pos : QPoint) :
  restrict_mode (tool s) = "active" -> currentLayer (host s) = None ->
  exists s1 s2,
    rebuildIndexes s = (Ok tt, s1, [IndexesRebuilt])
    /\ layer_indexes (tool s1) = ∅
    /\ indexed_layer_ids (tool s1) = ∅
    /\ (forall l, eligible s1 l = false)
    /\ _do_selection (on_tool (set_pending_pos (Some pos)) s1)
       = (Ok tt, s2, [SelectionComplete 0])
    /\ host s2 = host s.
Proof.
  intros Hrm Hcur.
  pose proof (eligible_active_none s) as Hno. specialize (fun l => Hno l Hrm Hcur).
  pose proof (built_indexes_none s (mapLayers (host s)) ∅ Hno) as Hbi.
  pose proof (built_ids_none s (mapLayers (host s)) ∅ Hno) as Hbids.
  pose proof (rebuild_log_none s (mapLayers (host s)) Hno) as Hlog.
  eexists. eexists.
  split.
  { rewrite rebuildIndexes_run, Hlog, Hbi, Hbids. reflexivity. }
  split; [reflexivity|]. split; [reflexivity|].
  split; [exact Hno|].
  set (s1 := on_tool (set_pending_pos (Some pos)) (on_tool (with_indexes ∅ ∅) s)).
  assert (forall l, eligible s1 l = false) as Hno1 by exact Hno.
  rewrite (_do_selection_run pos s1) by reflexivity.
  rewrite (layers_outcome_none s1) by exact Hno1.
  split; [reflexivity|].
  subst s1. clear. destruct s as [t [] sh]. unfold overlay_updated. simpl.
  destruct (show_rubber_band t); reflexivity.
Qed.

End NoEligibleLayer.

Lemma active_without_current_layer_is_a_noop_witness :
  let s := on_host (set_currentLayer None)
             (on_tool (set_restrict_mode "active")
                (Lattice.demo [Lattice.roads; Lattice.parcels])) in
  exists s1 s2,
    rebuildIndexes s = (Ok tt, s1, [IndexesRebuilt])
    /\ layer_indexes (tool s1) = ∅
    /\ _do_selection (on_tool (set_pending_pos (Some (0, 0))) s1)
       = (Ok tt, s2, [SelectionComplete 0])
    /\ selectedFeatureIds (host s2) = {["roads" := {[1; 2; 3]}]}.
Proof.
  intros s.
  destruct (active_without_current_layer_is_a_noop s (0, 0))
    as (s1 & s2 & Hre & Hix & _ & _ & Hrun & Hhost); [reflexivity|reflexivity|].
  exists s1, s2. repeat split; try assumption. now rewrite Hhost.
Defined.

(** ** Failures are confined to their layer or candidate *)

Section Isolation.
Context {T : GeoTypes} {G : Geo T}.

Lemma layer_fails_outcome s c p l f total sel :
  layer_fails s c p l f ->
  layer_outcome s c p l total sel = (total, sel, failure_log l f).
Proof.
  intros Hf. unfold layer_outcome.
  destruct Hf as [e Hel Htr|g e Hel Htr Hix Herr|g ids e Hel Htr Hids Hne Herr];
    rewrite Hel, Htr; [reflexivity| |].
  - rewrite Hix. simpl. unfold verified_fallback. now rewrite Herr.
  - rewrite Hids. unfold commit_outcome.
    destruct (decide (ids <> ∅)); [|done]. now rewrite Herr.
Qed.

Lemma layers_outcome_app s c p xs ys : forall total sel,
  layers_outcome s c p (xs ++ ys) total sel
  = (let '(total1, sel1, t1) := layers_outcome s c p xs total sel in
     let '(total2, sel2, t2) := layers_outcome s c p ys total1 sel1 in
     (total2, sel2, t1 ++ t2)).
Proof.
  induction xs as [|x xs IH]; intros total sel; simpl.
  - now destruct (layers_outcome s c p ys total sel) as [[? ?] ?].
  - destruct (layer_outcome s c p x total sel) as [[total0 sel0] t0].
    rewrite IH.
    destruct (layers_outcome s c p xs total0 sel0) as [[total1 sel1] t1].
    destruct (layers_outcome s c p ys total1 sel1) as [[total2 sel2] t2].
    now rewrite app_assoc.
Qed.

(** The loop over a list that contains a failing layer ends with the
    total and the selections of the loop over the list without it. *)
Lemma layers_outcome_failing s c p before l after f total sel :
  layer_fails s c p l f ->
  exists total' sel' t1 t2,
    layers_outcome s c p (before ++ l :: after) total sel
    = (total', sel', t1 ++ failure_log l f ++ t2)
    /\ layers_outcome s c p (before ++ after) total sel = (total', sel', t1 ++ t2).
Proof.
  intros Hf. rewrite !layers_outcome_app.
  destruct (layers_outcome s c p before total sel) as [[total1 sel1] t1].
  simpl. rewrite (layer_fails_outcome _ _ _ _ _ _ _ Hf).
  destruct (layers_outcome s c p after total1 sel1) as [[total2 sel2] t2].
  now exists total2, sel2, t1, t2.
Qed.

Lemma _do_selection_total s : exists s' t, _do_selection s = (Ok tt, s', t).
Proof.
  destruct (_pending_pos (tool s)) as [pos|] eqn:Hpos.
  - rewrite (_do_selection_run pos) by done.
    destruct (layers_outcome _ _ _ _ _ _) as [[total sel] t]. eauto.
  - rewrite _do_selection_idle by done. eauto.
Qed.

Lemma verified_indexed_fetchable l g index :
  verified_indexed l g index
  = foldl (verify g) ∅
      (lookup_feature l <$> fetchable l (candidates index (boundingBox g))).
Proof.
  unfold verified_indexed, fetchable.
  generalize (∅ : gset Z). induction (candidates index (boundingBox g)) as [|fid fids IH];
    intros acc; [reflexivity|].
  simpl. destruct (l_fetch l fid) as [e|] eqn:Hf.
  - rewrite bool_decide_eq_false_2 by done. apply IH.
  - rewrite bool_decide_eq_true_2 by done. rewrite fmap_cons. simpl. apply IH.
Qed.

(** C5, as the code has it.  A layer that fails (its transform raises, a
    fetch of its fallback scan raises, or its commit raises) leaves the
    state, so its own selection, as it was and does not change the total;
    the transform and the commit failure log one warning, the fetch
    failure logs nothing.  The layers after it are processed: the loop
    over a list that contains the failing layer ends with the same total
    and the same selections as the loop over the list without it.  In the
    indexed path a candidate whose fetch raises is passed over and the
    other candidates are still verified, without any log.  No run of
    [_do_selection] raises. *)
Theorem layer_failures_are_isolated (s : Sys) (c : geometry) (p : crs)
    (before after : list Layer) (l : Layer) (f : Failure) (total : Z) :
  layer_fails s c p l f ->
  select_in_layer c p total l s = (Ok total, s, failure_log l f)
  /\ Forall is_warning (failure_log l f)
  /\ ((forall e, f <> FetchFailure e) -> exists w, failure_log l f = [w])
  /\ (exists total' s' t1 t2,
        for_fold (select_in_layer c p) total (before ++ l :: after) s
        = (Ok total', s', t1 ++ failure_log l f ++ t2)
        /\ for_fold (select_in_layer c p) total (before ++ after) s
           = (Ok total', s', t1 ++ t2))
  /\ (forall l' g index,
        layer_indexes (tool s) !! l_id l' = Some index ->
        collect_ids l' g s
        = (Ok (Some (foldl (verify g) ∅
                       (lookup_feature l' <$>
                          fetchable l' (candidates index (boundingBox g))))),
           s, []))
  /\ (forall s0, exists s0' t, _do_selection s0 = (Ok tt, s0', t)).
Proof.
  intros Hf. split; [|split; [|split; [|split; [|split]]]].
  - rewrite select_in_layer_run, (layer_fails_outcome _ _ _ _ _ _ _ Hf).
    now rewrite with_selection_id.
  - destruct f; repeat constructor.
  - intros Hne. destruct f as [e|e|e]; simpl; eauto. now destruct (Hne e).
  - destruct (layers_outcome_failing s c p before l after f total
                (selectedFeatureIds (host s)) Hf) as (total' & sel' & t1 & t2 & H1 & H2).
    exists total', (with_selection sel' s), t1, t2.
    rewrite !layers_loop_from, H1, H2. done.
  - intros l' g index Hix. rewrite collect_ids_run, Hix. simpl.
    now rewrite verified_indexed_fetchable.
  - apply _do_selection_total.
Qed.

End Isolation.

(** The example of the specification: of three eligible layers the
    second has no transform path; the other two are selected in as if it
    were not there, and one warning is logged. *)
Lemma layer_failures_are_isolated_witness :
  let s := Lattice.hovering [Lattice.roads; Lattice.wells; Lattice.parcels] in
  let c := circle_of s (0, 0) in
  exists s' t1 t2,
    for_fold (select_in_layer c 0) 0
      [Lattice.roads; Lattice.wells; Lattice.parcels] s
    = (Ok 4, s', t1 ++ [transform_warning Lattice.wells "no transform path"] ++ t2)
    /\ for_fold (select_in_layer c 0) 0 [Lattice.roads; Lattice.parcels] s
       = (Ok 4, s', t1 ++ t2).
Proof.
  intros s c.
  destruct (layer_failures_are_isolated s c 0
              [Lattice.roads] [Lattice.parcels] Lattice.wells
              (TransformFailure "no transform path") 0)
    as (_ & _ & _ & (total' & s' & t1 & t2 & H1 & H2) & _).
  { apply transform_fails; reflexivity. }
  change ([Lattice.roads] ++ Lattice.wells :: [Lattice.parcels])
    with [Lattice.roads; Lattice.wells; Lattice.parcels] in H1.
  change ([Lattice.roads] ++ [Lattice.parcels])
    with [Lattice.roads; Lattice.parcels] in H2.
  exists s', t1, t2.
  assert (total' = 4) as ->.
  { assert (fst (fst (for_fold (select_in_layer c 0) 0
                        [Lattice.roads; Lattice.parcels] s)) = Ok 4) as H4
      by (vm_compute; reflexivity).
    rewrite H2 in H4. simpl in H4. now injection H4. }
  split; assumption.
Defined.

(** C5 as stated fails on the logging of fetch failures: the layer is
    indexed, feature 3 is a candidate and fetching it raises; the run
    selects the other two features and logs nothing. *)
Lemma fetch_failure_is_not_logged :
  let l := Lattice.flaky Lattice.roads 3 in
  let s := Lattice.hovering [l] in
  3 ∈ candidates (index_of l) (boundingBox (circle_of s (0, 0)))
  /\ l_fetch l 3 = Some "provider error"
  /\ _do_selection s
     = (Ok tt, Lattice.after _do_selection s,
        [StatusBarMessage "Selected 2 feature(s)" 2000; SelectionComplete 2])
  /\ ~ Exists is_log (snd (_do_selection s)).
Proof.
  intros l s.
  assert (snd (_do_selection s)
          = [StatusBarMessage "Selected 2 feature(s)" 2000; SelectionComplete 2]) as Ht
    by (vm_compute; reflexivity).
  split; [|split; [|split]].
  - apply (bool_decide_unpack _). vm_compute. exact I.
  - reflexivity.
  - unfold Lattice.after, state_after.
    assert (fst (fst (_do_selection s)) = Ok tt) as Hr by (vm_compute; reflexivity).
    destruct (_do_selection s) as [[r s'] t]. cbn [fst snd] in *. now subst.
  - rewrite Ht, !Exists_cons, Exists_nil. simpl. tauto.
Qed.

(** ** The indexed path and the fallback path *)

Section IndexedVsFallback.
Context {T : GeoTypes} {G : Geo T}.

Lemma first_error_none {X} (err : X -> option string) xs :
  Forall (fun x => err x = None) xs -> first_error err xs = None.
Proof.
  unfold first_error. induction 1 as [|x xs Hx _ IH]; [reflexivity|].
  simpl. now rewrite Hx.
Qed.

Lemma candidates_index_of l bbox :
  l_index_query l = None ->
  candidates (index_of l) bbox = f_id <$> layer_getFeatures l bbox.
Proof.
  intros Hq. unfold candidates, layer_getFeatures. simpl. rewrite Hq.
  induction (l_features l) as [|f fs IH]; [reflexivity|].
  simpl. unfold index_entry at 1, filter_rect at 1.
  destruct (f_geometry f) as [fg|]; [|exact IH].
  simpl. destruct (rect_intersects (boundingBox fg) bbox); [|exact IH].
  rewrite !fmap_cons. simpl. f_equal. exact IH.
Qed.

Lemma lookup_feature_own l f :
  NoDup (f_id <$> l_features l) -> f ∈ l_features l ->
  lookup_feature l (f_id f) = f.
Proof.
  unfold lookup_feature. induction (l_features l) as [|f' fs IH]; intros Hnd Hin.
  - now apply elem_of_nil in Hin.
  - rewrite fmap_cons in Hnd. apply NoDup_cons in Hnd as [Hfresh Hnd].
    simpl. apply elem_of_cons in Hin as [->|Hin].
    + now rewrite bool_decide_eq_true_2.
    + rewrite bool_decide_eq_false_2; [now apply IH|].
      intros Heq. apply Hfresh. rewrite Heq. now apply list_elem_of_fmap_2.
Qed.

Lemma layer_getFeatures_elem l bbox f :
  f ∈ layer_getFeatures l bbox <-> f ∈ l_features l /\ filter_rect bbox f = true.
Proof. unfold layer_getFeatures. rewrite !list_elem_of_In. apply filter_In. Qed.

Lemma verified_indexed_own l g fs : forall acc,
  NoDup (f_id <$> l_features l) ->
  (forall f, f ∈ fs -> f ∈ l_features l /\ l_fetch l (f_id f) = None) ->
  foldl (fun ids fid =>
           match l_fetch l fid with
           | Some _ => ids
           | None => verify g ids (lookup_feature l fid)
           end) acc (f_id <$> fs)
  = foldl (verify g) acc fs.
Proof.
  induction fs as [|f fs IH]; intros acc Hnd Hfs; [reflexivity|].
  destruct (Hfs f ltac:(left)) as [Hin Hfetch].
  rewrite fmap_cons. simpl. rewrite Hfetch, lookup_feature_own by done.
  apply IH; [done|]. intros f' Hf'. apply Hfs. now right.
Qed.

Lemma elem_of_verified g fs fid : forall acc,
  fid ∈ foldl (verify g) acc fs
  <-> fid ∈ acc \/ exists f, f ∈ fs /\ f_id f = fid /\ intersects_exactly g f = true.
Proof.
  induction fs as [|f fs IH]; intros acc; simpl.
  - split; [now left|]. intros [H|(f & Hf & _)]; [done|]. now apply elem_of_nil in Hf.
  - rewrite IH. unfold verify at 1, intersects_exactly.
    split.
    + intros [Hacc|(f' & Hin & Hid & Hex)].
      * destruct (f_geometry f) as [fg|] eqn:Hg; [|now left].
        destruct (geom_intersects fg g) eqn:Hi; [|now left].
        apply elem_of_union in Hacc as [Hacc|Hacc]; [|now left].
        apply elem_of_singleton in Hacc. right. exists f.
        split; [left|]. split; [done|]. now rewrite Hg.
      * right. exists f'. split; [now right|done].
    + intros [Hacc|(f' & Hin & Hid & Hex)].
      * left. destruct (f_geometry f) as [fg|]; [|done].
        destruct (geom_intersects fg g); [|done]. apply elem_of_union. now right.
      * apply elem_of_cons in Hin as [->|Hin].
        -- left. destruct (f_geometry f) as [fg|]; [|done]. rewrite Hex.
           apply elem_of_union. left. now apply elem_of_singleton.
        -- right. exists f'. done.
Qed.

(** The two paths verify the same features, in the same order, when no
    fetch raises, the index answers and was built from the layer's
    features, and feature ids are unique. *)
Lemma collected_paths_agree l g :
  Forall (fun f => l_fetch l (f_id f) = None) (l_features l) ->
  l_index_query l = None ->
  NoDup (f_id <$> l_features l) ->
  collected (Some (index_of l)) l g
  = Some (foldl (verify g) ∅ (layer_getFeatures l (boundingBox g)))
  /\ collected None l g
     = Some (foldl (verify g) ∅ (layer_getFeatures l (boundingBox g))).
Proof.
  intros Hfetch Hq Hnd. rewrite Forall_forall in Hfetch. split; simpl.
  - unfold verified_indexed. rewrite candidates_index_of by done.
    rewrite verified_indexed_own; [reflexivity|done|].
    intros f Hf. apply layer_getFeatures_elem in Hf as [Hf _]. split; [done|].
    now apply Hfetch.
  - unfold verified_fallback. rewrite first_error_none; [reflexivity|].
    apply Forall_forall. intros f Hf. apply layer_getFeatures_elem in Hf as [Hf _].
    now apply Hfetch.
Qed.

(** C8.  For the same layer and the same circle [g] in the layer's CRS,
    the run with the index built from the layer's features and the run
    without an index for the layer verify the same set of ids; as every
    feature whose geometry meets the circle has a bounding box that meets
    the circle's, this set is exactly the ids of the features whose
    geometry meets the circle.  (No fetch raises, the index answers,
    feature ids are unique.) *)
Theorem indexed_path_matches_fallback (s : Sys) (l : Layer) (g : geometry) :
  Forall (fun f => l_fetch l (f_id f) = None) (l_features l) ->
  l_index_query l = None ->
  NoDup (f_id <$> l_features l) ->
  Forall (fun f => bbox_covers g f = true) (l_features l) ->
  layer_indexes (tool s) !! l_id l = Some (index_of l) ->
  let s_no :=
    on_tool (fun t => set_layer_indexes (delete (l_id l) (layer_indexes t)) t) s in
  exists ids,
    collect_ids l g s = (Ok (Some ids), s, [])
    /\ collect_ids l g s_no = (Ok (Some ids), s_no, [])
    /\ (forall fid,
          fid ∈ ids
          <-> exists f, f ∈ l_features l /\ f_id f = fid /\ intersects_exactly g f = true).
Proof.
  intros Hfetch Hq Hnd Hcov Hix s_no.
  destruct (collected_paths_agree l g Hfetch Hq Hnd) as [Hi Hf].
  exists (foldl (verify g) ∅ (layer_getFeatures l (boundingBox g))).
  split; [now rewrite collect_ids_run, Hix, Hi|].
  split.
  { rewrite collect_ids_run. subst s_no. cbn [tool on_tool layer_indexes set_layer_indexes].
    now rewrite lookup_delete_eq, Hf. }
  intros fid. rewrite elem_of_verified. rewrite Forall_forall in Hcov.
  split.
  - intros [H|(f & Hin & Hid & Hex)]; [now apply not_elem_of_empty in H|].
    apply layer_getFeatures_elem in Hin as [Hin _]. now exists f.
  - intros (f & Hin & Hid & Hex). right. exists f. split; [|done].
    apply layer_getFeatures_elem. split; [done|].
    specialize (Hcov f Hin). unfold bbox_covers in Hcov.
    unfold intersects_exactly in Hex. unfold filter_rect.
    destruct (f_geometry f) as [fg|]; [|done]. now rewrite Hex in Hcov.
Qed.

End IndexedVsFallback.

(** On the lattice: feature 5 is a candidate of both paths (its bounding
    box meets the circle's) and is rejected by the exact test in both. *)
Lemma indexed_path_matches_fallback_witness :
  let s := Lattice.hovering [Lattice.roads] in
  let g := circle_of s (0, 0) in
  let s_no :=
    on_tool (fun t => set_layer_indexes (delete (l_id Lattice.roads) (layer_indexes t)) t) s in
  collect_ids Lattice.roads g s = (Ok (Some {[2; 3; 4]}), s, [])
  /\ collect_ids Lattice.roads g s_no = (Ok (Some {[2; 3; 4]}), s_no, []).
Proof.
  intros s g s_no.
  destruct (indexed_path_matches_fallback s Lattice.roads g)
    as (ids & H1 & H2 & _).
  - repeat (constructor; [vm_compute; reflexivity|]). constructor.
  - reflexivity.
  - apply (bool_decide_unpack _). vm_compute. exact I.
  - repeat (constructor; [vm_compute; reflexivity|]). constructor.
  - vm_compute. reflexivity.
  - assert (ids = {[2; 3; 4]}) as ->.
    { assert (fst (fst (collect_ids Lattice.roads g s)) = Ok (Some {[2; 3; 4]}))
        as H by (vm_compute; reflexivity).
      rewrite H1 in H. simpl in H. congruence. }
    split; [exact H1|exact H2].
Defined.

(** ** The debounced hover *)

Section Debounce.
Context {T : GeoTypes} {G : Geo T}.

Lemma canvasMoveEvent_run pos s : canvasMoveEvent pos s = (Ok tt, moved pos s, []).
Proof. reflexivity. Qed.

Lemma elapse_idle ms s :
  _hover_timer (tool s) = None -> elapse ms s = (Ok tt, s, []).
Proof. intros H. unfold elapse, bind, gets. now rewrite H. Qed.

Lemma elapse_short ms r s :
  _hover_timer (tool s) = Some r -> ms < r ->
  elapse ms s = (Ok tt, on_tool (set_hover_timer (Some (r - ms))) s, []).
Proof.
  intros H Hlt. unfold elapse, bind, gets. rewrite H.
  destruct (decide (r <= ms)); [lia|reflexivity].
Qed.

Lemma elapse_fires ms r s :
  _hover_timer (tool s) = Some r -> r <= ms ->
  elapse ms s = _do_selection (on_tool (set_hover_timer None) s).
Proof.
  intros H Hle. unfold elapse, bind at 1, gets. rewrite H.
  destruct (decide (r <= ms)); [|lia].
  unfold bind, modify.
  now destruct (_do_selection (on_tool (set_hover_timer None) s)) as [[[] ?] ?].
Qed.

Lemma last_cons_default {A} (x d : A) l : List.last (x :: l) d = List.last l x.
Proof.
  revert x d. induction l as [|y l IH]; intros x d; [reflexivity|].
  change (List.last (x :: y :: l) d) with (List.last (y :: l) d).
  rewrite (IH y d). symmetry. apply (IH y x).
Qed.

(** During a burst nothing runs: each move finds the timer still armed,
    replaces the pending point and arms the timer again. *)
Lemma burst_run moves : forall pos s,
  Forall (fun m => 0 <= fst m < _hover_delay_ms (tool s)) moves ->
  burst moves (moved pos s) = (Ok tt, moved (List.last (snd <$> moves) pos) s, []).
Proof.
  induction moves as [|[gap p] moves IH]; intros pos s Hgaps; [reflexivity|].
  apply Forall_cons in Hgaps as [Hgap Hgaps]. simpl in Hgap.
  unfold burst, for_each in *. simpl for_fold.
  unfold bind at 1. unfold bind at 1.
  rewrite (elapse_short gap (_hover_delay_ms (tool s))) by (done || lia).
  rewrite canvasMoveEvent_run.
  change (moved p (on_tool (set_hover_timer (Some (_hover_delay_ms (tool s) - gap)))
                     (moved pos s)))
    with (moved p s).
  rewrite IH by done. rewrite fmap_cons, last_cons_default. reflexivity.
Qed.

Lemma layer_outcome_logs s c p l total sel :
  Forall is_log (snd (layer_outcome s c p l total sel)).
Proof.
  unfold layer_outcome. destruct (eligible s l); [|constructor].
  destruct (transformed c p l); [|repeat constructor].
  destruct (collected _ l _); [|constructor].
  unfold commit_outcome. destruct (decide _); [|constructor].
  destruct (commit_error l); repeat constructor.
Qed.

Lemma layers_outcome_logs s c p layers : forall total sel,
  Forall is_log (snd (layers_outcome s c p layers total sel)).
Proof.
  induction layers as [|l layers IH]; intros total sel; [constructor|].
  simpl. pose proof (layer_outcome_logs s c p l total sel) as Hl.
  destruct (layer_outcome s c p l total sel) as [[total1 sel1] t1].
  specialize (IH total1 sel1).
  destruct (layers_outcome s c p layers total1 sel1) as [[total2 sel2] t2].
  simpl in *. now apply Forall_app.
Qed.

Lemma runs_logs t : Forall is_log t -> runs t = 0%nat.
Proof.
  unfold runs. induction 1 as [|e t He _ IH]; [reflexivity|].
  destruct e; simpl in *; done.
Qed.

Lemma runs_app t1 t2 : runs (t1 ++ t2) = (runs t1 + runs t2)%nat.
Proof. unfold runs. now rewrite List.filter_app, length_app. Qed.

Lemma runs_run_report total : runs (run_report total) = 1%nat.
Proof. unfold run_report. now destruct (decide (0 < total)). Qed.

(** A call of the slot with a pending point is one run. *)
Lemma _do_selection_runs_once pos s :
  _pending_pos (tool s) = Some pos -> runs (snd (_do_selection s)) = 1%nat.
Proof.
  intros Hpos. rewrite (_do_selection_run pos) by done.
  pose proof (layers_outcome_logs s (circle_of s pos) (project_crs (host s))
                (mapLayers (host s)) 0 (selectedFeatureIds (host s))) as Hlogs.
  destruct (layers_outcome _ _ _ _ _ _) as [[total sel] t]. simpl in *.
  now rewrite runs_app, runs_logs, runs_run_report.
Qed.

(** C2.  A burst of moves, each less than the hover delay after the one
    before, runs nothing while it lasts and leaves the last point pending;
    once the mouse has rested for the delay, the whole burst has had the
    effect of one call of [_do_selection] with the last point pending:
    exactly one run. *)
Theorem burst_runs_the_pipeline_once (s : Sys) (p0 : QPoint)
    (moves : list (Z * QPoint)) (quiet : Z) :
  0 <= _hover_delay_ms (tool s) ->
  Forall (fun m => 0 <= fst m < _hover_delay_ms (tool s)) moves ->
  _hover_delay_ms (tool s) <= quiet ->
  let final := List.last (snd <$> moves) p0 in
  (canvasMoveEvent p0 ;;; burst moves) s = (Ok tt, moved final s, [])
  /\ (canvasMoveEvent p0 ;;; burst moves ;;; elapse quiet) s
     = _do_selection (timed_out final s)
  /\ runs (snd ((canvasMoveEvent p0 ;;; burst moves ;;; elapse quiet) s)) = 1%nat.
Proof.
  intros Hdelay Hgaps Hquiet final.
  assert ((canvasMoveEvent p0 ;;; burst moves ;;; elapse quiet) s
          = _do_selection (timed_out final s)) as Hrun.
  { unfold bind at 1. rewrite canvasMoveEvent_run.
    unfold bind at 1. rewrite burst_run by done. fold final.
    rewrite (elapse_fires quiet (_hover_delay_ms (tool s))) by done.
    change (on_tool (set_hover_timer None) (moved final s)) with (timed_out final s).
    now destruct (_do_selection (timed_out final s)) as [[? ?] ?]. }
  split; [|split; [exact Hrun|]].
  - unfold bind. rewrite canvasMoveEvent_run, burst_run by done. reflexivity.
  - rewrite Hrun. now apply (_do_selection_runs_once final).
Qed.

Lemma deactivate_run s :
  deactivate s
  = (Ok tt,
     on_tool (fun t => set_hover_timer None
                         (set_rubber_band
                            (rubber_band_hide (rubber_band_reset (rubber_band t))) t)) s,
     []).
Proof. reflexivity. Qed.

Lemma _do_selection_keeps_pending s s' r t :
  _do_selection s = (r, s', t) -> _pending_pos (tool s') = _pending_pos (tool s).
Proof.
  destruct (_pending_pos (tool s)) as [pos|] eqn:Hpos.
  - rewrite (_do_selection_run pos) by done.
    destruct (layers_outcome _ _ _ _ _ _) as [[total sel] t0].
    intros [= _ <- _]. rewrite <- Hpos. unfold overlay_updated.
    now destruct (show_rubber_band (tool s)).
  - rewrite _do_selection_idle by done. now intros [= _ <- _].
Qed.

(** C4, as the code has it.  The pending point is one slot that a move
    overwrites, arming the timer again.  A run does not clear the slot,
    and neither does [deactivate], which stops the timer: afterwards no
    lapse of time runs the pipeline, until a move arms the timer again
    and overwrites the point. *)
Theorem pending_point_is_overwritten_not_cleared (s : Sys) (pos : QPoint) :
  (exists s1,
     canvasMoveEvent pos s = (Ok tt, s1, [])
     /\ _pending_pos (tool s1) = Some pos
     /\ _hover_timer (tool s1) = Some (_hover_delay_ms (tool s)))
  /\ (exists s2 t,
        _do_selection s = (Ok tt, s2, t)
        /\ _pending_pos (tool s2) = _pending_pos (tool s))
  /\ (exists s3,
        deactivate s = (Ok tt, s3, [])
        /\ _hover_timer (tool s3) = None
        /\ _pending_pos (tool s3) = _pending_pos (tool s)
        /\ forall ms, elapse ms s3 = (Ok tt, s3, [])).
Proof.
  split; [|split].
  - eexists. split; [apply canvasMoveEvent_run|]. split; reflexivity.
  - destruct (_do_selection_total s) as (s2 & t & Hrun).
    exists s2, t. split; [exact Hrun|]. now apply _do_selection_keeps_pending in Hrun.
  - eexists. split; [apply deactivate_run|].
    split; [reflexivity|]. split; [reflexivity|].
    intros ms. now apply elapse_idle.
Qed.

End Debounce.

(** Three moves 5 ms and 10 ms apart, then rest: with the delay of 15 ms
    the pipeline runs once, at the last point. *)
Lemma burst_runs_the_pipeline_once_witness :
  let s := Lattice.after rebuildIndexes (Lattice.demo [Lattice.roads]) in
  let all := canvasMoveEvent (50, 50) ;;;
             burst [(5, (20, 20)); (10, (0, 0))] ;;; elapse 15 in
  all s = _do_selection (timed_out (0, 0) s)
  /\ runs (snd (all s)) = 1%nat.
Proof.
  intros s all.
  destruct (burst_runs_the_pipeline_once s (50, 50) [(5, (20, 20)); (10, (0, 0))] 15)
    as (_ & Hrun & Hone).
  - vm_compute. discriminate.
  - repeat (constructor; [vm_compute; split; [discriminate|reflexivity]|]). constructor.
  - vm_compute. discriminate.
  - split; [exact Hrun|exact Hone].
Defined.

(** C4 as stated fails on the clearing: after the run that processes the
    point, and after a deactivation that cancels the timer, the point is
    still stored. *)
Lemma pending_point_survives_run_and_deactivation :
  let s := Lattice.after rebuildIndexes (Lattice.demo [Lattice.roads]) in
  let processed := canvasMoveEvent (3, 4) ;;; elapse 15 in
  let cancelled := canvasMoveEvent (3, 4) ;;; deactivate in
  runs (snd (processed s)) = 1%nat
  /\ _pending_pos (tool (Lattice.after processed s)) = Some (3, 4)
  /\ _hover_timer (tool (Lattice.after cancelled s)) = None
  /\ _pending_pos (tool (Lattice.after cancelled s)) = Some (3, 4)
  /\ _pending_pos (tool (Lattice.after cancelled s)) <> None.
Proof.
  intros s processed cancelled.
  repeat split; try (vm_compute; reflexivity). vm_compute. discriminate.
Qed.

(** ** The configuration and its setters *)

Section Configuration.
Context {T : GeoTypes} {G : Geo T}.

Lemma on_tool_id s : on_tool (fun t => t) s = s.
Proof. now destruct s. Qed.

Lemma _compute_pixel_radius_for_cursor_run s :
  _compute_pixel_radius_for_cursor s = (pixel_radius_of s, s, []).
Proof.
  unfold _compute_pixel_radius_for_cursor, pixel_radius_of, bind, gets.
  destruct (decide (unit_mode (tool s) = "pixels")); [reflexivity|].
  destruct (Qlt_le_dec 0 (mapUnitsPerPixel (host s))); [|reflexivity].
  now destruct (float_div _ _).
Qed.

Lemma setCursor_run c s : setCursor c s = (Ok tt, cursor_set c s, []).
Proof.
  unfold setCursor, cursor_set, bind, modify, gets.
  change (mapTool (host (on_tool (set_cursor c) s))) with (mapTool (host s)).
  now destruct (decide (mapTool (host s) = ThisTool)).
Qed.

(** The last statements of [setRadius] and the body of
    [_on_canvas_extents_changed]: the cursor is built for the current
    radius and set, or the exception leaves the state as it is. *)
Lemma refresh_cursor_run s :
  (pix_radius <- _compute_pixel_radius_for_cursor ;;
   c <- call (_cursor_for_radius pix_radius) ;;
   setCursor c) s
  = match cursor_of s with
    | Ok c => (Ok tt, cursor_set c s, [])
    | Raise e => (Raise e, s, [])
    end.
Proof.
  unfold bind at 1. rewrite _compute_pixel_radius_for_cursor_run. unfold cursor_of.
  destruct (pixel_radius_of s) as [radius|e]; [|reflexivity].
  unfold bind, call. destruct (_cursor_for_radius radius) as [c|e]; [|reflexivity].
  now rewrite setCursor_run.
Qed.

Lemma setRadius_run pr mr um s :
  setRadius pr mr um s
  = match cursor_of (on_tool (radius_set pr mr um) s) with
    | Ok c => (Ok tt, cursor_set c (on_tool (radius_set pr mr um) s), [])
    | Raise e => (Raise e, on_tool (radius_set pr mr um) s, [])
    end.
Proof.
  unfold setRadius, radius_set. destruct s as [t h sh].
  destruct pr as [v|], mr as [r|], um as [m|];
    try destruct (decide (m = "pixels" \/ m = "map_units"));
    do 3 (erewrite bind_ok_nil; [|reflexivity]); apply refresh_cursor_run.
Qed.

Lemma setRestrictMode_run rm s :
  setRestrictMode rm s = (Ok tt, on_tool (restrict_mode_set rm) s, []).
Proof.
  unfold setRestrictMode, restrict_mode_set. destruct s as [t h sh].
  now destruct (decide _).
Qed.

Lemma setSelectionMode_run sm s :
  setSelectionMode sm s = (Ok tt, on_tool (selection_mode_set sm) s, []).
Proof.
  unfold setSelectionMode, selection_mode_set. destruct s as [t h sh].
  now destruct (decide _).
Qed.

Lemma setShowRubberBand_run show s :
  setShowRubberBand show s = (Ok tt, on_tool (rubber_band_shown show) s, []).
Proof. now destruct show. Qed.

(** The only exception of the cursor is [OverflowError]. *)
Lemma cursor_of_raises s e : cursor_of s = Raise e -> e = "OverflowError".
Proof.
  unfold cursor_of. destruct (pixel_radius_of s) as [radius|e0] eqn:Hradius.
  - unfold _cursor_for_radius. destruct (decide _); congruence.
  - unfold pixel_radius_of in Hradius.
    destruct (decide _); [discriminate|].
    destruct (Qlt_le_dec _ _); [|discriminate].
    destruct (float_div _ _); congruence.
Qed.

Lemma tool_cursor_set c s :
  tool (cursor_set c s) = set_cursor c (tool s).
Proof. unfold cursor_set. now destruct (decide _). Qed.

(** What a setter call keeps of the configuration invariant, whether it
    returns or raises: the pixel radius stays at least 1 and an
    enumerated mode stays enumerated, whatever the arguments; the
    map-unit radius stays positive when the call passes none or a
    positive one.  A call logs nothing, and raises nothing but the
    [OverflowError] of the cursor. *)
Lemma perform_keeps c s :
  exists r s',
    perform c s = (r, s', [])
    /\ (r = Ok tt \/ r = Raise "OverflowError")
    /\ (1 <= radius_pixels (tool s) -> 1 <= radius_pixels (tool s'))
    /\ (valid_unit_mode (unit_mode (tool s)) -> valid_unit_mode (unit_mode (tool s')))
    /\ (valid_restrict_mode (restrict_mode (tool s)) ->
        valid_restrict_mode (restrict_mode (tool s')))
    /\ (valid_selection_mode (selection_mode (tool s)) ->
        valid_selection_mode (selection_mode (tool s')))
    /\ (passes_positive_radius c -> (0 < radius_map_units (tool s))%Q ->
        (0 < radius_map_units (tool s'))%Q).
Proof.
  destruct c as [pr mr um|rm|sm|show]; simpl.
  - assert (exists r s',
              setRadius pr mr um s = (r, s', [])
              /\ (r = Ok tt \/ r = Raise "OverflowError")
              /\ radius_pixels (tool s') = radius_pixels (radius_set pr mr um (tool s))
              /\ radius_map_units (tool s') = radius_map_units (radius_set pr mr um (tool s))
              /\ unit_mode (tool s') = unit_mode (radius_set pr mr um (tool s))
              /\ restrict_mode (tool s') = restrict_mode (tool s)
              /\ selection_mode (tool s') = selection_mode (tool s))
      as (r & s' & Hrun & Hr & Hp & Hq & Hu & Hrm & Hsm).
    { rewrite setRadius_run.
      destruct (cursor_of (on_tool (radius_set pr mr um) s)) as [c|e] eqn:Hc.
      - do 2 eexists. split; [reflexivity|]. split; [now left|].
        rewrite tool_cursor_set. unfold radius_set.
        destruct pr as [v|], mr as [q|], um as [m|];
          try destruct (decide (m = "pixels" \/ m = "map_units")); repeat split.
      - apply cursor_of_raises in Hc as ->.
        do 2 eexists. split; [reflexivity|]. split; [now right|].
        unfold radius_set.
        destruct pr as [v|], mr as [q|], um as [m|];
          try destruct (decide (m = "pixels" \/ m = "map_units")); repeat split. }
    exists r, s'. split; [exact Hrun|]. split; [exact Hr|].
    rewrite Hp, Hq, Hu, Hrm, Hsm. unfold radius_set, valid_unit_mode.
    destruct pr as [v|], mr as [q|], um as [m|];
      try destruct (decide (m = "pixels" \/ m = "map_units")); simpl;
      repeat split; try tauto; intros; lia.
  - do 2 eexists. split; [apply setRestrictMode_run|]. split; [now left|]. simpl.
    unfold restrict_mode_set, valid_restrict_mode.
    destruct (decide _); simpl; repeat split; tauto.
  - do 2 eexists. split; [apply setSelectionMode_run|]. split; [now left|]. simpl.
    unfold selection_mode_set, valid_selection_mode.
    destruct (decide _); simpl; repeat split; tauto.
  - do 2 eexists. split; [apply setShowRubberBand_run|]. split; [now left|]. simpl.
    repeat split; tauto.
Qed.

Lemma after_calls_cons c calls s :
  after_calls (c :: calls) s = after_calls calls (state_after (perform c) s).
Proof. reflexivity. Qed.

(** What [__init__] stores, when it returns. *)
Lemma __init___stores rp rmu um segments rm sm show t0 :
  __init__ rp rmu um segments rm sm show = Ok t0 ->
  radius_pixels t0 = Z.max 1 rp
  /\ radius_map_units t0 = rmu
  /\ unit_mode t0 = um
  /\ restrict_mode t0 = rm
  /\ selection_mode t0 = sm
  /\ _cursor_for_radius (Z.max 1 rp) = Ok (cursor t0).
Proof.
  unfold __init__. destruct (_cursor_for_radius (Z.max 1 rp)) as [c|e]; [|discriminate].
  intros [= <-]. repeat split.
Qed.

(** C3, as the code has it.  After a construction that returns and any
    sequence of setter calls with any arguments, each call returning or
    raising: the pixel radius is at least 1; each of the three modes
    holds an enumerated value if the constructor was given one, the
    setters storing no other; the map-unit radius is positive if the
    constructor and every call were given a positive one, no setter
    checking it.  A setter call logs nothing and raises nothing but the
    [OverflowError] of a cursor too large for Qt, after it has stored its
    arguments; the constructor raises it exactly when the pixel radius is
    too large. *)
Theorem configuration_after_setters (rp : Z) (rmu : Q) (um : string) (segments : Z)
    (rm sm : string) (show : bool) (h : Host) (sh : Shell) (calls : list Call)
    (t0 : Tool) :
  __init__ rp rmu um segments rm sm show = Ok t0 ->
  let s' := after_calls calls (Build_Sys t0 h sh) in
  1 <= radius_pixels (tool s')
  /\ (valid_unit_mode um -> valid_unit_mode (unit_mode (tool s')))
  /\ (valid_restrict_mode rm -> valid_restrict_mode (restrict_mode (tool s')))
  /\ (valid_selection_mode sm -> valid_selection_mode (selection_mode (tool s')))
  /\ ((0 < rmu)%Q -> Forall passes_positive_radius calls ->
      (0 < radius_map_units (tool s'))%Q)
  /\ ((0 < rmu)%Q -> Forall passes_positive_radius calls ->
      valid_unit_mode um -> valid_restrict_mode rm -> valid_selection_mode sm ->
      config_ok (tool s'))
  /\ (forall c s, exists r s1,
        perform c s = (r, s1, []) /\ (r = Ok tt \/ r = Raise "OverflowError"))
  /\ Z.max 1 rp * 2 + 8 <= INT_MAX.
Proof.
  intros Hinit s'.
  destruct (__init___stores _ _ _ _ _ _ _ _ Hinit) as (Hp0 & Hq0 & Hu0 & Hr0 & Hs0 & Hc0).
  assert (forall s,
            (1 <= radius_pixels (tool s) -> 1 <= radius_pixels (tool (after_calls calls s)))
            /\ (valid_unit_mode (unit_mode (tool s)) ->
                valid_unit_mode (unit_mode (tool (after_calls calls s))))
            /\ (valid_restrict_mode (restrict_mode (tool s)) ->
                valid_restrict_mode (restrict_mode (tool (after_calls calls s))))
            /\ (valid_selection_mode (selection_mode (tool s)) ->
                valid_selection_mode (selection_mode (tool (after_calls calls s))))
            /\ (Forall passes_positive_radius calls ->
                (0 < radius_map_units (tool s))%Q ->
                (0 < radius_map_units (tool (after_calls calls s)))%Q)) as Hall.
  { induction calls as [|c calls IH]; intros s.
    - repeat split; tauto.
    - rewrite after_calls_cons.
      destruct (perform_keeps c s) as (r & s1 & Hc & _ & Hp1 & Hu1 & Hr1 & Hs1 & Hq1).
      replace (state_after (perform c) s) with s1
        by (unfold state_after; now rewrite Hc).
      destruct (IH s1) as (Hp & Hu & Hr & Hs & Hq).
      repeat split; try tauto.
      intros Hpos H0. apply Forall_cons in Hpos as [Hpos0 Hpos]. tauto. }
  destruct (Hall (Build_Sys t0 h sh)) as (Hp & Hu & Hr & Hs & Hq).
  cbn [tool] in Hp, Hu, Hr, Hs, Hq. rewrite Hp0 in Hp. rewrite Hu0 in Hu.
  rewrite Hr0 in Hr. rewrite Hs0 in Hs. rewrite Hq0 in Hq.
  assert (1 <= radius_pixels (tool s')) as Hpix by (apply Hp; lia).
  split; [exact Hpix|]. split; [exact Hu|]. split; [exact Hr|]. split; [exact Hs|].
  split; [tauto|]. split; [unfold config_ok; tauto|]. split.
  - intros c s. destruct (perform_keeps c s) as (r & s1 & Hc & Hres & _). eauto.
  - unfold _cursor_for_radius in Hc0.
    destruct (decide _) as [[[_ Hsize] _]|]; [|discriminate]. lia.
Qed.

End Configuration.

(** Invalid arguments at every call, one of which raises: the stored
    configuration stays valid. *)
Lemma configuration_after_setters_witness :
  let calls := [SetRadius (Some (-7)) None (Some "furlongs");
                SetRestrictMode "hidden"; SetSelectionMode "xor";
                SetRadius (Some 2147483648) None None;
                SetRadius (Some 0) (Some (5 # 2)) (Some "map_units")] in
  let s' := after_calls calls (Lattice.demo [Lattice.roads]) in
  config_ok (tool s')
  /\ fst (fst (perform (SetRadius (Some 2147483648) None None)
                 (Lattice.demo [Lattice.roads])))
     = Raise "OverflowError".
Proof.
  intros calls s'. split; [|vm_compute; reflexivity].
  destruct (configuration_after_setters 4 2 "pixels" DEFAULT_CIRCLE_SEGMENTS
              "visible" "toggle" true
              (Lattice.demo_host [Lattice.roads])
              {| panel := Lattice.demo_panel; previous_map_tool := NoTool;
                 checked := false |}
              calls Lattice.demo_tool)
    as (_ & _ & _ & _ & _ & Hok & _).
  - vm_compute. reflexivity.
  - apply Hok.
    + reflexivity.
    + repeat constructor.
    + now left.
    + right. now left.
    + right. now right.
Defined.

(** C3 as stated fails on the map-unit radius and on the constructor:
    [setRadius] stores a negative map-unit radius as it is, and
    [__init__] stores a selection mode that is not enumerated. *)
Lemma configuration_invariant_can_break :
  let s := Lattice.after (setRadius None (Some (-5 # 1)) None) (Lattice.demo [Lattice.roads]) in
  radius_map_units (tool s) = -5 # 1
  /\ ~ config_ok (tool s)
  /\ exists t,
       __init__ 20 10 "pixels" DEFAULT_CIRCLE_SEGMENTS "visible" "xor" true = Ok t
       /\ selection_mode t = "xor"
       /\ ~ config_ok t.
Proof.
  intros s. split; [reflexivity|]. split.
  - intros (_ & Hq & _). vm_compute in Hq. discriminate.
  - eexists. split; [vm_compute; reflexivity|]. split; [reflexivity|].
    intros (_ & _ & _ & _ & [H|[H|H]]); discriminate.
Qed.

(** ** Activation *)

Section Activation.
Context {T : GeoTypes} {G : Geo T}.

(** The cursor depends on the unit mode, the two radii and the scale of
    the canvas only. *)
Lemma cursor_of_ext s s' :
  unit_mode (tool s) = unit_mode (tool s') ->
  radius_pixels (tool s) = radius_pixels (tool s') ->
  radius_map_units (tool s) = radius_map_units (tool s') ->
  mapUnitsPerPixel (host s) = mapUnitsPerPixel (host s') ->
  cursor_of s = cursor_of s'.
Proof. unfold cursor_of, pixel_radius_of. now intros -> -> -> ->. Qed.

Lemma called_by_qt_run (m : M Sys unit) s :
  called_by_qt m s
  = match m s with
    | (Ok a, s1, t1) => (Ok a, s1, t1)
    | (Raise e, s1, t1) => (Ok tt, s1, t1 ++ [Unhandled e])
    end.
Proof. unfold called_by_qt, try_except. now destruct (m s) as [[[a|e] s1] t1]. Qed.

Lemma activate_run s :
  activate s
  = match cursor_of s with
    | Ok c => (Ok tt, activated c s, [])
    | Raise e => (Raise e, on_host (set_canvas_cursor (Some (cursor (tool s)))) s, [])
    end.
Proof.
  unfold activate. unfold bind at 1, gets at 1. unfold bind at 1, modify at 1.
  unfold bind at 1. rewrite _compute_pixel_radius_for_cursor_run.
  change (pixel_radius_of (on_host (set_canvas_cursor (Some (cursor (tool s)))) s))
    with (pixel_radius_of s).
  unfold cursor_of. destruct (pixel_radius_of s) as [radius|e]; [|reflexivity].
  unfold bind at 1, call. destruct (_cursor_for_radius radius) as [c|e]; [|reflexivity].
  unfold activated. destruct s as [t h sh].
  unfold bind, modify, gets, on_rubber_band, on_tool, on_host. simpl.
  destruct (show_rubber_band t); reflexivity.
Qed.

(** This tool is set on the canvas, by whatever call of
    [canvas.setMapTool]. *)
Lemma setMapTool_activates s :
  mapTool (host s) <> ThisTool ->
  setMapTool ThisTool s
  = match cursor_of s with
    | Ok c => (Ok tt, activated c (on_host (set_mapTool ThisTool) s), [])
    | Raise e =>
        (Ok tt,
         on_host (set_canvas_cursor (Some (cursor (tool s))))
           (on_host (set_mapTool ThisTool) s),
         [Unhandled e])
    end.
Proof.
  intros Hne. unfold setMapTool. simpl. unfold bind at 1, gets.
  destruct (decide (mapTool (host s) = ThisTool)); [done|].
  unfold bind, ret, modify. rewrite called_by_qt_run, activate_run.
  change (cursor_of (on_host (set_mapTool ThisTool) s)) with (cursor_of s).
  now destruct (cursor_of s).
Qed.

Lemma eligible_ext s s' l :
  restrict_mode (tool s) = restrict_mode (tool s') ->
  layerTree (host s) = layerTree (host s') ->
  currentLayer (host s) = currentLayer (host s') ->
  eligible s l = eligible s' l.
Proof. intros Hr Ht Hc. unfold eligible. now rewrite Hr, Ht, Hc. Qed.

Lemma built_indexes_ext s s' layers : forall m,
  (forall l, eligible s l = eligible s' l) ->
  built_indexes s layers m = built_indexes s' layers m.
Proof.
  induction layers as [|l layers IH]; intros m Hel; [reflexivity|].
  rewrite !built_indexes_cons. unfold indexable. rewrite Hel. now apply IH.
Qed.

(** [setRadius] stores the radii and the unit mode, and nothing else. *)
Lemma radius_set_keeps pr mr um t :
  layer_indexes (radius_set pr mr um t) = layer_indexes t
  /\ indexed_layer_ids (radius_set pr mr um t) = indexed_layer_ids t
  /\ restrict_mode (radius_set pr mr um t) = restrict_mode t
  /\ selection_mode (radius_set pr mr um t) = selection_mode t
  /\ show_rubber_band (radius_set pr mr um t) = show_rubber_band t
  /\ rubber_band (radius_set pr mr um t) = rubber_band t
  /\ cursor (radius_set pr mr um t) = cursor t
  /\ _hover_timer (radius_set pr mr um t) = _hover_timer t
  /\ _pending_pos (radius_set pr mr um t) = _pending_pos t.
Proof.
  unfold radius_set.
  destruct pr as [v|], mr as [q|], um as [m|];
    try destruct (decide (m = "pixels" \/ m = "map_units")); repeat split.
Qed.

Lemma host_cursor_set c s :
  mapTool (host s) <> ThisTool -> host (cursor_set c s) = host s.
Proof. intros Hne. unfold cursor_set. now destruct (decide _). Qed.

(** What the setter calls of [toggle_activation(True)] leave of the
    state in which [setRadius] built the cursor. *)
Lemma configured_facts c s :
  mapTool (host s) <> ThisTool ->
  host (configured c s) = host s
  /\ shell (configured c s) = set_previous_map_tool (mapTool (host s)) (shell s)
  /\ unit_mode (tool (configured c s)) = unit_mode (tool (radius_configured s))
  /\ radius_pixels (tool (configured c s)) = radius_pixels (tool (radius_configured s))
  /\ radius_map_units (tool (configured c s))
     = radius_map_units (tool (radius_configured s))
  /\ layer_indexes (tool (configured c s)) = layer_indexes (tool s)
  /\ show_rubber_band (tool (configured c s)) = p_show_rubber_band (panel (shell s))
  /\ rb_visible (rubber_band (tool (configured c s)))
     = p_show_rubber_band (panel (shell s)).
Proof.
  intros Hne. unfold configured.
  set (s1 := radius_configured s).
  assert (mapTool (host s1) <> ThisTool) as Hne1 by exact Hne.
  cbn [host shell tool on_tool].
  rewrite (host_cursor_set c s1 Hne1), tool_cursor_set.
  split; [reflexivity|]. split; [unfold cursor_set; now destruct (decide _)|].
  unfold restrict_mode_set, selection_mode_set, rubber_band_shown.
  destruct (decide (p_restrict_mode _ = "all" \/ _)), (decide (p_selection_mode _ = "add" \/ _));
    cbn; (repeat split; try reflexivity).
  all: try (subst s1; unfold radius_configured, radius_set; cbn;
            destruct (decide _); reflexivity).
  all: now destruct (p_show_rubber_band (panel (shell s))).
Qed.

Lemma toggle_activation_on_run s :
  mapTool (host s) <> ThisTool ->
  toggle_activation true s
  = match cursor_of (radius_configured s) with
    | Raise e => (Raise e, radius_configured s, [])
    | Ok c =>
        (Ok tt,
         activated c (on_host (set_mapTool ThisTool) (rebuilt (configured c s))),
         (mjoin (rebuild_log_entry (configured c s) <$> mapLayers (host (configured c s)))
          ++ [IndexesRebuilt])
         ++ [LogMessage "Select on hover tool activated" "SelectOnHover" Info])
    end.
Proof.
  intros Hne. unfold toggle_activation.
  unfold bind at 1, gets at 1. unfold bind at 1, modify at 1.
  unfold bind at 1, gets at 1.
  unfold bind at 1. rewrite setRadius_run.
  change (on_tool (radius_set _ _ _) _) with (radius_configured s).
  destruct (cursor_of (radius_configured s)) as [c|e] eqn:Hc; [|reflexivity].
  erewrite bind_ok_nil; [|apply setRestrictMode_run].
  erewrite bind_ok_nil; [|apply setSelectionMode_run].
  erewrite bind_ok_nil; [|apply setShowRubberBand_run].
  change (on_tool (rubber_band_shown _) _) with (configured c s).
  destruct (configured_facts c s Hne) as (Hhost & _ & Hu & Hp & Hq & _).
  unfold bind at 1. rewrite rebuildIndexes_run. fold (rebuilt (configured c s)).
  unfold bind at 1. rewrite (setMapTool_activates (rebuilt (configured c s)))
    by (change (host (rebuilt (configured c s))) with (host (configured c s));
        now rewrite Hhost).
  rewrite (cursor_of_ext (rebuilt (configured c s)) (radius_configured s)), Hc;
    [reflexivity|exact Hu|exact Hp|exact Hq|].
  change (host (rebuilt (configured c s))) with (host (configured c s)).
  now rewrite Hhost.
Qed.

Lemma activated_tool c s :
  tool (activated c s)
  = if show_rubber_band (tool s)
    then set_rubber_band (rubber_band_show (rubber_band (tool s))) (tool s)
    else tool s.
Proof. reflexivity. Qed.

Lemma activated_host c s :
  host (activated c s) = set_canvas_cursor (Some c) (host s).
Proof. reflexivity. Qed.

Lemma cursor_of_activated c s : cursor_of (activated c s) = cursor_of s.
Proof.
  apply cursor_of_ext; rewrite ?activated_tool, ?activated_host;
    now destruct (show_rubber_band (tool s)).
Qed.

Lemma activated_cache c s :
  layer_indexes (tool (activated c s)) = layer_indexes (tool s)
  /\ indexed_layer_ids (tool (activated c s)) = indexed_layer_ids (tool s).
Proof. rewrite activated_tool. now destruct (show_rubber_band (tool s)). Qed.

Lemma eligible_activated c s l : eligible (activated c s) l = eligible s l.
Proof.
  apply eligible_ext; try reflexivity.
  rewrite activated_tool. now destruct (show_rubber_band (tool s)).
Qed.

(** The state [toggle_activation(True)] leaves when [setRadius] has built
    the cursor. *)
Lemma activated_facts (c : Cursor) (s1 : Sys) :
  cursor_of s1 = Ok c ->
  rb_visible (rubber_band (tool s1)) = show_rubber_band (tool s1) ->
  prepared (activated c (on_host (set_mapTool ThisTool) (rebuilt s1))).
Proof.
  intros Hc Hvis. set (s' := activated c (on_host (set_mapTool ThisTool) (rebuilt s1))).
  assert (forall l, eligible s1 l = eligible s' l)
    as Hel by (intros l; subst s'; now rewrite eligible_activated).
  split; [reflexivity|].
  split.
  { exists c. split; [|reflexivity]. subst s'. now rewrite cursor_of_activated. }
  subst s'. rewrite activated_tool.
  change (show_rubber_band (tool (on_host (set_mapTool ThisTool) (rebuilt s1))))
    with (show_rubber_band (tool s1)).
  change (tool (on_host (set_mapTool ThisTool) (rebuilt s1))) with (tool (rebuilt s1)).
  split.
  { rewrite <- (built_indexes_ext s1 _ _ _ Hel).
    now destruct (show_rubber_band (tool s1)). }
  split.
  { destruct (show_rubber_band (tool s1)); now apply built_ids_dom. }
  destruct (show_rubber_band (tool s1)) eqn:E; simpl; [now rewrite E|].
  now rewrite E, Hvis.
Qed.

End Activation.

(** ** How this tool becomes the canvas's tool *)

Section Events.
Context {T : GeoTypes} {G : Geo T}.

(** The trace holds no [IndexesRebuilt]. *)
Ltac not_rebuilt :=
  let H := fresh in
  intros H; cbn in H;
  repeat (apply elem_of_cons in H as [H|H]; [discriminate|]);
  now apply elem_of_nil in H.

Lemma same_activation_refl s : same_activation s s.
Proof. repeat split. Qed.

Lemma same_activation_trans s1 s2 s3 :
  same_activation s1 s2 -> same_activation s2 s3 -> same_activation s1 s3.
Proof.
  intros (Hp & Hc & Hm) (Hp' & Hc' & Hm'). repeat split; congruence.
Qed.

Lemma safe_framed {A} (m : M Sys A) : safe m -> framed m.
Proof. intros Hm s. destruct (Hm s) as (a & s' & t & H & Hs). eauto. Qed.

Lemma safe_ret {A} (a : A) : safe (ret a).
Proof. intros s. exists a, s, []. split; [reflexivity|apply same_activation_refl]. Qed.

Lemma safe_gets {A} (f : Sys -> A) : safe (gets f).
Proof. intros s. exists (f s), s, []. split; [reflexivity|apply same_activation_refl]. Qed.

Lemma safe_emit e : safe (emit e).
Proof. intros s. exists tt, s, [e]. split; [reflexivity|apply same_activation_refl]. Qed.

Lemma safe_modify (f : Sys -> Sys) :
  (forall s, same_activation s (f s)) -> safe (modify f).
Proof. intros Hf s. exists tt, (f s), []. split; [reflexivity|apply Hf]. Qed.

Lemma framed_call {A} (r : result A) : framed (call r).
Proof. intros s. exists r, s, []. split; [reflexivity|apply same_activation_refl]. Qed.

Lemma safe_bind {A B} (m : M Sys A) (k : A -> M Sys B) :
  safe m -> (forall a, safe (k a)) -> safe (bind m k).
Proof.
  intros Hm Hk s. destruct (Hm s) as (a & s1 & t1 & H1 & Hs1).
  destruct (Hk a s1) as (b & s2 & t2 & H2 & Hs2).
  exists b, s2, (t1 ++ t2). split; [|now apply (same_activation_trans _ s1)].
  unfold bind. now rewrite H1, H2.
Qed.

Lemma framed_bind {A B} (m : M Sys A) (k : A -> M Sys B) :
  framed m -> (forall a, framed (k a)) -> framed (bind m k).
Proof.
  intros Hm Hk s. destruct (Hm s) as ([a|e] & s1 & t1 & H1 & Hs1).
  - destruct (Hk a s1) as (r & s2 & t2 & H2 & Hs2).
    exists r, s2, (t1 ++ t2). split; [|now apply (same_activation_trans _ s1)].
    unfold bind. now rewrite H1, H2.
  - exists (Raise e), s1, t1. split; [|done]. unfold bind. now rewrite H1.
Qed.

Lemma safe_try_except {A} (m : M Sys A) h :
  framed m -> (forall e, safe (h e)) -> safe (try_except m h).
Proof.
  intros Hm Hh s. destruct (Hm s) as ([a|e] & s1 & t1 & H1 & Hs1).
  - exists a, s1, t1. split; [|done]. unfold try_except. now rewrite H1.
  - destruct (Hh e s1) as (b & s2 & t2 & H2 & Hs2).
    exists b, s2, (t1 ++ t2). split; [|now apply (same_activation_trans _ s1)].
    unfold try_except. now rewrite H1, H2.
Qed.

Lemma safe_for_fold {A X} (body : A -> X -> M Sys A) xs :
  (forall acc x, safe (body acc x)) -> forall acc, safe (for_fold body acc xs).
Proof.
  intros Hbody. induction xs as [|x xs IH]; intros acc; simpl.
  - apply safe_ret.
  - apply safe_bind; [apply Hbody|]. intros acc'. apply IH.
Qed.

Lemma same_on_tool f s : same_activation s (on_tool f s).
Proof. repeat split. Qed.

Lemma same_cursor_set c s : same_activation s (cursor_set c s).
Proof. unfold cursor_set. destruct (decide _); repeat split. Qed.

Lemma framed_refresh_cursor :
  framed (pix_radius <- _compute_pixel_radius_for_cursor ;;
          c <- call (_cursor_for_radius pix_radius) ;;
          setCursor c).
Proof.
  intros s. rewrite refresh_cursor_run. destruct (cursor_of s) as [c|e].
  - do 3 eexists. split; [reflexivity|apply same_cursor_set].
  - do 3 eexists. split; [reflexivity|apply same_activation_refl].
Qed.

Lemma framed_setRadius pr mr um : framed (setRadius pr mr um).
Proof.
  intros s. rewrite setRadius_run.
  destruct (cursor_of (on_tool (radius_set pr mr um) s)) as [c|e].
  - do 3 eexists. split; [reflexivity|].
    apply (same_activation_trans _ (on_tool (radius_set pr mr um) s));
      [apply same_on_tool|apply same_cursor_set].
  - do 3 eexists. split; [reflexivity|apply same_on_tool].
Qed.

Lemma safe_setRestrictMode rm : safe (setRestrictMode rm).
Proof.
  intros s. rewrite setRestrictMode_run. do 3 eexists. split; [reflexivity|].
  apply same_on_tool.
Qed.

Lemma safe_setSelectionMode sm : safe (setSelectionMode sm).
Proof.
  intros s. rewrite setSelectionMode_run. do 3 eexists. split; [reflexivity|].
  apply same_on_tool.
Qed.

Lemma safe_setShowRubberBand show : safe (setShowRubberBand show).
Proof.
  intros s. rewrite setShowRubberBand_run. do 3 eexists. split; [reflexivity|].
  apply same_on_tool.
Qed.

Lemma safe_rebuildIndexes : safe rebuildIndexes.
Proof.
  intros s. rewrite rebuildIndexes_run. do 3 eexists. split; [reflexivity|].
  apply same_on_tool.
Qed.

Lemma safe__do_selection : safe _do_selection.
Proof.
  intros s. destruct (_pending_pos (tool s)) as [pos|] eqn:Hpos.
  - rewrite (_do_selection_run pos) by done.
    destruct (layers_outcome _ _ _ _ _ _) as [[total sel] t].
    do 3 eexists. split; [reflexivity|].
    unfold overlay_updated. destruct (show_rubber_band (tool s)); repeat split.
  - rewrite _do_selection_idle by done. do 3 eexists.
    split; [reflexivity|apply same_activation_refl].
Qed.

Lemma safe_elapse ms : safe (elapse ms).
Proof.
  unfold elapse. apply safe_bind; [apply safe_gets|]. intros [remaining|].
  - destruct (decide (remaining <= ms)).
    + apply safe_bind; [|intros _; apply safe__do_selection].
      apply safe_modify. intros s. apply same_on_tool.
    + apply safe_modify. intros s. apply same_on_tool.
  - apply safe_ret.
Qed.

Lemma safe_canvasMoveEvent pos : safe (canvasMoveEvent pos).
Proof.
  intros s. rewrite canvasMoveEvent_run. do 3 eexists. split; [reflexivity|].
  apply same_on_tool.
Qed.

Lemma safe__on_layers_changed : safe _on_layers_changed.
Proof.
  apply safe_bind; [apply safe_gets|]. intros current.
  destruct (decide (current = ThisTool)); [|apply safe_ret].
  apply safe_bind; [apply safe_emit|]. intros _. apply safe_rebuildIndexes.
Qed.

Lemma safe_onRebuildIndexesRequested : safe onRebuildIndexesRequested.
Proof.
  apply safe_bind; [apply safe_emit|]. intros _.
  apply safe_bind; [apply safe_rebuildIndexes|]. intros _.
  apply safe_try_except; [apply safe_framed, safe_emit|]. intros _. apply safe_ret.
Qed.

Lemma framed_layer_selectByIds l ids : framed (layer_selectByIds l ids).
Proof.
  unfold layer_selectByIds. destruct (l_commit l); [apply framed_call|].
  apply safe_framed, safe_modify. intros s. repeat split.
Qed.

Lemma framed_layer_selectedFeatureCount l : framed (layer_selectedFeatureCount l).
Proof.
  unfold layer_selectedFeatureCount. destruct (l_read_selection l); [apply framed_call|].
  apply safe_framed, safe_gets.
Qed.

Lemma safe_onClearSelectionRequested : safe onClearSelectionRequested.
Proof.
  apply safe_bind; [apply safe_gets|]. intros layers.
  apply safe_bind.
  - apply safe_for_fold. intros count layer.
    apply safe_try_except; [|intros _; apply safe_ret].
    destruct (decide (l_type layer = VectorLayer)); [|apply safe_framed, safe_ret].
    apply framed_bind; [apply framed_layer_selectedFeatureCount|]. intros n.
    destruct (decide (0 < n)); [|apply safe_framed, safe_ret].
    apply safe_framed, safe_try_except; [|intros _; apply safe_ret].
    apply framed_bind; [apply framed_layer_selectByIds|].
    intros _. apply safe_framed, safe_ret.
  - intros count. destruct (decide (0 < count)); [|apply safe_ret].
    apply safe_bind; [|intros _; apply safe_emit].
    apply safe_try_except; [apply safe_framed, safe_emit|]. intros _. apply safe_ret.
Qed.

Lemma same_set_panel p s : same_activation s (on_shell (set_panel p) s).
Proof. repeat split. Qed.

(** Every event but a click on the tool button and the choice of a tool
    leaves the button, the remembered tool and the canvas's tool as they
    were, whether its slot returns or raises. *)
Lemma framed_handle e :
  e <> ToolButtonToggled -> (forall n, e <> OtherToolSelected n) ->
  e <> ThisToolSelected -> framed (handle e).
Proof.
  intros Hclick Hother Hthis. destruct e as [|p|p|p| | |layers|mup|pos|ms|n|]; simpl.
  - done.
  - apply framed_bind; [apply safe_framed, safe_modify, same_set_panel|]. intros _.
    apply framed_setRadius.
  - apply safe_framed.
    apply safe_bind; [apply safe_modify, same_set_panel|]. intros _.
    apply safe_bind; [apply safe_setRestrictMode|]. intros _.
    apply safe_bind; [apply safe_setSelectionMode|]. intros _. apply safe_rebuildIndexes.
  - apply safe_framed.
    apply safe_bind; [apply safe_modify, same_set_panel|]. intros _.
    apply safe_setShowRubberBand.
  - apply safe_framed, safe_onRebuildIndexesRequested.
  - apply safe_framed, safe_onClearSelectionRequested.
  - apply safe_framed.
    apply safe_bind; [apply safe_modify; intros s; repeat split|]. intros _.
    apply safe__on_layers_changed.
  - apply framed_bind; [apply safe_framed, safe_modify; intros s; repeat split|]. intros _.
    apply framed_refresh_cursor.
  - apply safe_framed.
    apply safe_bind; [apply safe_gets|]. intros current.
    destruct (decide (current = ThisTool)); [apply safe_canvasMoveEvent|apply safe_ret].
  - apply safe_framed, safe_elapse.
  - now destruct (Hother n).
  - done.
Qed.

(** A click flips the button and calls [toggle_activation] with its new
    state. *)
Lemma handle_click s :
  handle ToolButtonToggled s
  = toggle_activation (negb (checked (shell s)))
      (on_shell (fun sh => set_checked (negb (checked sh)) sh) s).
Proof.
  cbn [handle]. unfold bind at 1, modify. unfold bind at 1, gets. cbn.
  now destruct (toggle_activation _ _) as [[? ?] ?].
Qed.

(** Delivering an event leaves the state its slot leaves, and reports the
    exception of the slot if it raises. *)
Lemma deliver_run e s :
  state_after (deliver e) s = state_after (handle e) s
  /\ exists t, deliver e s = (Ok tt, state_after (handle e) s, t)
       /\ (IndexesRebuilt ∈ t <-> IndexesRebuilt ∈ snd (handle e s)).
Proof.
  unfold deliver, state_after. rewrite called_by_qt_run.
  destruct (handle e s) as [[[[]|err] s1] t1]; cbn [fst snd].
  - split; [reflexivity|]. exists t1. split; [reflexivity|tauto].
  - split; [reflexivity|]. exists (t1 ++ [Unhandled err]). split; [reflexivity|].
    rewrite elem_of_app, list_elem_of_singleton. split; [|tauto].
    intros [H|H]; [exact H|discriminate].
Qed.

Lemma setMapTool_other new s :
  new <> ThisTool -> new <> NoTool ->
  exists s',
    setMapTool new s = (Ok tt, s', [])
    /\ shell s' = shell s /\ mapTool (host s') = new.
Proof.
  intros Hthis Hnone. unfold setMapTool.
  destruct (decide (new = NoTool)); [done|].
  unfold bind at 1, gets.
  destruct (decide (mapTool (host s) = new)) as [Heq|Hne].
  { exists s. repeat split. exact Heq. }
  destruct (decide (new = ThisTool)); [done|].
  destruct (decide (mapTool (host s) = ThisTool)).
  - eexists. split; [unfold bind; rewrite called_by_qt_run, deactivate_run; reflexivity|].
    split; reflexivity.
  - eexists. split; [reflexivity|]. split; reflexivity.
Qed.

Lemma unsetMapTool_inactive s :
  mapTool (host s) <> ThisTool -> unsetMapTool ThisTool s = (Ok tt, s, []).
Proof.
  intros Hne. unfold unsetMapTool, bind at 1, gets.
  now destruct (decide (mapTool (host s) <> NoTool /\ mapTool (host s) = ThisTool))
    as [[_ Heq]|_].
Qed.

(** [toggle_activation(False)] while this tool is not the canvas's tool:
    it becomes the canvas's tool only as the remembered tool, and then
    the cache is left as it is. *)
Lemma toggle_activation_off_restores s s' r t :
  mapTool (host s) <> ThisTool ->
  toggle_activation false s = (r, s', t) ->
  mapTool (host s') = ThisTool ->
  previous_map_tool (shell s) = ThisTool
  /\ layer_indexes (tool s') = layer_indexes (tool s)
  /\ indexed_layer_ids (tool s') = indexed_layer_ids (tool s)
  /\ IndexesRebuilt ∉ t.
Proof.
  intros Hne. unfold toggle_activation, bind at 1, gets.
  destruct (decide (previous_map_tool (shell s) <> NoTool)) as [Hsome|Hnone].
  - destruct (decide (previous_map_tool (shell s) = ThisTool)) as [Hprev|Hprev].
    + rewrite Hprev. unfold bind. rewrite (setMapTool_activates s Hne).
      destruct (cursor_of s) as [c|e]; intros [= <- <- <-] _.
      * destruct (activated_cache c (on_host (set_mapTool ThisTool) s)) as [Hidx Hids].
        split; [reflexivity|]. split; [apply Hidx|]. split; [apply Hids|]. not_rebuilt.
      * split; [reflexivity|]. split; [reflexivity|]. split; [reflexivity|]. not_rebuilt.
    + destruct (setMapTool_other _ s Hprev Hsome) as (s1 & Hrun & _ & Htool).
      unfold bind. rewrite Hrun. intros [= <- <- <-]. rewrite Htool. done.
  - unfold bind. rewrite (unsetMapTool_inactive s Hne). intros [= <- <- <-]. done.
Qed.

(** C9, as the code has it.  While this tool is not the canvas's tool:

    - [canvas.setMapTool(map_tool)], by whatever caller, makes it the
      canvas's tool and leaves the index cache as it is; [activate]
      gives the canvas the cursor of the pixel radius computed from the
      settings and shows the overlay if it is enabled, or, if the cursor
      cannot be built, its exception is reported and the canvas has the
      cursor the tool kept;
    - [toggle_activation(True)] raises before it has set the tool if
      [setRadius] cannot build the cursor; otherwise it rebuilds the
      index cache, sets the tool and leaves it prepared: the cache is
      the one [rebuildIndexes] builds for the layers and settings of
      that moment, the canvas shows the cursor, the overlay is visible
      exactly if it is enabled;
    - an event that makes this tool the canvas's tool is a click that
      checks the tool button, and then the tool is prepared and the
      indexes have been rebuilt; or it is the host setting the tool, or
      a click that unchecks the button while this tool is the remembered
      one, and then the cache is left as it is. *)
Theorem activation_rebuilds_only_through_the_button (s : Sys) :
  mapTool (host s) <> ThisTool ->
  (exists s' t,
     setMapTool ThisTool s = (Ok tt, s', t)
     /\ mapTool (host s') = ThisTool
     /\ layer_indexes (tool s') = layer_indexes (tool s)
     /\ indexed_layer_ids (tool s') = indexed_layer_ids (tool s)
     /\ match cursor_of s with
        | Ok c =>
            t = []
            /\ canvas_cursor (host s') = Some c
            /\ (show_rubber_band (tool s) = true ->
                rb_visible (rubber_band (tool s')) = true)
        | Raise e =>
            t = [Unhandled e]
            /\ canvas_cursor (host s') = Some (cursor (tool s))
            /\ rubber_band (tool s') = rubber_band (tool s)
        end)
  /\ (exists r s' t,
        toggle_activation true s = (r, s', t)
        /\ match cursor_of (radius_configured s) with
           | Ok _ => r = Ok tt /\ IndexesRebuilt ∈ t /\ prepared s'
           | Raise e =>
               r = Raise e /\ t = []
               /\ mapTool (host s') = mapTool (host s)
               /\ layer_indexes (tool s') = layer_indexes (tool s)
           end)
  /\ (forall e,
        let s' := state_after (deliver e) s in
        mapTool (host s') = ThisTool ->
        (e = ToolButtonToggled /\ checked (shell s) = false
         /\ prepared s' /\ IndexesRebuilt ∈ snd (deliver e s))
        \/ ((e = ThisToolSelected
             \/ (e = ToolButtonToggled /\ checked (shell s) = true
                 /\ previous_map_tool (shell s) = ThisTool))
            /\ layer_indexes (tool s') = layer_indexes (tool s)
            /\ indexed_layer_ids (tool s') = indexed_layer_ids (tool s)
            /\ IndexesRebuilt ∉ snd (deliver e s))).
Proof.
  intros Hne.
  assert (forall s0, mapTool (host s0) <> ThisTool ->
            exists r s' t,
              toggle_activation true s0 = (r, s', t)
              /\ match cursor_of (radius_configured s0) with
                 | Ok _ => r = Ok tt /\ IndexesRebuilt ∈ t /\ prepared s'
                 | Raise e =>
                     r = Raise e /\ t = []
                     /\ mapTool (host s') = mapTool (host s0)
                     /\ layer_indexes (tool s') = layer_indexes (tool s0)
                 end) as Hon.
  { intros s0 Hne0. rewrite (toggle_activation_on_run s0 Hne0).
    destruct (cursor_of (radius_configured s0)) as [c|e] eqn:Hc.
    - do 3 eexists. split; [reflexivity|]. split; [reflexivity|].
      split; [rewrite !elem_of_app; left; right; left|].
      destruct (configured_facts c s0 Hne0) as (Hhost & _ & Hu & Hp & Hq & _ & Hshow & Hvis).
      apply activated_facts; [|now rewrite Hshow, Hvis].
      rewrite <- Hc. apply cursor_of_ext; try assumption. now rewrite Hhost.
    - do 3 eexists. split; [reflexivity|]. repeat split.
      apply radius_set_keeps. }
  split; [|split; [exact (Hon s Hne)|]].
  - rewrite (setMapTool_activates s Hne). destruct (cursor_of s) as [c|e].
    + do 2 eexists. split; [reflexivity|]. split; [reflexivity|].
      rewrite activated_tool. cbn [tool on_host].
      destruct (show_rubber_band (tool s)); repeat split; try done.
    + do 2 eexists. split; [reflexivity|]. repeat split.
  - intros e s' Hthis.
    destruct (deliver_run e s) as (Hstate & t & Hrun & Hix).
    subst s'. rewrite Hstate in *. rewrite Hrun. cbn [snd]. rewrite Hix. clear Hrun Hix t.
    destruct e as [|p|p|p| | |layers|mup|pos|ms|n|].
    1: { revert Hthis. unfold state_after. rewrite handle_click.
      set (s0 := on_shell (fun sh => set_checked (negb (checked sh)) sh) s).
      assert (mapTool (host s0) <> ThisTool) as Hne0 by exact Hne.
      destruct (checked (shell s)) eqn:Hchecked; cbn [negb].
      - destruct (toggle_activation false s0) as [[r s1] t1] eqn:Hoff. cbn [fst snd].
        intros Hthis.
        destruct (toggle_activation_off_restores s0 s1 r t1 Hne0 Hoff Hthis)
          as (Hprev & Hidx & Hids & Hnot).
        right. split; [right; split; [reflexivity|]; split; [reflexivity|exact Hprev]|].
        split; [exact Hidx|]. split; [exact Hids|exact Hnot].
      - destruct (Hon s0 Hne0) as (r & s1 & t1 & Hrun & Hcase). rewrite Hrun. cbn [fst snd].
        intros Hthis. left. split; [reflexivity|]. split; [reflexivity|].
        destruct (cursor_of (radius_configured s0)) as [c|err].
        + destruct Hcase as (-> & Hix & Hprep). split; [exact Hprep|exact Hix].
        + destruct Hcase as (_ & _ & Htool & _). congruence. }
    11: { right. split; [now left|]. revert Hthis. unfold state_after. cbn [handle].
      rewrite (setMapTool_activates s Hne). intros _.
      destruct (cursor_of s) as [c|err]; cbn [fst snd].
      - destruct (activated_cache c (on_host (set_mapTool ThisTool) s)) as [Hidx Hids].
        split; [exact Hidx|]. split; [exact Hids|]. not_rebuilt.
      - split; [reflexivity|]. split; [reflexivity|]. not_rebuilt. }
    10: { exfalso. revert Hthis. unfold state_after. cbn [handle].
         destruct (setMapTool_other (OtherTool n) s) as (s1 & Hrun & _ & Htool);
           [discriminate|discriminate|].
         rewrite Hrun. cbn [fst snd]. rewrite Htool. discriminate. }
    all: exfalso; revert Hthis; unfold state_after;
      match goal with
      | |- context [handle ?e ?s1] =>
          destruct (framed_handle e ltac:(discriminate) ltac:(discriminate)
                      ltac:(discriminate) s1) as (r & s1' & t & Hrun & _ & _ & Hm)
      end;
      rewrite Hrun; cbn [fst snd]; rewrite Hm; exact Hne.
Qed.

End Events.

(** The user picks another tool, clicks the button (on), hovers, picks
    yet another tool, clicks the button again (off); the next click
    activates the tool, with its indexes rebuilt. *)
Lemma activation_rebuilds_only_through_the_button_witness :
  let s0 := Lattice.demo [Lattice.roads; Lattice.relief] in
  let events := [OtherToolSelected 1; ToolButtonToggled; MouseMoved (0, 0);
                 TimePassed 20; OtherToolSelected 2; ToolButtonToggled] in
  let s := state_after (for_each events deliver) s0 in
  mapTool (host s) = OtherTool 1
  /\ prepared (state_after (deliver ToolButtonToggled) s)
  /\ dom (layer_indexes (tool (state_after (deliver ToolButtonToggled) s))) = {["roads"]}.
Proof.
  intros s0 events s.
  destruct (activation_rebuilds_only_through_the_button s) as (_ & _ & Hevents).
  - vm_compute. discriminate.
  - split; [vm_compute; reflexivity|]. split; [|vm_compute; reflexivity].
    destruct (Hevents ToolButtonToggled) as [(_ & _ & Hprep & _)|([H|(_ & H & _)] & _)].
    + vm_compute. reflexivity.
    + exact Hprep.
    + discriminate.
    + vm_compute in H. discriminate.
Defined.

(** C9 as stated fails on the rebuild: [activate] neither builds nor
    checks the cache.  The tool is active with the layer of the roads
    indexed, the user picks another tool, the layer of the parcels is
    added (no rebuild: this tool is not the canvas's tool), and the host
    hands the canvas back to this tool: it is active again with the old
    cache, which a rebuild would replace.  And a tool that the host sets
    on the canvas right after its construction is active with an empty
    cache. *)
Lemma activation_can_leave_the_cache_stale :
  let s0 := Lattice.demo [Lattice.roads] in
  let events := [ToolButtonToggled; OtherToolSelected 1;
                 LayersChanged [Lattice.roads; Lattice.parcels]] in
  let s := state_after (for_each events deliver) s0 in
  let s' := state_after (deliver ThisToolSelected) s in
  let cold := state_after (deliver ThisToolSelected) s0 in
  mapTool (host s) = OtherTool 1
  /\ mapTool (host s') = ThisTool
  /\ dom (layer_indexes (tool s')) = {["roads"]}
  /\ dom (built_indexes s' (mapLayers (host s')) ∅) = {["roads"; "parcels"]}
  /\ ~ prepared s'
  /\ mapTool (host cold) = ThisTool
  /\ layer_indexes (tool cold) = ∅
  /\ dom (built_indexes cold (mapLayers (host cold)) ∅) = {["roads"]}
  /\ ~ prepared cold.
Proof.
  intros s0 events s s' cold.
  repeat (split; [vm_compute; reflexivity|]).
  split; [|repeat (split; [vm_compute; reflexivity|])].
  - intros (_ & _ & Hidx & _). apply (f_equal dom) in Hidx.
    vm_compute in Hidx. discriminate.
  - intros (_ & _ & Hidx & _). apply (f_equal dom) in Hidx.
    vm_compute in Hidx. discriminate.
Qed.
